(** * Land-records pipeline: join, indicator derivation, classification, overlay

    A shallow embedding of [app.py]: [process_files] (two left merges, four
    numeric conversions, four threshold classifiers) and [create_map].

    Conventions of the embedding.
    - A Python [float] is an IEEE binary64 value: Rocq's primitive [float].
      The integer thresholds of the classifiers are exact in binary64, so a
      comparison of a float with one of them is the comparison of floats.
    - A Python [str] is a [string] whose characters are the code points
      0..255 (the population file is decoded as latin1, one byte per code
      point).
    - An exception is a value of [PyError]; code that can raise lives in the
      [result] monad.
    - [pandas] objects are modelled by what the code observes of them: a
      [Series] is a typed list of cells, a [DataFrame] a row count with
      named columns.  The file readers are outside the embedding, so
      [process_files] starts from the three loaded frames. *)

From Stdlib Require Import ZArith NArith String Ascii List Bool Floats Lia.
Import ListNotations.

Local Open Scope list_scope.
Local Open Scope string_scope.

(** ** Exceptions and the error monad *)

Inductive PyError : Type :=
| KeyError (key : string)
| ValueError (text : string)
| AttributeError (msg : string)
| TypeError (msg : string).

Inductive result (A : Type) : Type :=
| Ok (a : A)
| Err (e : PyError).

Arguments Ok {A} a.
Arguments Err {A} e.

Definition bind {A B : Type} (r : result A) (k : A -> result B) : result B :=
  match r with
  | Ok a => k a
  | Err e => Err e
  end.

Notation "x <- r ;; k" := (bind r (fun x => k))
  (at level 61, r at next level, right associativity).

(** Splits a hypothesis [H : bind r k = Ok b] into the two steps that
    succeeded. *)
Ltac bind_inv H :=
  match type of H with
  | bind ?r _ = Ok _ =>
      let a := fresh "a" in
      let E := fresh "E" a in
      destruct r as [a | ?] eqn:E; simpl in H; [| discriminate H]
  end.

Definition raises {A : Type} (r : result A) : Prop := exists e, r = Err e.

(** [all_ok f xs] runs [f] over [xs] from left to right and stops at the
    first exception, as an element-wise conversion does. *)
Fixpoint all_ok {A B : Type} (f : A -> result B) (xs : list A) : result (list B) :=
  match xs with
  | [] => Ok []
  | x :: xs' =>
      y <- f x ;;
      ys <- all_ok f xs' ;;
      Ok (y :: ys)
  end.

(** ** Python strings *)

Module PyStr.

Definition code (c : ascii) : N := N_of_ascii c.

Definition is_digit (c : ascii) : bool :=
  (48 <=? code c)%N && (code c <=? 57)%N.

Definition digit_value (c : ascii) : Z := Z.of_N (code c) - 48.

(** White space that [float()] strips: the ASCII white space, and the two
    Latin-1 space code points (NEL and NBSP), which CPython first rewrites
    to a blank. *)
Definition is_space (c : ascii) : bool :=
  ((9 <=? code c)%N && (code c <=? 13)%N)
  || (code c =? 32)%N || (code c =? 133)%N || (code c =? 160)%N.

Definition lower (c : ascii) : ascii :=
  if (65 <=? code c)%N && (code c <=? 90)%N
  then ascii_of_N (code c + 32) else c.

Fixpoint lowercase (s : string) : string :=
  match s with
  | EmptyString => EmptyString
  | String c s' => String (lower c) (lowercase s')
  end.

Fixpoint lstrip (s : string) : string :=
  match s with
  | EmptyString => EmptyString
  | String c s' => if is_space c then lstrip s' else s
  end.

Fixpoint rstrip (s : string) : string :=
  match s with
  | EmptyString => EmptyString
  | String c s' =>
      match rstrip s' with
      | EmptyString => if is_space c then EmptyString else String c EmptyString
      | r => String c r
      end
  end.

Definition strip (s : string) : string := rstrip (lstrip s).

(** [str.replace(old, new)] for a non-empty [old]: a left-to-right scan
    that replaces every non-overlapping occurrence.  [skip] counts the
    characters of an occurrence still to be dropped. *)
Fixpoint replace_from (old new : string) (skip : nat) (s : string) : string :=
  match s with
  | EmptyString => EmptyString
  | String c s' =>
      match skip with
      | S k => replace_from old new k s'
      | O =>
          if prefix old s
          then new ++ replace_from old new (String.length old - 1) s'
          else String c (replace_from old new 0 s')
      end
  end.

(** With an empty [old], Python puts [new] before every character and at
    the end. *)
Fixpoint intersperse (new s : string) : string :=
  match s with
  | EmptyString => new
  | String c s' => new ++ String c (intersperse new s')
  end.

Definition replace (old new s : string) : string :=
  match old with
  | EmptyString => intersperse new s
  | _ => replace_from old new 0 s
  end.

(** [s.endswith(suffix)] *)
Fixpoint endswith (s suffix : string) : bool :=
  String.eqb s suffix
  || match s with
     | EmptyString => false
     | String _ s' => endswith s' suffix
     end.

End PyStr.

(** ** Python's [float(str)] *)

Module PyFloat.
Import PyStr.

Local Open Scope Z_scope.

(** Underscores are accepted only between two digits, and are dropped
    (PEP 515).  [prev] is the character just read. *)
Fixpoint drop_underscores (prev : ascii) (s : string) : option string :=
  match s with
  | EmptyString => if Ascii.eqb prev "_" then None else Some EmptyString
  | String c s' =>
      if Ascii.eqb c "_"
      then (if is_digit prev then drop_underscores c s' else None)
      else if Ascii.eqb prev "_" && negb (is_digit c) then None
           else option_map (String c) (drop_underscores c s')
  end.

Definition split_sign (s : string) : bool * string :=
  match s with
  | String "-" r => (true, r)
  | String "+" r => (false, r)
  | _ => (false, s)
  end.

(** The longest prefix of digits, most significant first, and the rest. *)
Fixpoint span_digits (s : string) : list Z * string :=
  match s with
  | EmptyString => ([], EmptyString)
  | String c s' =>
      if is_digit c
      then let '(ds, r) := span_digits s' in (digit_value c :: ds, r)
      else ([], s)
  end.

Definition digits_value (ds : list Z) : Z :=
  fold_left (fun acc d => 10 * acc + d) ds 0.

(** [parse_decimal s = Some (m, e)] when [s] is a decimal numeral
    [digits [. digits] [(e|E) [sign] digits]] with at least one mantissa
    digit; its value is [m * 10^e]. *)
Definition parse_decimal (s : string) : option (Z * Z) :=
  let '(ip, r1) := span_digits s in
  let '(fp, r2) :=
    match r1 with
    | String "." r => span_digits r
    | _ => ([], r1)
    end in
  match (ip ++ fp)%list with
  | [] => None
  | ds =>
      let m := digits_value ds in
      let k := Z.of_nat (List.length fp) in
      match r2 with
      | EmptyString => Some (m, - k)
      | String c r3 =>
          if Ascii.eqb (lower c) "e"
          then
            let '(neg, r4) := split_sign r3 in
            let '(ep, r5) := span_digits r4 in
            match ep, r5 with
            | _ :: _, EmptyString =>
                let x := digits_value ep in
                Some (m, (if neg then - x else x) - k)
            | _, _ => None
            end
          else None
      end
  end.

(** The binary64 value nearest to [m * 10^e] (ties to even), for [0 <= m]. *)
Definition decimal_to_float (neg : bool) (m e : Z) : float :=
  SF2Prim
    match m with
    | Z.pos p =>
        if 0 <=? e
        then binary_normalize prec emax
               ((if neg then Z.neg p else Z.pos p) * 10 ^ e) 0 neg
        else SFdiv prec emax (S754_finite neg p 0)
               (S754_finite false (Z.to_pos (10 ^ (- e))) 0)
    | _ => S754_zero neg
    end.

(** The binary64 value nearest to an integer: [float(int)], and the cast
    of an [int64] column. *)
Definition of_Z (z : Z) : float :=
  SF2Prim (binary_normalize prec emax z 0 false).

(** [float(s)]: [None] stands for the [ValueError] Python raises. *)
Definition of_string (s : string) : option float :=
  match drop_underscores "000" (strip s) with
  | None => None
  | Some t =>
      let '(neg, body) := split_sign t in
      let word := lowercase body in
      if String.eqb word "inf" || String.eqb word "infinity"
      then Some (if neg then neg_infinity else infinity)
      else if String.eqb word "nan" then Some nan
      else
        match parse_decimal body with
        | Some (m, e) => Some (decimal_to_float neg m e)
        | None => None
        end
  end.

End PyFloat.

(** ** The part of pandas the program uses *)

Module Pandas.

(** A column with its dtype.  In an [object] or geometry column [None] is
    the missing cell (NaN or None); in a [float64] column the missing cell
    is NaN; an [int64] column has none. *)
Inductive Series : Type :=
| IntSeries (xs : list Z)
| FloatSeries (xs : list float)
| ObjectSeries (xs : list (option string))
| GeometrySeries (xs : list (option string)).

Definition size (s : Series) : nat :=
  match s with
  | IntSeries xs => List.length xs
  | FloatSeries xs => List.length xs
  | ObjectSeries xs => List.length xs
  | GeometrySeries xs => List.length xs
  end.


Record DataFrame : Type := mkDataFrame {
  nrows : nat;
  columns : list (string * Series)
}.

Definition names (df : DataFrame) : list string := map fst (columns df).

Fixpoint lookup (c : string) (cols : list (string * Series)) : option Series :=
  match cols with
  | [] => None
  | (c', s) :: rest => if String.eqb c' c then Some s else lookup c rest
  end.

(** [df[c]] *)
Definition getitem (df : DataFrame) (c : string) : result Series :=
  match lookup c (columns df) with
  | Some s => Ok s
  | None => Err (KeyError c)
  end.

Fixpoint assign (c : string) (s : Series) (cols : list (string * Series))
  : list (string * Series) :=
  match cols with
  | [] => [(c, s)]
  | (c', s') :: rest =>
      if String.eqb c' c then (c, s) :: rest else (c', s') :: assign c s rest
  end.

(** [df[c] = s]: the column is replaced where it stands, or added last.
    The program only assigns columns computed from [df] itself, so the
    length check of pandas never fires and is not modelled. *)
Definition setitem (df : DataFrame) (c : string) (s : Series) : DataFrame :=
  mkDataFrame (nrows df) (assign c s (columns df)).

(** [s.str.replace(pat, repl)] with a literal pattern.  The [.str]
    accessor exists on [object] columns only. *)
Definition str_replace (pat repl : string) (s : Series) : result Series :=
  match s with
  | ObjectSeries xs =>
      Ok (ObjectSeries (map (option_map (PyStr.replace pat repl)) xs))
  | _ => Err (AttributeError "Can only use .str accessor with string values!")
  end.

Definition cell_to_float (c : option string) : result float :=
  match c with
  | None => Ok nan
  | Some s =>
      match PyFloat.of_string s with
      | Some x => Ok x
      | None => Err (ValueError s)
      end
  end.

(** [s.astype(float)]; a [float64] column is given as the list of its
    values.  The [ValueError] carries the text that is not a number. *)
Definition astype_float (s : Series) : result (list float) :=
  match s with
  | IntSeries xs => Ok (map PyFloat.of_Z xs)
  | FloatSeries xs => Ok xs
  | ObjectSeries xs => all_ok cell_to_float xs
  | GeometrySeries _ =>
      Err (TypeError "float() argument must be a string or a real number")
  end.

(** [s.fillna(v)] on a [float64] column. *)
Definition fillna (v : float) (xs : list float) : list float :=
  map (fun x => if is_nan x then v else x) xs.

(** [s.apply(f)] for an [f] that compares its argument with numbers. *)
Definition apply (f : float -> string) (s : Series) : result Series :=
  match s with
  | FloatSeries xs => Ok (ObjectSeries (map (fun x => Some (f x)) xs))
  | IntSeries xs => Ok (ObjectSeries (map (fun z => Some (f (PyFloat.of_Z z))) xs))
  | _ => Err (TypeError "'>' not supported between instances of 'str' and 'int'")
  end.

(** *** [left.merge(right, left_on=, right_on=, how='left')] *)

(** The cells of a key column, as the join compares them. *)
Class KeyCell (K : Type) := { key_eqb : K -> K -> bool }.

Arguments key_eqb {K _} a b : simpl never.

(** Text: two missing cells are the same key. *)
#[export] Instance text_key : KeyCell (option string) :=
  {| key_eqb a b :=
       match a, b with
       | Some x, Some y => String.eqb x y
       | None, None => true
       | _, _ => false
       end |}.

#[export] Instance int_key : KeyCell Z := {| key_eqb := Z.eqb |}.

(** Numbers: equal as floats (so the two zeros are one key), and NaN, the
    missing cell, is the same key as NaN. *)
#[export] Instance float_key : KeyCell float :=
  {| key_eqb x y := PrimFloat.eqb x y || (is_nan x && is_nan y) |}.

(** Cells of two different kinds, such as a geometry and a text: only a
    missing cell and a missing cell are the same key. *)
#[export] Instance apart_key {A B : Type} : KeyCell (option A + option B) :=
  {| key_eqb a b :=
       match a, b with
       | inl None, inr None => true
       | inr None, inl None => true
       | _, _ => false
       end |}.

Section Indexer.
Context {K : Type} `{KeyCell K}.

(** The positions, counted from [i], of the cells of [ks] equal to [k]. *)
Fixpoint positions (k : K) (ks : list K) (i : nat) : list nat :=
  match ks with
  | [] => []
  | k' :: rest =>
      if key_eqb k k' then i :: positions k rest (S i) else positions k rest (S i)
  end.

(** One left row: paired with each matching right row in the right
    frame's order, or with no row at all. *)
Definition row_matches (rk : list K) (i : nat) (k : K) : list (nat * option nat) :=
  match positions k rk 0 with
  | [] => [(i, None)]
  | js => map (fun j => (i, Some j)) js
  end.

Fixpoint indexer_from (rk lk : list K) (i : nat) : list (nat * option nat) :=
  match lk with
  | [] => []
  | k :: rest => row_matches rk i k ++ indexer_from rk rest (S i)
  end.

(** The row pairs of the left join, in the left frame's order. *)
Definition indexer (lk rk : list K) : list (nat * option nat) :=
  indexer_from rk lk 0.

(** The number of rows of a key column that hold the key [k]. *)
Definition matches_in (ks : list K) (k : K) : nat :=
  List.length (positions k ks 0).

(** The number of output rows a left row with key [k] gets. *)
Definition copies (ks : list K) (k : K) : nat :=
  Nat.max 1 (matches_in ks k).

End Indexer.

Definition float_cell (x : float) : option float :=
  if is_nan x then None else Some x.

(** How pandas compares the two key columns:
    - columns of one dtype cell by cell, and [int64] with [float64] as
      floats;
    - a text column with a column of numbers is refused with
      [ValueError], except that no check is made when one of the two has
      no row, and none for an empty text column and an empty [int64]
      column;
    - a geometry column with a column of another dtype as objects, where
      only missing cells are equal. *)
Definition join_indexer (ls rs : Series) : result (list (nat * option nat)) :=
  match ls, rs with
  | ObjectSeries lk, ObjectSeries rk => Ok (indexer lk rk)
  | GeometrySeries lk, GeometrySeries rk => Ok (indexer lk rk)
  | IntSeries lk, IntSeries rk => Ok (indexer lk rk)
  | FloatSeries lk, FloatSeries rk => Ok (indexer lk rk)
  | IntSeries lk, FloatSeries rk => Ok (indexer (map PyFloat.of_Z lk) rk)
  | FloatSeries lk, IntSeries rk => Ok (indexer lk (map PyFloat.of_Z rk))
  | ObjectSeries lk, GeometrySeries rk | GeometrySeries lk, ObjectSeries rk =>
      Ok (indexer (map inl lk) (map inr rk))
  | GeometrySeries lk, FloatSeries rk =>
      Ok (indexer (map inl lk) (map (fun x => inr (float_cell x)) rk))
  | FloatSeries lk, GeometrySeries rk =>
      Ok (indexer (map (fun x => inl (float_cell x)) lk) (map inr rk))
  | GeometrySeries lk, IntSeries rk =>
      Ok (indexer (map inl lk) (map (fun z => inr (Some z)) rk))
  | IntSeries lk, GeometrySeries rk =>
      Ok (indexer (map (fun z => inl (Some z)) lk) (map inr rk))
  | ObjectSeries lk, IntSeries rk =>
      match lk, rk with
      | _ :: _, _ :: _ =>
          Err (ValueError "You are trying to merge on object and int64 columns")
      | _, _ => Ok (indexer (map inl lk) (map (fun z => inr (Some z)) rk))
      end
  | IntSeries lk, ObjectSeries rk =>
      match lk, rk with
      | _ :: _, _ :: _ =>
          Err (ValueError "You are trying to merge on int64 and object columns")
      | _, _ => Ok (indexer (map (fun z => inl (Some z)) lk) (map inr rk))
      end
  | ObjectSeries lk, FloatSeries rk =>
      match lk, rk with
      | _ :: _, [] | [], _ :: _ =>
          Ok (indexer (map inl lk) (map (fun x => inr (float_cell x)) rk))
      | _, _ =>
          Err (ValueError "You are trying to merge on object and float64 columns")
      end
  | FloatSeries lk, ObjectSeries rk =>
      match lk, rk with
      | _ :: _, [] | [], _ :: _ =>
          Ok (indexer (map (fun x => inl (float_cell x)) lk) (map inr rk))
      | _, _ =>
          Err (ValueError "You are trying to merge on float64 and object columns")
      end
  end.

Definition take_left (ix : list nat) (s : Series) : Series :=
  match s with
  | IntSeries xs => IntSeries (map (fun i => nth i xs 0%Z) ix)
  | FloatSeries xs => FloatSeries (map (fun i => nth i xs nan) ix)
  | ObjectSeries xs => ObjectSeries (map (fun i => nth i xs None) ix)
  | GeometrySeries xs => GeometrySeries (map (fun i => nth i xs None) ix)
  end.

Definition pick {A : Type} (xs : list A) (missing : A) (o : option nat) : A :=
  match o with
  | Some j => nth j xs missing
  | None => missing
  end.

Definition all_matched (ix : list (option nat)) : bool :=
  forallb (fun o => match o with Some _ => true | None => false end) ix.

(** An [int64] column that gets a missing cell becomes [float64]. *)
Definition take_right (ix : list (option nat)) (s : Series) : Series :=
  match s with
  | IntSeries xs =>
      if all_matched ix
      then IntSeries (map (pick xs 0%Z) ix)
      else FloatSeries (map (pick (map PyFloat.of_Z xs) nan) ix)
  | FloatSeries xs => FloatSeries (map (pick xs nan) ix)
  | ObjectSeries xs => ObjectSeries (map (pick xs None) ix)
  | GeometrySeries xs => GeometrySeries (map (pick xs None) ix)
  end.

Definition mem (c : string) (cs : list string) : bool :=
  existsb (String.eqb c) cs.

(** A column name found on both sides gets the side's suffix. *)
Definition suffixed (others : list string) (suffix c : string) : string :=
  if mem c others then c ++ suffix else c.

(** A name that carries neither suffix of [merge]. *)
Definition plain (c : string) : bool :=
  negb (PyStr.endswith c "_x") && negb (PyStr.endswith c "_y").

Definition drop_column (c : string) (cols : list (string * Series))
  : list (string * Series) :=
  filter (fun p => negb (String.eqb (fst p) c)) cols.

Definition merge (left right : DataFrame) (left_on right_on : string)
  : result DataFrame :=
  rs <- getitem right right_on ;;
  ls <- getitem left left_on ;;
  ix <- join_indexer ls rs ;;
  let rcols :=
    if String.eqb left_on right_on
    then drop_column right_on (columns right) else columns right in
  let lnames := names left in
  let rnames := map fst rcols in
  Ok (mkDataFrame (List.length ix)
        (map (fun p => (suffixed rnames "_x" (fst p),
                        take_left (map fst ix) (snd p))) (columns left)
         ++ map (fun p => (suffixed lnames "_y" (fst p),
                           take_right (map snd ix) (snd p))) rcols)).

End Pandas.

(** ** The program *)

Import Pandas.

Set Warnings "-inexact-float".

Declare Scope py_scope.
Delimit Scope py_scope with py.
Notation "x >? y" := (PrimFloat.ltb y x) (at level 70, no associativity) : py_scope.
Notation "x <=? y" := (PrimFloat.leb x y) (at level 70, no associativity) : py_scope.

Local Open Scope float_scope.
Local Open Scope py_scope.

(** *** The classifiers (the four lambdas of [process_files]) *)

Definition urban_planning_recommendation (x : float) : string :=
  if x >? 60 then
    "Focus on sustainable urbanization in high urban density areas"
  else if x >? 54.1 then
    "Enhance infrastructure resilience and promote mixed-use development"
  else if x >? 48.2 then
    "Encourage eco-friendly transportation and smart city initiatives"
  else if x >? 42.3 then
    "Strengthen public transport systems and pedestrian-friendly spaces"
  else if x >? 36.4 then
    "Promote green building practices and energy-efficient policies"
  else if x >? 30.5 then
    "Support community-driven urban projects and housing affordability"
  else if x >? 24.6 then
    "Develop sustainable industrial zones and manage urban sprawl"
  else if x >? 18.7 then
    "Improve basic infrastructure and access to essential services"
  else if x >? 11 then
    "Encourage planned urban growth and reduce informal settlements"
  else
    "Promote urban development in underdeveloped areas".

Definition infrastructure_development_recommendation (x : float) : string :=
  if x >? 10000 then
    "Expand infrastructure projects significantly in states with highly extensive agricultural land"
  else if x >? 8000 then
    "Encourage large-scale infrastructure expansion to support agriculture and rural growth"
  else if x >? 6000 then
    "Promote balanced infrastructure development to complement agricultural production"
  else if x >? 4000 then
    "Focus on enhancing infrastructure to support medium-scale agricultural activities"
  else if x >? 2000 then
    "Optimize infrastructure for better utilization in moderately agricultural areas"
  else
    "Prioritize infrastructure development in regions with limited agricultural land".

Definition environmental_conservation_recommendation (x : float) : string :=
  if x >? 5000 then
    "Implement extensive reforestation and conservation programs to preserve ecosystems"
  else if x >? 4500 then
    "Focus on large-scale afforestation and forest preservation projects"
  else if x >? 4000 then
    "Strengthen community-driven conservation efforts and reforestation plans"
  else if x >? 3500 then
    "Enhance forest management practices and sustainable land use strategies"
  else if x >? 3000 then
    "Increase funding for conservation programs and biodiversity initiatives"
  else if x >? 2500 then
    "Promote sustainable forestry and eco-friendly policies in high-impact areas"
  else if x >? 2000 then
    "Support moderate-scale afforestation projects and community participation"
  else if x >? 1500 then
    "Focus on targeted afforestation efforts in underutilized regions"
  else if x >? 1000 then
    "Encourage community involvement and local conservation initiatives"
  else if x >? 500 then
    "Promote small-scale afforestation and awareness programs"
  else
    "Initiate basic conservation and afforestation efforts in critical regions".

Definition socio_economics_analysis_recommendation (x : float) : string :=
  if x <=? 60 then
    "Focus on rural development and connectivity in sparsely populated areas"
  else if x <=? 120 then
    "Support sparsely populated regions with roadways and basic facilities"
  else if x <=? 180 then
    "Enhance rural infrastructure and agricultural support"
  else if x <=? 240 then
    "Improve access to education and healthcare in moderately populated areas"
  else if x <=? 300 then
    "Invest in medium-density regions with industrial hubs"
  else if x <=? 360 then
    "Promote urbanization in emerging towns and cities"
  else if x <=? 420 then
    "Develop infrastructure and job opportunities in densely populated regions"
  else if x <=? 480 then
    "Implement smart city projects for high-density urban areas"
  else if x <=? 540 then
    "Enhance public transportation and housing in urban centers"
  else if x <=? 600 then
    "Expand utilities and green spaces in highly urbanized areas"
  else if x <=? 660 then
    "Focus on reducing congestion and pollution in urban hotspots"
  else if x <=? 720 then
    "Prioritize high-density urban centers with smart city initiatives"
  else if x <=? 780 then
    "Develop advanced infrastructure for mega-cities and metropolitan regions"
  else
    "Address overpopulation challenges with sustainable city planning".

(** *** Column names *)

(** The population key is spelled in the source with the code points 195
    and 191 between "or" and "Union". *)
Definition population_key : string :=
  "State or" ++ String (ascii_of_nat 195) (String (ascii_of_nat 191) "Union Territory").

Definition land_key : string := "States/UTs".

(** *** [process_files] *)

(** Lines 40-41: the two left merges on [statename]. *)
Definition merge_datasets (gdf population_data land_data : DataFrame)
  : result DataFrame :=
  gdf <- merge gdf population_data "statename" population_key ;;
  merge gdf land_data "statename" land_key.

(** Lines 44-49: the right-hand sides of the four numeric columns. *)
Definition urban_planning (gdf : DataFrame) : result Series :=
  s <- getitem gdf "Urban pop. In %" ;;
  s <- str_replace "%" "" s ;;
  xs <- astype_float s ;;
  Ok (FloatSeries (fillna 0 xs)).

Definition infrastructure_development (gdf : DataFrame) : result Series :=
  s <- getitem gdf "Net area sown" ;;
  xs <- astype_float s ;;
  Ok (FloatSeries (fillna 0 xs)).

Definition environmental_conservation (gdf : DataFrame) : result Series :=
  s <- getitem gdf "Forests" ;;
  xs <- astype_float s ;;
  Ok (FloatSeries (fillna 0 xs)).

(** With [regex=True] the one-character pattern [','] still is the literal
    comma. *)
Definition socio_economics_analysis (gdf : DataFrame) : result Series :=
  s <- getitem gdf "Density" ;;
  s <- str_replace "," "" s ;;
  xs <- astype_float s ;;
  Ok (FloatSeries (fillna 0 xs)).

Definition convert_columns (gdf : DataFrame) : result DataFrame :=
  s <- urban_planning gdf ;;
  let gdf := setitem gdf "Urban Planning" s in
  s <- infrastructure_development gdf ;;
  let gdf := setitem gdf "Infrastructure Development" s in
  s <- environmental_conservation gdf ;;
  let gdf := setitem gdf "Environmental Conservation" s in
  s <- socio_economics_analysis gdf ;;
  Ok (setitem gdf "Socio-Economics Analysis" s).

(** The four conversions have one shape: look the source column up, remove
    a character sequence if the indicator has one, cast, fill. *)
Definition strip_pattern (pat : option string) (s : Series) : result Series :=
  match pat with
  | Some p => str_replace p "" s
  | None => Ok s
  end.

Definition numeric_column (c : string) (pat : option string) (gdf : DataFrame)
  : result Series :=
  s <- getitem gdf c ;;
  s <- strip_pattern pat s ;;
  xs <- astype_float s ;;
  Ok (FloatSeries (fillna 0 xs)).

(** The text of a source cell as the cast sees it. *)
Definition normalized (pat : option string) (t : string) : string :=
  match pat with
  | Some p => PyStr.replace p "" t
  | None => t
  end.

(** Source column, removed character sequence, indicator column. *)
Definition indicators : list (string * option string * string) :=
  [ ("Urban pop. In %", Some "%", "Urban Planning");
    ("Net area sown", None, "Infrastructure Development");
    ("Forests", None, "Environmental Conservation");
    ("Density", Some ",", "Socio-Economics Analysis") ].

(** Lines 52-105: one recommendation column per indicator. *)
Definition recommend (indicator : string) (f : float -> string) (gdf : DataFrame)
  : result DataFrame :=
  s <- getitem gdf indicator ;;
  r <- apply f s ;;
  Ok (setitem gdf (indicator ++ " Recommendation") r).

Definition assign_recommendations (gdf : DataFrame) : result DataFrame :=
  gdf <- recommend "Urban Planning" urban_planning_recommendation gdf ;;
  gdf <- recommend "Infrastructure Development"
           infrastructure_development_recommendation gdf ;;
  gdf <- recommend "Environmental Conservation"
           environmental_conservation_recommendation gdf ;;
  recommend "Socio-Economics Analysis" socio_economics_analysis_recommendation gdf.

(** The frame [process_files] returns when the merged frame is [m] and the
    four conversions give [y1] .. [y4]. *)
Definition with_indicators (m : DataFrame) (y1 y2 y3 y4 : list float) : DataFrame :=
  setitem
    (setitem
       (setitem (setitem m "Urban Planning" (FloatSeries y1))
                "Infrastructure Development" (FloatSeries y2))
       "Environmental Conservation" (FloatSeries y3))
    "Socio-Economics Analysis" (FloatSeries y4).

Definition labelled (f : float -> string) (ys : list float) : Series :=
  ObjectSeries (map (fun x => Some (f x)) ys).

Definition with_recommendations (m : DataFrame) (y1 y2 y3 y4 : list float)
  : DataFrame :=
  setitem
    (setitem
       (setitem
          (setitem (with_indicators m y1 y2 y3 y4)
                   "Urban Planning Recommendation"
                   (labelled urban_planning_recommendation y1))
          "Infrastructure Development Recommendation"
          (labelled infrastructure_development_recommendation y2))
       "Environmental Conservation Recommendation"
       (labelled environmental_conservation_recommendation y3))
    "Socio-Economics Analysis Recommendation"
    (labelled socio_economics_analysis_recommendation y4).

(** [process_files], from the three frames the readers return. *)
Definition process_files (gdf population_data land_data : DataFrame)
  : result DataFrame :=
  gdf <- merge_datasets gdf population_data land_data ;;
  gdf <- convert_columns gdf ;;
  assign_recommendations gdf.

(** *** The classifiers as ordered rule tables

    The same four classifiers written as data: per indicator, the ordered
    thresholds with their labels, the comparison every rule of the
    indicator uses, and the label of the catch-all.  [first_match] is the
    generic evaluator: the label of the first rule that matches. *)

Module RuleTable.

Inductive Indicator : Type :=
| UrbanPlanningIndex
| InfrastructureIndex
| ConservationIndex
| SocioEconomicDensity.

Section FirstMatch.
Context {A L : Type}.

Fixpoint first_match (rules : list ((A -> bool) * L)) (otherwise : L) (x : A) : L :=
  match rules with
  | [] => otherwise
  | (p, l) :: rest => if p x then l else first_match rest otherwise x
  end.

(** Band [i] is the one evaluation stops at: no earlier rule matches
    and rule [i] does, or [i] is the catch-all after the last rule. *)
Definition selected (rules : list ((A -> bool) * L)) (x : A) (i : nat) : Prop :=
  (forall j r, j < i -> nth_error rules j = Some r -> fst r x = false)
  /\ match nth_error rules i with
     | Some r => fst r x = true
     | None => i = List.length rules
     end.

Definition label (rules : list ((A -> bool) * L)) (otherwise : L) (i : nat) : L :=
  match nth_error rules i with
  | Some r => snd r
  | None => otherwise
  end.
End FirstMatch.

Definition urban_planning_rules : list (float * string) :=
  [ (60,
     "Focus on sustainable urbanization in high urban density areas");
    (54.1,
     "Enhance infrastructure resilience and promote mixed-use development");
    (48.2,
     "Encourage eco-friendly transportation and smart city initiatives");
    (42.3,
     "Strengthen public transport systems and pedestrian-friendly spaces");
    (36.4,
     "Promote green building practices and energy-efficient policies");
    (30.5,
     "Support community-driven urban projects and housing affordability");
    (24.6,
     "Develop sustainable industrial zones and manage urban sprawl");
    (18.7,
     "Improve basic infrastructure and access to essential services");
    (11,
     "Encourage planned urban growth and reduce informal settlements") ].

Definition urban_planning_otherwise : string :=
  "Promote urban development in underdeveloped areas".

Definition infrastructure_development_rules : list (float * string) :=
  [ (10000,
     "Expand infrastructure projects significantly in states with highly extensive agricultural land");
    (8000,
     "Encourage large-scale infrastructure expansion to support agriculture and rural growth");
    (6000,
     "Promote balanced infrastructure development to complement agricultural production");
    (4000,
     "Focus on enhancing infrastructure to support medium-scale agricultural activities");
    (2000,
     "Optimize infrastructure for better utilization in moderately agricultural areas") ].

Definition infrastructure_development_otherwise : string :=
  "Prioritize infrastructure development in regions with limited agricultural land".

Definition environmental_conservation_rules : list (float * string) :=
  [ (5000,
     "Implement extensive reforestation and conservation programs to preserve ecosystems");
    (4500,
     "Focus on large-scale afforestation and forest preservation projects");
    (4000,
     "Strengthen community-driven conservation efforts and reforestation plans");
    (3500,
     "Enhance forest management practices and sustainable land use strategies");
    (3000,
     "Increase funding for conservation programs and biodiversity initiatives");
    (2500,
     "Promote sustainable forestry and eco-friendly policies in high-impact areas");
    (2000,
     "Support moderate-scale afforestation projects and community participation");
    (1500,
     "Focus on targeted afforestation efforts in underutilized regions");
    (1000,
     "Encourage community involvement and local conservation initiatives");
    (500,
     "Promote small-scale afforestation and awareness programs") ].

Definition environmental_conservation_otherwise : string :=
  "Initiate basic conservation and afforestation efforts in critical regions".

Definition socio_economics_analysis_rules : list (float * string) :=
  [ (60,
     "Focus on rural development and connectivity in sparsely populated areas");
    (120,
     "Support sparsely populated regions with roadways and basic facilities");
    (180,
     "Enhance rural infrastructure and agricultural support");
    (240,
     "Improve access to education and healthcare in moderately populated areas");
    (300,
     "Invest in medium-density regions with industrial hubs");
    (360,
     "Promote urbanization in emerging towns and cities");
    (420,
     "Develop infrastructure and job opportunities in densely populated regions");
    (480,
     "Implement smart city projects for high-density urban areas");
    (540,
     "Enhance public transportation and housing in urban centers");
    (600,
     "Expand utilities and green spaces in highly urbanized areas");
    (660,
     "Focus on reducing congestion and pollution in urban hotspots");
    (720,
     "Prioritize high-density urban centers with smart city initiatives");
    (780,
     "Develop advanced infrastructure for mega-cities and metropolitan regions") ].

Definition socio_economics_analysis_otherwise : string :=
  "Address overpopulation challenges with sustainable city planning".


Definition thresholds (ind : Indicator) : list (float * string) :=
  match ind with
  | UrbanPlanningIndex => urban_planning_rules
  | InfrastructureIndex => infrastructure_development_rules
  | ConservationIndex => environmental_conservation_rules
  | SocioEconomicDensity => socio_economics_analysis_rules
  end.

Definition otherwise (ind : Indicator) : string :=
  match ind with
  | UrbanPlanningIndex => urban_planning_otherwise
  | InfrastructureIndex => infrastructure_development_otherwise
  | ConservationIndex => environmental_conservation_otherwise
  | SocioEconomicDensity => socio_economics_analysis_otherwise
  end.

(** Three indicators test [x > t] from the highest threshold down; the
    density tests [x <= t] from the lowest threshold up. *)
Definition matches (ind : Indicator) (t x : float) : bool :=
  match ind with
  | SocioEconomicDensity => x <=? t
  | _ => x >? t
  end.

Definition rules (ind : Indicator) : list ((float -> bool) * string) :=
  map (fun r => (matches ind (fst r), snd r)) (thresholds ind).

Definition labels (ind : Indicator) : list string :=
  map snd (thresholds ind) ++ [otherwise ind].

(** No label occurs twice. *)
Fixpoint distinct (ls : list string) : bool :=
  match ls with
  | [] => true
  | l :: rest => negb (existsb (String.eqb l) rest) && distinct rest
  end.

(** The classifier of the source for each indicator. *)
Definition classify (ind : Indicator) : float -> string :=
  match ind with
  | UrbanPlanningIndex => urban_planning_recommendation
  | InfrastructureIndex => infrastructure_development_recommendation
  | ConservationIndex => environmental_conservation_recommendation
  | SocioEconomicDensity => socio_economics_analysis_recommendation
  end.

End RuleTable.

(** ** [create_map] *)

Module Folium.

Record Style : Type := mkStyle {
  fillColor : string;
  fillOpacity : float;
  weight : float
}.

Record GeoJsonTooltip : Type := mkTooltip {
  fields : list string;
  aliases : list string;
  localize : bool
}.

(** A cell of a row, as a GeoJSON feature carries it. *)
Inductive Cell : Type :=
| Null
| IntCell (z : Z)
| FloatCell (x : float)
| StrCell (s : string)
| GeometryCell (wkt : string).

Definition Feature : Type := list (string * Cell).

Definition cell (s : Series) (i : nat) : Cell :=
  match s with
  | IntSeries xs => match nth_error xs i with Some z => IntCell z | None => Null end
  | FloatSeries xs => match nth_error xs i with Some x => FloatCell x | None => Null end
  | ObjectSeries xs => match nth_error xs i with Some (Some t) => StrCell t | _ => Null end
  | GeometrySeries xs =>
      match nth_error xs i with Some (Some t) => GeometryCell t | _ => Null end
  end.

(** One feature per row of the frame, with every column of the row. *)
Definition features (df : DataFrame) : list Feature :=
  map (fun i => map (fun c => (fst c, cell (snd c) i)) (columns df))
      (seq 0 (nrows df)).

Record GeoJson : Type := mkGeoJson {
  data : DataFrame;
  name : string;
  tooltip : GeoJsonTooltip;
  style_function : Feature -> Style
}.

Record Map : Type := mkMap {
  location : float * float;
  zoom_start : Z;
  children : list GeoJson
}.

Definition add_to (layer : GeoJson) (m : Map) : Map :=
  mkMap (location m) (zoom_start m) (children m ++ [layer]).

(** The style each region of a layer is drawn with. *)
Definition styles (layer : GeoJson) : list Style :=
  map (style_function layer) (features (data layer)).

End Folium.

Import Folium.

Section Renderer.

(** [folium.GeoJson(gdf, ...)] first has the frame transformed to WGS 84
    and serialised ([process_data]).  That conversion belongs to folium
    and geopandas, not to the program, and it may fail: a frame without a
    coordinate reference system raises [ValueError].  The layer is
    modelled by the frame it was given; the transformed coordinates are not
    computed. *)
Variable process_data : DataFrame -> result unit.

(** [m.save(file_path)]: the renderer that writes the document is not
    part of the program; it may fail. *)
Variable save : Map -> string -> result unit.

Definition create_map (gdf : DataFrame) (title recommendation_column : string)
  : result (Map * string) :=
  let m := mkMap (23.2599, 77.4126) 5 [] in
  _ <- process_data gdf ;;
  let m :=
    add_to
      (mkGeoJson gdf title
         (mkTooltip ["statename"; recommendation_column]
                    ["State:"; "Recommendation:"] true)
         (fun x => mkStyle "blue" 0.6 0.5))
      m in
  let file_path := PyStr.replace " " "_" title ++ "_Interactive_Map.html" in
  _ <- save m file_path ;;
  Ok (m, file_path).

End Renderer.

(** The column [c] comes from exactly one of the three input frames, where
    it is the series [s]. *)
Definition only_in (c : string) (s : Series) (df other1 other2 : DataFrame) : Prop :=
  lookup c (columns df) = Some s
  /\ lookup c (columns other1) = None
  /\ lookup c (columns other2) = None.


(** ** Sample inputs

    Small frames for the scenario of the specification and for the cases
    the theorems are tried on. *)

Module Samples.

Definition alpha_boundary : DataFrame :=
  mkDataFrame 1
    [ ("statename", ObjectSeries [Some "Alpha"]);
      ("geometry", GeometrySeries [Some "POLYGON ((0 0, 1 0, 1 1, 0 0))"]) ].

(** The scenario's population row, the density with it. *)
Definition alpha_population : DataFrame :=
  mkDataFrame 1
    [ (population_key, ObjectSeries [Some "Alpha"]);
      ("Urban pop. In %", ObjectSeries [Some "65%"]);
      ("Density", ObjectSeries [Some "150,5"]) ].

(** The scenario's land row; all-integer columns are read as [int64]. *)
Definition alpha_land : DataFrame :=
  mkDataFrame 1
    [ (land_key, ObjectSeries [Some "Alpha"]);
      ("Net area sown", IntSeries [9000%Z]);
      ("Forests", IntSeries [3200%Z]) ].

(** The same scenario with the density in the land file and the areas
    kept as text. *)
Definition alpha_population_short : DataFrame :=
  mkDataFrame 1
    [ (population_key, ObjectSeries [Some "Alpha"]);
      ("Urban pop. In %", ObjectSeries [Some "65%"]) ].

Definition alpha_land_wide : DataFrame :=
  mkDataFrame 1
    [ (land_key, ObjectSeries [Some "Alpha"]);
      ("Net area sown", ObjectSeries [Some "9000"]);
      ("Forests", ObjectSeries [Some "3200"]);
      ("Density", ObjectSeries [Some "150,5"]) ].

Definition two_regions : DataFrame :=
  mkDataFrame 2
    [ ("statename", ObjectSeries [Some "Alpha"; Some "Beta"]);
      ("geometry", GeometrySeries [Some "POLYGON ((0 0, 1 0, 1 1, 0 0))";
                                   Some "POLYGON ((2 0, 3 0, 3 1, 2 0))"]) ].

(** Beta's urban percentage is not a number. *)
Definition population_with_text : DataFrame :=
  mkDataFrame 2
    [ (population_key, ObjectSeries [Some "Alpha"; Some "Beta"]);
      ("Urban pop. In %", ObjectSeries [Some "65%"; Some "n.a."]);
      ("Density", ObjectSeries [Some "150"; Some "1,200"]) ].

(** Beta has no urban percentage and no density. *)
Definition population_with_gaps : DataFrame :=
  mkDataFrame 2
    [ (population_key, ObjectSeries [Some "Alpha"; Some "Beta"]);
      ("Urban pop. In %", ObjectSeries [Some "65%"; None]);
      ("Density", ObjectSeries [Some "1,150"; None]) ].

Definition two_land : DataFrame :=
  mkDataFrame 2
    [ (land_key, ObjectSeries [Some "Alpha"; Some "Beta"]);
      ("Net area sown", IntSeries [9000%Z; 1500%Z]);
      ("Forests", IntSeries [3200%Z; 400%Z]) ].


(** A negative percentage for Alpha and an infinite density for Beta. *)
Definition population_odd : DataFrame :=
  mkDataFrame 2
    [ (population_key, ObjectSeries [Some "Alpha"; Some "Beta"]);
      ("Urban pop. In %", ObjectSeries [Some "-5%"; Some "12%"]);
      ("Density", ObjectSeries [Some "1,200"; Some "inf"]) ].

(** A land file without the forest column. *)
Definition land_without_forests : DataFrame :=
  mkDataFrame 1
    [ (land_key, ObjectSeries [Some "Alpha"]);
      ("Net area sown", IntSeries [9000%Z]) ].


(** What the scenario's invocation returns for its one region: the four
    indicator values and the bands their labels belong to. *)
Definition alpha_result (out : DataFrame) : Prop :=
  nrows out = 1%nat
  /\ getitem out "Urban Planning" = Ok (FloatSeries [65.0%float])
  /\ getitem out "Urban Planning Recommendation"
     = Ok (ObjectSeries [Some (nth 0%nat (RuleTable.labels RuleTable.UrbanPlanningIndex) "")])
  /\ getitem out "Infrastructure Development" = Ok (FloatSeries [9000.0%float])
  /\ getitem out "Infrastructure Development Recommendation"
     = Ok (ObjectSeries [Some (nth 1%nat (RuleTable.labels RuleTable.InfrastructureIndex) "")])
  /\ getitem out "Environmental Conservation" = Ok (FloatSeries [3200.0%float])
  /\ getitem out "Environmental Conservation Recommendation"
     = Ok (ObjectSeries [Some (nth 4%nat (RuleTable.labels RuleTable.ConservationIndex) "")])
  /\ getitem out "Socio-Economics Analysis" = Ok (FloatSeries [1505.0%float])
  /\ getitem out "Socio-Economics Analysis Recommendation"
     = Ok (ObjectSeries [Some (RuleTable.otherwise RuleTable.SocioEconomicDensity)]).

(** A frame with the one column [c]. *)
Definition column (c : string) (s : Series) : DataFrame :=
  mkDataFrame (size s) [(c, s)].

End Samples.

(** ** The rest of the program: uploads, readers, [main] *)

Module Py.

(** A [dict] with [str] keys: insertion-ordered; a key that is set again
    keeps its place and takes the new value. *)
Definition dict (V : Type) : Type := list (string * V).

Fixpoint dict_get {V : Type} (k : string) (d : dict V) : option V :=
  match d with
  | [] => None
  | (k', v) :: rest => if String.eqb k' k then Some v else dict_get k rest
  end.

Fixpoint dict_set {V : Type} (k : string) (v : V) (d : dict V) : dict V :=
  match d with
  | [] => [(k, v)]
  | (k', v') :: rest =>
      if String.eqb k' k then (k, v) :: rest else (k', v') :: dict_set k v rest
  end.

(** [d[k]] *)
Definition dict_getitem {V : Type} (d : dict V) (k : string) : result V :=
  match dict_get k d with
  | Some v => Ok v
  | None => Err (KeyError k)
  end.

(** [s.split(sep)] for a one-character [sep], as its first piece and the
    pieces after it: the list is never empty. *)
Fixpoint split (sep : ascii) (s : string) : string * list string :=
  match s with
  | EmptyString => (EmptyString, [])
  | String c s' =>
      let '(p, ps) := split sep s' in
      if Ascii.eqb c sep then (EmptyString, p :: ps) else (String c p, ps)
  end.

(** [s.split(sep)[-1]] *)
Definition split_last (sep : ascii) (s : string) : string :=
  let '(p, ps) := split sep s in last ps p.

Definition startswith_char (c : ascii) (s : string) : bool :=
  match s with
  | String c' _ => Ascii.eqb c' c
  | EmptyString => false
  end.

(** [os.path.join(a, b)] of [posixpath]. *)
Definition path_join (a b : string) : string :=
  if startswith_char "/" b then b
  else if String.eqb a "" || PyStr.endswith a "/" then a ++ b
  else a ++ "/" ++ b.

(** [c in s] for a character [c]. *)
Fixpoint contains (c : ascii) (s : string) : bool :=
  match s with
  | EmptyString => false
  | String c' s' => Ascii.eqb c' c || contains c s'
  end.

End Py.

Module Streamlit.

(** An uploaded file: the name the browser gave and the bytes. *)
Record UploadedFile : Type := mkUploadedFile {
  name : string;
  getvalue : string
}.

(** What the page shows, in order. *)
Inductive Event : Type :=
| Title (text : string)
| FileUploader (label : string) (types : list string) (accept_multiple_files : bool)
| Success (text : string)
| Subheader (text : string)
| FoliumStatic (m : Map)
| DownloadButton (label data file_name mime : string).

(** A run of page code: the events shown so far and how the run ended.
    The calls into streamlit themselves do not raise. *)
Definition UI (A : Type) : Type := list Event * result A.

Definition ui_ret {A : Type} (a : A) : UI A := ([], Ok a).

Definition ui_bind {A B : Type} (m : UI A) (k : A -> UI B) : UI B :=
  match m with
  | (es, Ok a) => let '(es', r) := k a in ((es ++ es')%list, r)
  | (es, Err e) => (es, Err e)
  end.

Definition emit (e : Event) : UI unit := ([e], Ok tt).

Definition lift {A : Type} (r : result A) : UI A := ([], r).

(** [for x in xs: body x] *)
Fixpoint for_each {A : Type} (xs : list A) (body : A -> UI unit) : UI unit :=
  match xs with
  | [] => ui_ret tt
  | x :: rest => ui_bind (body x) (fun _ => for_each rest body)
  end.

End Streamlit.

Import Py.
Import Streamlit(UploadedFile, mkUploadedFile, getvalue, Event, Title, FileUploader,
                 Success, Subheader, FoliumStatic, DownloadButton, UI, ui_ret, ui_bind,
                 emit, lift, for_each).

Notation "x <~ m ;; k" := (ui_bind m (fun x => k))
  (at level 61, m at next level, right associativity).

(** The themes [main] renders, with their recommendation columns. *)
Definition maps_info : dict string :=
  [ ("Urban Planning", "Urban Planning Recommendation");
    ("Infrastructure Development", "Infrastructure Development Recommendation");
    ("Environmental Conservation", "Environmental Conservation Recommendation");
    ("Socio-Economics Analysis", "Socio-Economics Analysis Recommendation") ].

Section Program.

(** What the program reaches outside itself for: the files the browser
    sent, a fresh temporary directory, writing and reading files, the two
    table readers, the conversion of a frame to GeoJSON and the map
    renderer. *)
Variable uploaded_shapefile : list UploadedFile.
Variables uploaded_population uploaded_land : option UploadedFile.
Variable TemporaryDirectory : result string.
Variable write_file : string -> string -> result unit.
Variable open_rb : string -> result string.
Variable read_file : string -> result DataFrame.
Variable read_csv : UploadedFile -> option string -> result DataFrame.
Variable process_data : DataFrame -> result unit.
Variable save : Map -> string -> result unit.

Definition upload_files
  : UI (list UploadedFile * option UploadedFile * option UploadedFile) :=
  _ <~ emit (Title "Upload Geospatial Data Files") ;;
  _ <~ emit (FileUploader "Upload Shapefile components (SHP, SHX, DBF, PRJ, optional CPG)"
               ["shp"; "shx"; "dbf"; "prj"; "cpg"] true) ;;
  _ <~ emit (FileUploader "Upload Population CSV" ["csv"] false) ;;
  _ <~ emit (FileUploader "Upload Land Data CSV" ["csv"] false) ;;
  ui_ret (uploaded_shapefile, uploaded_population, uploaded_land).

(** The loop of [save_uploaded_files]: the entry of [file_paths] is set
    before the file is written. *)
Fixpoint save_each (temp_dir : string) (uploaded_files : list UploadedFile)
         (file_paths : dict string) : result (dict string) :=
  match uploaded_files with
  | [] => Ok file_paths
  | file :: rest =>
      let file_path := path_join temp_dir (Streamlit.name file) in
      let file_paths :=
        dict_set (split_last "." (Streamlit.name file)) file_path file_paths in
      _ <- write_file file_path (getvalue file) ;;
      save_each temp_dir rest file_paths
  end.

Definition save_uploaded_files (uploaded_files : list UploadedFile)
  : result (dict string * string) :=
  temp_dir <- TemporaryDirectory ;;
  file_paths <- save_each temp_dir uploaded_files [] ;;
  Ok (file_paths, temp_dir).

(** [process_files] as [main] calls it, lines 35-37 included: the boundary
    file is the one [file_paths] has under the key shp. *)
Definition process_uploaded_files (shapefile_paths : dict string)
           (population_file land_file : UploadedFile) : result DataFrame :=
  shp <- dict_getitem shapefile_paths "shp" ;;
  gdf <- read_file shp ;;
  population_data <- read_csv population_file (Some "latin1") ;;
  land_data <- read_csv land_file None ;;
  process_files gdf population_data land_data.

(** The body of the loop of [main] for one theme. *)
Definition render_theme (gdf : DataFrame) (entry : string * string) : UI unit :=
  let '(theme, column) := entry in
  _ <~ emit (Subheader theme) ;;
  r <~ lift (create_map process_data save gdf theme column) ;;
  let '(m, file_path) := r in
  _ <~ emit (FoliumStatic m) ;;
  file <~ lift (open_rb file_path) ;;
  emit (DownloadButton ("Download " ++ theme ++ " Map") file file_path "text/html").

Definition main : UI unit :=
  _ <~ emit (Title "Geospatial Analysis and Recommendations") ;;
  uploads <~ upload_files ;;
  let '(shapefiles, population_file, land_file) := uploads in
  match shapefiles, population_file, land_file with
  | _ :: _, Some population_file, Some land_file =>
      _ <~ emit (Success "Files uploaded successfully! Processing data...") ;;
      saved <~ lift (save_uploaded_files shapefiles) ;;
      let '(shapefile_paths, temp_dir) := saved in
      gdf <~ lift (process_uploaded_files shapefile_paths population_file land_file) ;;
      for_each maps_info (render_theme gdf)
  | _, _, _ => ui_ret tt
  end.

End Program.

(** The four conversions of lines 44-49 on the merged frame, in the order
    they are run. *)
Definition conversion (m : DataFrame) (ind : string * option string * string)
  : result Series :=
  let '(c, pat, _) := ind in numeric_column c pat m.

Definition conversions (m : DataFrame) : list (result Series) :=
  map (conversion m) indicators.

(** The exception of the first step of a sequence that raises. *)
Fixpoint first_error {A : Type} (steps : list (result A)) : option PyError :=
  match steps with
  | [] => None
  | Ok _ :: rest => first_error rest
  | Err e :: _ => Some e
  end.

(** The number a source cell holds: the value of a numeric cell, the
    number the text of a text cell spells once the indicator's character
    sequence is removed, NaN for a missing cell.  [None]: no such row, or
    text that spells no number. *)
Definition spelled (pat : option string) (s : Series) (i : nat) : option float :=
  match s with
  | IntSeries zs => option_map PyFloat.of_Z (nth_error zs i)
  | FloatSeries xs => nth_error xs i
  | ObjectSeries ts =>
      match nth_error ts i with
      | Some (Some t) => PyFloat.of_string (normalized pat t)
      | Some None => Some nan
      | None => None
      end
  | GeometrySeries _ => None
  end.

(** The columns [process_files] assigns. *)
Definition assigned_columns : list string :=
  [ "Urban Planning"; "Infrastructure Development"; "Environmental Conservation";
    "Socio-Economics Analysis"; "Urban Planning Recommendation";
    "Infrastructure Development Recommendation";
    "Environmental Conservation Recommendation";
    "Socio-Economics Analysis Recommendation" ].

(** Indicator column and the classifier [process_files] applies to it. *)
Definition classifiers : list (string * (float -> string)) :=
  [ ("Urban Planning", urban_planning_recommendation);
    ("Infrastructure Development", infrastructure_development_recommendation);
    ("Environmental Conservation", environmental_conservation_recommendation);
    ("Socio-Economics Analysis", socio_economics_analysis_recommendation) ].

(** ** The join, row by row

    The rows of the joined table as they are described: which Region,
    which population row and which land row each of them is made of.  The
    two merges of the code are compared with this. *)

Module JoinSpec.





End JoinSpec.

(** The key cell [b] a joined row got from the right table, against the
    row's left key [a]: the same key, or missing when no right row has the
    key [a]. *)
Definition matched (rk : list (option string)) (a b : option string) : Prop :=
  b = a \/ (b = None /\ ~ In a rk).

(** The cell of row [j] is missing: None in an [object] column, NaN in a
    [float64] column. *)
Definition missing_at (s : Series) (j : nat) : Prop :=
  match s with
  | ObjectSeries xs => nth_error xs j = Some None
  | FloatSeries xs => exists x, nth_error xs j = Some x /\ is_nan x = true
  | _ => False
  end.

Definition is_geometry (s : Series) : bool :=
  match s with
  | GeometrySeries _ => true
  | _ => false
  end.

(** More sample inputs. *)
Module MoreSamples.

(** A population table with a row for Alpha only. *)
Definition population_alpha_only : DataFrame :=
  mkDataFrame 1
    [ (population_key, ObjectSeries [Some "Alpha"]);
      ("Urban pop. In %", ObjectSeries [Some "65%"]);
      ("Density", ObjectSeries [Some "1,200"]) ].

(** Beta's density is not a number. *)
Definition population_bad_density : DataFrame :=
  mkDataFrame 2
    [ (population_key, ObjectSeries [Some "Alpha"; Some "Beta"]);
      ("Urban pop. In %", ObjectSeries [Some "65%"; Some "12%"]);
      ("Density", ObjectSeries [Some "1,150"; Some "12 per km"]) ].

(** A population table that carries the forest area as well. *)
Definition population_with_forests : DataFrame :=
  mkDataFrame 1
    [ (population_key, ObjectSeries [Some "Alpha"]);
      ("Urban pop. In %", ObjectSeries [Some "65%"]);
      ("Density", ObjectSeries [Some "1,200"]);
      ("Forests", IntSeries [3200%Z]) ].

(** A land table whose key column has another name. *)
Definition land_other_key : DataFrame :=
  mkDataFrame 1 [ ("State", ObjectSeries [Some "Alpha"]) ].

(** A land table that repeats the region names in a column called
    statename, as the boundary table does. *)
Definition land_with_statename : DataFrame :=
  mkDataFrame 2
    [ (land_key, ObjectSeries [Some "Alpha"; Some "Beta"]);
      ("statename", ObjectSeries [Some "ALPHA"; Some "BETA"]);
      ("Net area sown", IntSeries [9000%Z; 1500%Z]);
      ("Forests", IntSeries [3200%Z; 400%Z]) ].

(** A land table that has a density column of its own. *)
Definition land_with_density : DataFrame :=
  mkDataFrame 2
    [ (land_key, ObjectSeries [Some "Alpha"; Some "Beta"]);
      ("Net area sown", IntSeries [9000%Z; 1500%Z]);
      ("Forests", IntSeries [3200%Z; 400%Z]);
      ("Density", ObjectSeries [Some "1,150"; Some "90"]) ].

End MoreSamples.

(** ** The order of binary64 values

    A value that is not NaN has a place on a line: its class (negative
    infinity, negative, zero, positive, positive infinity), then exponent
    and mantissa, both negated for a negative value. *)

Module FloatOrder.

Definition place (f : spec_float) : option (Z * Z * Z) :=
  match f with
  | S754_zero _ => Some (0, 0, 0)%Z
  | S754_infinity s => Some (if s then (-2) else 2, 0, 0)%Z
  | S754_nan => None
  | S754_finite s m e =>
      Some (if s then (-1, - e, Z.neg m)%Z else (1, e, Z.pos m)%Z)
  end.

Definition before (p q : Z * Z * Z) : Prop :=
  let '(a, b, c) := p in
  let '(a', b', c') := q in
  (a < a' \/ (a = a' /\ (b < b' \/ (b = b' /\ c < c'))))%Z.

(** [x <= y] and [x < y] on floats, as propositions. *)
Definition le (x y : float) : Prop := PrimFloat.leb x y = true.
Definition lt (x y : float) : Prop := PrimFloat.ltb x y = true.

End FloatOrder.

(** One finite, non-negative value inside each band, in the order of the
    bands. *)
Definition band_samples (ind : RuleTable.Indicator) : list float :=
  match ind with
  | RuleTable.UrbanPlanningIndex =>
      [61; 55; 50; 45; 40; 32; 25; 20; 15; 0]%float
  | RuleTable.InfrastructureIndex =>
      [10001; 9000; 7000; 5000; 3000; 0]%float
  | RuleTable.ConservationIndex =>
      [5001; 4800; 4200; 3800; 3200; 2800; 2200; 1800; 1200; 800; 0]%float
  | RuleTable.SocioEconomicDensity =>
      [0; 100; 150; 200; 250; 350; 400; 450; 500; 550; 650; 700; 750; 781]%float
  end.

(** [sep.join(pieces)] for a one-character [sep]. *)
Fixpoint str_join (sep : ascii) (pieces : list string) : string :=
  match pieces with
  | [] => EmptyString
  | [p] => p
  | p :: rest => p ++ String sep (str_join sep rest)
  end.

(** The key [save_uploaded_files] files an upload under. *)
Definition extension (file : UploadedFile) : string :=
  split_last "." (Streamlit.name file).

(** The last upload with the extension [k], if any. *)
Definition last_with_extension (k : string) (files : list UploadedFile)
  : option UploadedFile :=
  find (fun f => String.eqb (extension f) k) (rev files).

(** What every run of [main] shows first: its title, then the title and
    the three uploaders of [upload_files]. *)
Definition prelude : list Event :=
  [ Title "Geospatial Analysis and Recommendations";
    Title "Upload Geospatial Data Files";
    FileUploader "Upload Shapefile components (SHP, SHX, DBF, PRJ, optional CPG)"
      ["shp"; "shx"; "dbf"; "prj"; "cpg"] true;
    FileUploader "Upload Population CSV" ["csv"] false;
    FileUploader "Upload Land Data CSV" ["csv"] false ].

Definition success_message : Event :=
  Success "Files uploaded successfully! Processing data...".

(** Sample uploads and stand-ins for the outside world. *)
Module UploadSamples.

(** Two boundary sets, the second one's shape file in capitals. *)
Definition uploads : list UploadedFile :=
  [ mkUploadedFile "india.shp" "shp-1";
    mkUploadedFile "india.shx" "shx-1";
    mkUploadedFile "india.dbf" "dbf-1";
    mkUploadedFile "states.v2.shp" "shp-2";
    mkUploadedFile "OLD.SHP" "shp-3" ].

Definition capital_uploads : list UploadedFile :=
  [ mkUploadedFile "OLD.SHP" "shp-3"; mkUploadedFile "OLD.DBF" "dbf-3" ].

Definition population_csv : UploadedFile := mkUploadedFile "population.csv" "csv-1".
Definition land_csv : UploadedFile := mkUploadedFile "land.csv" "csv-2".

(** A world in which every file operation succeeds and the readers return
    the frames of the Alpha scenario. *)
Definition writes_fine (path content : string) : result unit := Ok tt.
Definition reads_back (path : string) : result string := Ok ("contents of " ++ path).
Definition reads_alpha (path : string) : result DataFrame := Ok Samples.alpha_boundary.
Definition reads_csv (file : UploadedFile) (encoding : option string)
  : result DataFrame :=
  if String.eqb (Streamlit.name file) "population.csv"
  then Ok Samples.alpha_population else Ok Samples.alpha_land.
Definition converts_fine (gdf : DataFrame) : result unit := Ok tt.
Definition renders_fine (m : Map) (path : string) : result unit := Ok tt.

(** A boundary uploaded without its .prj file has no coordinate reference
    system. *)
Definition no_crs (gdf : DataFrame) : result unit :=
  Err (ValueError "Cannot transform naive geometries.  Please set a crs on the object first.").

End UploadSamples.

(** * Verification *)

Local Close Scope py_scope.
Local Close Scope float_scope.

(** ** The error monad *)

Lemma raises_Err {A : Type} (e : PyError) : raises (@Err A e).
Proof. exists e; reflexivity. Qed.

Lemma bind_raises_l {A B : Type} (r : result A) (k : A -> result B) :
  raises r -> raises (bind r k).
Proof. intros [e ->]; apply raises_Err. Qed.

Lemma all_ok_length {A B : Type} (f : A -> result B) (xs : list A) (ys : list B) :
  all_ok f xs = Ok ys -> List.length ys = List.length xs.
Proof.
  revert ys; induction xs as [| x xs IH]; simpl; intros ys H.
  - injection H as <-; reflexivity.
  - bind_inv H. bind_inv H. injection H as <-.
    simpl; f_equal; apply IH; reflexivity.
Qed.

Lemma all_ok_nth {A B : Type} (f : A -> result B) (xs : list A) (ys : list B)
      (i : nat) (x : A) :
  all_ok f xs = Ok ys -> nth_error xs i = Some x ->
  exists y, f x = Ok y /\ nth_error ys i = Some y.
Proof.
  revert ys i; induction xs as [| x0 xs IH]; simpl; intros ys i H Hi.
  - destruct i; discriminate Hi.
  - bind_inv H. bind_inv H. injection H as <-.
    destruct i as [| i]; simpl in *.
    + injection Hi as <-. eauto.
    + eapply IH; [reflexivity | eassumption].
Qed.

(** ** Classification *)

Module RuleFacts.
Import RuleTable.

Section FirstMatchFacts.
Context {A L : Type}.
Implicit Types (rules : list ((A -> bool) * L)) (x : A).

Lemma first_match_selected rules (otherwise : L) x :
  exists i, i <= List.length rules /\ selected rules x i
            /\ first_match rules otherwise x = label rules otherwise i.
Proof.
  induction rules as [| [p l] rest IH]; simpl.
  - exists 0; repeat split; auto.
    intros j r Hj; inversion Hj.
  - destruct (p x) eqn:Hp.
    + exists 0; repeat split; auto with arith.
      intros j r Hj; inversion Hj.
    + destruct IH as (i & Hle & [Hbefore Hat] & Hlab).
      exists (S i); repeat split; simpl; auto with arith.
      * intros [| j] r Hj Hr; simpl in Hr.
        -- injection Hr as <-; exact Hp.
        -- apply (Hbefore j); [lia | exact Hr].
      * destruct (nth_error rest i); [exact Hat | f_equal; exact Hat].
Qed.

Lemma selected_lt rules x i j : selected rules x i -> selected rules x j -> ~ i < j.
Proof.
  intros [_ Hi] [Hj Hj'] Hlt.
  destruct (nth_error rules i) as [r |] eqn:E.
  - rewrite (Hj i r Hlt E) in Hi; discriminate Hi.
  - subst i.
    assert (nth_error rules j = None) as E' by (apply nth_error_None; lia).
    rewrite E' in Hj'. lia.
Qed.

Lemma selected_unique rules x i j : selected rules x i -> selected rules x j -> i = j.
Proof.
  intros Hi Hj.
  pose proof (selected_lt _ _ _ _ Hi Hj).
  pose proof (selected_lt _ _ _ _ Hj Hi).
  lia.
Qed.
End FirstMatchFacts.

Lemma distinct_NoDup (ls : list string) : distinct ls = true -> NoDup ls.
Proof.
  induction ls as [| l rest IH]; simpl; intro H.
  - constructor.
  - apply andb_prop in H as [Hl Hrest].
    constructor; [| apply IH; exact Hrest].
    intro Hin. apply negb_true_iff in Hl.
    assert (existsb (String.eqb l) rest = true) as Hex.
    { apply existsb_exists. exists l; split; [exact Hin | apply String.eqb_refl]. }
    congruence.
Qed.

(** Each classifier of the source is its rule table read in order. *)
Lemma classify_first_match (ind : Indicator) (x : float) :
  classify ind x = first_match (rules ind) (otherwise ind) x.
Proof. destruct ind; reflexivity. Qed.

(** C5: for each of the four indicators and every float (NaN and the
    infinities included), evaluation in the documented order stops at
    exactly one band, the classifier returns that band's label, and the
    labels of an indicator's bands are pairwise different: no value is left
    unclassified and none receives two labels. *)
Theorem classification_total_and_exclusive (ind : Indicator) (x : float) :
  (exists i, i < List.length (labels ind)
             /\ selected (rules ind) x i
             /\ classify ind x = label (rules ind) (otherwise ind) i
             /\ classify ind x = nth i (labels ind) ""
             /\ forall j, selected (rules ind) x j -> j = i)
  /\ NoDup (labels ind).
Proof.
  split.
  - destruct (first_match_selected (rules ind) (otherwise ind) x)
      as (i & Hle & Hsel & Hlab).
    exists i. rewrite classify_first_match.
    assert (List.length (rules ind) = List.length (thresholds ind)) as Hlen
      by (unfold rules; apply length_map).
    split; [| split; [| split; [| split]]].
    + unfold labels. rewrite length_app, length_map; simpl. lia.
    + exact Hsel.
    + exact Hlab.
    + rewrite Hlab. unfold label, labels, rules.
      rewrite nth_error_map.
      destruct (nth_error (thresholds ind) i) as [r |] eqn:E; simpl.
      * rewrite app_nth1 by (rewrite length_map; apply nth_error_Some; congruence).
        symmetry. apply nth_error_nth.
        rewrite nth_error_map, E. reflexivity.
      * apply nth_error_None in E.
        assert (i = List.length (thresholds ind)) as -> by lia.
        rewrite app_nth2 by (rewrite length_map; lia).
        rewrite length_map, Nat.sub_diag. reflexivity.
    + intros j Hj. eapply selected_unique; eassumption.
  - apply distinct_NoDup. destruct ind; vm_compute; reflexivity.
Qed.

(** C4: 60.0 falls in the second urban band (the one above 54.1) and not
    in the first, 60.0001 in the first (above 60); for the density 60.0
    falls in the first ascending band (up to 60) and 60.0001 in the second
    (up to 120). *)
Theorem boundary_exactness :
  urban_planning_recommendation 60.0%float
  = "Enhance infrastructure resilience and promote mixed-use development"
  /\ urban_planning_recommendation 60.0001%float
     = "Focus on sustainable urbanization in high urban density areas"
  /\ socio_economics_analysis_recommendation 60.0%float
     = "Focus on rural development and connectivity in sparsely populated areas"
  /\ socio_economics_analysis_recommendation 60.0001%float
     = "Support sparsely populated regions with roadways and basic facilities"
  /\ classify UrbanPlanningIndex 60.0%float = nth 1 (labels UrbanPlanningIndex) ""
  /\ classify UrbanPlanningIndex 60.0%float <> nth 0 (labels UrbanPlanningIndex) ""
  /\ classify UrbanPlanningIndex 60.0001%float = nth 0 (labels UrbanPlanningIndex) ""
  /\ classify SocioEconomicDensity 60.0%float = nth 0 (labels SocioEconomicDensity) ""
  /\ classify SocioEconomicDensity 60.0001%float = nth 1 (labels SocioEconomicDensity) ""
  /\ map fst (firstn 2 (thresholds UrbanPlanningIndex)) = [60%float; 54.1%float]
  /\ map fst (firstn 2 (thresholds SocioEconomicDensity)) = [60%float; 120%float].
Proof.
  repeat split; try (vm_compute; reflexivity).
  vm_compute. discriminate.
Qed.

End RuleFacts.

(** ** Frames *)

Module PandasFacts.

Lemma key_eqb_eq (a b : option string) : key_eqb a b = true <-> a = b.
Proof.
  unfold key_eqb, text_key.
  destruct a as [x |], b as [y |]; simpl; split; intro H;
    try discriminate H; try reflexivity.
  - apply String.eqb_eq in H; congruence.
  - injection H as ->; apply String.eqb_refl.
Qed.

Lemma lookup_app (c : string) (xs ys : list (string * Series)) :
  lookup c (xs ++ ys)
  = match lookup c xs with Some s => Some s | None => lookup c ys end.
Proof.
  induction xs as [| [c' s] xs IH]; simpl; [reflexivity |].
  destruct (String.eqb c' c); [reflexivity | exact IH].
Qed.

Lemma mem_names (c : string) (cols : list (string * Series)) :
  mem c (map fst cols) = match lookup c cols with Some _ => true | None => false end.
Proof.
  unfold mem. induction cols as [| [c' s] cols IH]; simpl; [reflexivity |].
  rewrite String.eqb_sym. destruct (String.eqb c' c); simpl; [reflexivity | exact IH].
Qed.

Lemma lookup_None_iff (c : string) (cols : list (string * Series)) :
  lookup c cols = None <-> ~ In c (map fst cols).
Proof.
  induction cols as [| [c' s] cols IH]; simpl.
  - tauto.
  - destruct (String.eqb c' c) eqn:E.
    + apply String.eqb_eq in E. split; [discriminate | tauto].
    + apply String.eqb_neq in E. tauto.
Qed.

Lemma lookup_assign_same (c : string) (s : Series) (cols : list (string * Series)) :
  lookup c (assign c s cols) = Some s.
Proof.
  induction cols as [| [c' s'] cols IH]; simpl.
  - rewrite String.eqb_refl; reflexivity.
  - destruct (String.eqb c' c) eqn:E; simpl.
    + rewrite String.eqb_refl; reflexivity.
    + rewrite E; exact IH.
Qed.

Lemma lookup_assign_other (c c' : string) (s : Series) (cols : list (string * Series)) :
  String.eqb c' c = false -> lookup c (assign c' s cols) = lookup c cols.
Proof.
  intro Hne. induction cols as [| [c0 s0] cols IH]; simpl.
  - rewrite Hne; reflexivity.
  - destruct (String.eqb c0 c') eqn:E; simpl.
    + apply String.eqb_eq in E; subst c0. rewrite Hne; reflexivity.
    + destruct (String.eqb c0 c); [reflexivity | exact IH].
Qed.

Lemma getitem_setitem_same (df : DataFrame) (c : string) (s : Series) :
  getitem (setitem df c s) c = Ok s.
Proof. unfold getitem, setitem; simpl. rewrite lookup_assign_same; reflexivity. Qed.

Lemma getitem_setitem_other (df : DataFrame) (c c' : string) (s : Series) :
  String.eqb c' c = false -> getitem (setitem df c' s) c = getitem df c.
Proof.
  intro H. unfold getitem, setitem; simpl. rewrite lookup_assign_other by exact H.
  reflexivity.
Qed.

Lemma getitem_Ok (df : DataFrame) (c : string) (s : Series) :
  getitem df c = Ok s <-> lookup c (columns df) = Some s.
Proof.
  unfold getitem. destruct (lookup c (columns df)); split; intro H;
    try discriminate H; congruence.
Qed.

Lemma getitem_raises (df : DataFrame) (c : string) :
  lookup c (columns df) = None -> getitem df c = Err (KeyError c).
Proof. unfold getitem; intros ->; reflexivity. Qed.

(** *** Column names through a merge *)

Lemma endswith_app (c suffix : string) : PyStr.endswith (c ++ suffix) suffix = true.
Proof.
  induction c as [| a c IH]; simpl.
  - destruct suffix; simpl; [reflexivity |].
    rewrite Ascii.eqb_refl, String.eqb_refl; reflexivity.
  - rewrite IH. apply orb_true_r.
Qed.

Lemma lookup_renamed (others : list string) (suffix : string) (g : Series -> Series)
      (cols : list (string * Series)) (c : string) :
  PyStr.endswith c suffix = false ->
  lookup c (map (fun p => (suffixed others suffix (fst p), g (snd p))) cols)
  = if mem c others then None else option_map g (lookup c cols).
Proof.
  intro Hc. induction cols as [| [c' s] cols IH]; simpl.
  - destruct (mem c others); reflexivity.
  - unfold suffixed at 1. destruct (mem c' others) eqn:Hm.
    + assert (String.eqb (c' ++ suffix) c = false) as ->.
      { apply String.eqb_neq. intros <-. rewrite endswith_app in Hc. discriminate Hc. }
      rewrite IH. destruct (String.eqb c' c) eqn:E; [| reflexivity].
      apply String.eqb_eq in E; subst c'. rewrite Hm; reflexivity.
    + destruct (String.eqb c' c) eqn:E.
      * apply String.eqb_eq in E; subst c'. rewrite Hm; reflexivity.
      * exact IH.
Qed.

Lemma plain_x (c : string) : plain c = true -> PyStr.endswith c "_x" = false.
Proof. unfold plain; intro H; apply andb_prop in H as [H _]; apply negb_true_iff, H. Qed.

Lemma plain_y (c : string) : plain c = true -> PyStr.endswith c "_y" = false.
Proof. unfold plain; intro H; apply andb_prop in H as [_ H]; apply negb_true_iff, H. Qed.

(** What a successful merge on two different key names returns. *)
Lemma merge_Ok_inv (L R M : DataFrame) (lo ro : string) :
  String.eqb lo ro = false ->
  merge L R lo ro = Ok M ->
  exists ls rs ix,
    getitem L lo = Ok ls /\ getitem R ro = Ok rs
    /\ join_indexer ls rs = Ok ix
    /\ M = mkDataFrame (List.length ix)
             (map (fun p => (suffixed (names R) "_x" (fst p),
                             take_left (map fst ix) (snd p))) (columns L)
              ++ map (fun p => (suffixed (names L) "_y" (fst p),
                                take_right (map snd ix) (snd p)))
                   (columns R)).
Proof.
  intros Hne H. unfold merge in H. rewrite Hne in H.
  bind_inv H. bind_inv H. bind_inv H. injection H as <-.
  exists a0, a, a1. repeat split; try reflexivity. exact Ea1.
Qed.

Lemma merge_Ok (L R : DataFrame) (lo ro : string) (lk rk : list (option string)) :
  String.eqb lo ro = false ->
  getitem L lo = Ok (ObjectSeries lk) -> getitem R ro = Ok (ObjectSeries rk) ->
  merge L R lo ro
  = Ok (mkDataFrame (List.length (indexer lk rk))
          (map (fun p => (suffixed (names R) "_x" (fst p),
                          take_left (map fst (indexer lk rk)) (snd p))) (columns L)
           ++ map (fun p => (suffixed (names L) "_y" (fst p),
                             take_right (map snd (indexer lk rk)) (snd p)))
                (columns R))).
Proof.
  intros Hne HL HR. unfold merge. rewrite HR, HL, Hne. reflexivity.
Qed.

(** A plain column name is found in the merged frame exactly when one side
    alone has it, and then it is that side's column, re-indexed. *)
Lemma lookup_merge (L R M : DataFrame) (lo ro c : string) :
  String.eqb lo ro = false -> plain c = true ->
  merge L R lo ro = Ok M ->
  exists ixl ixr,
    lookup c (columns M)
    = match lookup c (columns L), lookup c (columns R) with
      | Some s, None => Some (take_left ixl s)
      | None, Some s => Some (take_right ixr s)
      | _, _ => None
      end.
Proof.
  intros Hne Hc H.
  destruct (merge_Ok_inv _ _ _ _ _ Hne H) as (ls & rs & ix & _ & _ & _ & ->).
  exists (map fst ix), (map snd ix). simpl.
  rewrite lookup_app.
  rewrite (lookup_renamed _ "_x" _ _ _ (plain_x _ Hc)).
  rewrite (lookup_renamed _ "_y" _ _ _ (plain_y _ Hc)).
  unfold names. rewrite !mem_names.
  destruct (lookup c (columns L)), (lookup c (columns R)); reflexivity.
Qed.

End PandasFacts.

(** ** The join *)

Module JoinFacts.
Import PandasFacts.


Lemma copies_one (ks : list (option string)) (k : option string) :
  matches_in ks k <= 1 -> copies ks k = 1.
Proof. unfold copies; lia. Qed.

Lemma positions_not_In (ks : list (option string)) (k : option string) (i : nat) :
  ~ In k ks -> positions k ks i = [].
Proof.
  revert i; induction ks as [| k' ks IH]; simpl; intros i Hk; [reflexivity |].
  destruct (key_eqb k k') eqn:E.
  - apply key_eqb_eq in E. subst k'. tauto.
  - apply IH. tauto.
Qed.

Lemma matches_in_not_In (ks : list (option string)) (k : option string) :
  ~ In k ks -> matches_in ks k = 0.
Proof. intro H. unfold matches_in. rewrite positions_not_In by exact H. reflexivity. Qed.



Lemma row_matches_fst (rk : list (option string)) (i : nat) (k : option string) :
  map fst (row_matches rk i k) = repeat i (copies rk k).
Proof.
  unfold row_matches, copies, matches_in.
  destruct (positions k rk 0) as [| j js]; [reflexivity |].
  change (Nat.max 1 (List.length (j :: js))) with (List.length (j :: js)).
  induction (j :: js) as [| j' js' IH]; simpl; [reflexivity | f_equal; exact IH].
Qed.










Lemma flat_map_ones (n : option string -> nat) (l : list (option string)) :
  (forall k, In k l -> n k = 1) -> flat_map (fun k => repeat k (n k)) l = l.
Proof.
  induction l as [| k l IH]; simpl; intro H; [reflexivity |].
  rewrite H, IH by auto. reflexivity.
Qed.

End JoinFacts.

(** ** The rows of the join *)

Module JoinRows.
Import PandasFacts JoinFacts.

Lemma positions_spec (k : option string) (ks : list (option string)) (i j : nat) :
  In j (positions k ks i) -> i <= j /\ nth_error ks (j - i) = Some k.
Proof.
  revert i; induction ks as [| k' ks IH]; simpl; intros i H; [contradiction |].
  destruct (key_eqb k k') eqn:E.
  - destruct H as [<- | H].
    + rewrite Nat.sub_diag. apply key_eqb_eq in E. subst. auto.
    + destruct (IH _ H) as [Hle Hn]. split; [lia |].
      replace (j - i) with (S (j - S i)) by lia. exact Hn.
  - destruct (IH _ H) as [Hle Hn]. split; [lia |].
    replace (j - i) with (S (j - S i)) by lia. exact Hn.
Qed.

Lemma positions_complete (k : option string) (ks : list (option string)) (i r : nat) :
  nth_error ks r = Some k -> In (i + r) (positions k ks i).
Proof.
  revert i r; induction ks as [| k' ks IH]; intros i r H.
  - destruct r; discriminate H.
  - simpl. destruct r as [| r]; simpl in H.
    + injection H as ->.
      assert (key_eqb k k = true) as -> by (apply key_eqb_eq; reflexivity).
      left; lia.
    + replace (i + S r) with (S i + r) by lia.
      destruct (key_eqb k k'); [right |]; apply IH; exact H.
Qed.

(** What a pair of the indexer says: the right row, if any, has the left
    row's key; there is none only when no right row has it. *)
Definition pair_ok (lk rk : list (option string)) (i0 : nat) (p : nat * option nat)
  : Prop :=
  i0 <= fst p
  /\ exists k, nth_error lk (fst p - i0) = Some k
               /\ match snd p with
                  | Some r => nth_error rk r = Some k
                  | None => ~ In k rk
                  end.

Lemma row_matches_spec (rk : list (option string)) (i : nat) (k : option string) :
  Forall (fun p => fst p = i
                   /\ match snd p with
                      | Some r => nth_error rk r = Some k
                      | None => ~ In k rk
                      end)
         (row_matches rk i k).
Proof.
  unfold row_matches.
  destruct (positions k rk 0) as [| j js] eqn:E.
  - constructor; [| constructor]. split; [reflexivity |]. simpl.
    intro Hin. apply In_nth_error in Hin as [r Hr].
    pose proof (positions_complete k rk 0 r Hr) as H. rewrite E in H. exact H.
  - apply Forall_map. apply Forall_forall. intros r Hr. simpl.
    split; [reflexivity |].
    rewrite <- E in Hr. apply positions_spec in Hr as [_ Hr].
    rewrite Nat.sub_0_r in Hr. exact Hr.
Qed.

Lemma indexer_from_spec (rk lk : list (option string)) (i0 : nat) :
  Forall (pair_ok lk rk i0) (indexer_from rk lk i0).
Proof.
  revert i0; induction lk as [| k lk IH]; intro i0; simpl; [constructor |].
  apply Forall_app; split.
  - eapply Forall_impl; [| apply row_matches_spec].
    intros [i o] [Hi Ho]; simpl in *. subst i. split; simpl; [lia |].
    exists k. rewrite Nat.sub_diag. auto.
  - eapply Forall_impl; [| apply IH].
    intros [i o] (Hle & k' & Hk' & Ho); simpl in *. split; simpl; [lia |].
    exists k'. split; [| exact Ho].
    replace (i - i0) with (S (i - S i0)) by lia. exact Hk'.
Qed.

Lemma indexer_spec (lk rk : list (option string)) :
  Forall (fun p => exists k, nth_error lk (fst p) = Some k
                             /\ match snd p with
                                | Some r => nth_error rk r = Some k
                                | None => ~ In k rk
                                end)
         (indexer lk rk).
Proof.
  eapply Forall_impl; [| apply (indexer_from_spec rk lk 0)].
  intros p (_ & k & Hk & Ho). rewrite Nat.sub_0_r in Hk. eauto.
Qed.

(** The two key columns of a merged frame, row by row. *)
Lemma merged_keys_matched (lk rk : list (option string)) :
  Forall2 (matched rk)
          (map (fun i => nth i lk None) (map fst (indexer lk rk)))
          (map (pick rk None) (map snd (indexer lk rk))).
Proof.
  pose proof (indexer_spec lk rk) as H.
  induction H as [| [i o] ix (k & Hk & Ho) _ IH]; simpl; constructor; [| exact IH].
  simpl in *. rewrite (nth_error_nth _ _ _ Hk).
  destruct o as [r |]; simpl.
  - left. exact (nth_error_nth _ _ _ Ho).
  - right. auto.
Qed.

Lemma Forall2_reindex {A : Type} (R : option A -> option A -> Prop)
      (xs ys : list (option A)) (ix : list nat) :
  R None None -> Forall2 R xs ys ->
  Forall2 R (map (fun i => nth i xs None) ix) (map (fun i => nth i ys None) ix).
Proof.
  intros H0 H.
  assert (forall i, R (nth i xs None) (nth i ys None)) as Hnth.
  { induction H as [| x y xs ys Hxy _ IH]; intros [| i]; simpl; auto. }
  induction ix as [| i ix IH]; simpl; constructor; auto.
Qed.

(** The columns of a merge whose key columns are known. *)
Lemma merged_lookup (L R : DataFrame) (lo ro : string) (lk rk : list (option string)) :
  String.eqb lo ro = false ->
  getitem L lo = Ok (ObjectSeries lk) -> getitem R ro = Ok (ObjectSeries rk) ->
  exists M,
    merge L R lo ro = Ok M
    /\ nrows M = List.length (indexer lk rk)
    /\ forall c, plain c = true ->
         lookup c (columns M)
         = match lookup c (columns L), lookup c (columns R) with
           | Some s, None => Some (take_left (map fst (indexer lk rk)) s)
           | None, Some s => Some (take_right (map snd (indexer lk rk)) s)
           | _, _ => None
           end.
Proof.
  intros Hne HL HR.
  eexists. split; [apply (merge_Ok _ _ _ _ lk rk Hne HL HR) |].
  split; [reflexivity |]. intros c Hc. simpl.
  rewrite lookup_app.
  rewrite (lookup_renamed _ "_x" _ _ _ (plain_x _ Hc)).
  rewrite (lookup_renamed _ "_y" _ _ _ (plain_y _ Hc)).
  unfold names. rewrite !mem_names.
  destruct (lookup c (columns L)), (lookup c (columns R)); reflexivity.
Qed.

Lemma not_in_names (df : DataFrame) (c : string) :
  ~ In c (names df) -> lookup c (columns df) = None.
Proof. intro H. apply lookup_None_iff. exact H. Qed.

Lemma map_nth_seq {A : Type} (d : A) (pre xs : list A) :
  map (fun i => nth i (pre ++ xs)%list d) (seq (List.length pre) (List.length xs)) = xs.
Proof.
  revert pre; induction xs as [| x xs IH]; intro pre; simpl; [reflexivity |].
  f_equal.
  - rewrite app_nth2 by lia. rewrite Nat.sub_diag. reflexivity.
  - specialize (IH (pre ++ [x])%list).
    rewrite length_app, <- app_assoc in IH. simpl in IH.
    rewrite Nat.add_1_r in IH. exact IH.
Qed.

Lemma map_nth_all {A : Type} (d : A) (xs : list A) :
  map (fun i => nth i xs d) (seq 0 (List.length xs)) = xs.
Proof. exact (map_nth_seq d [] xs). Qed.

Lemma take_left_all (s : Series) : take_left (seq 0 (size s)) s = s.
Proof.
  destruct s as [xs | xs | xs | xs]; simpl; f_equal; apply map_nth_all.
Qed.

Lemma indexer_from_fst_unique (rk lk : list (option string)) (i0 : nat) :
  (forall k, In k lk -> copies rk k = 1) ->
  map fst (indexer_from rk lk i0) = seq i0 (List.length lk).
Proof.
  revert i0; induction lk as [| k lk IH]; intros i0 H; simpl; [reflexivity |].
  rewrite map_app, row_matches_fst, H by (simpl; auto). simpl.
  f_equal. apply IH. intros k' Hk'. apply H. simpl; auto.
Qed.

End JoinRows.

(** ** The two merges against the row-by-row description *)

Module JoinSpecFacts.
Import PandasFacts JoinFacts JoinRows JoinSpec.




























End JoinSpecFacts.

(** ** C2: the row count of the join *)

Module JoinTheorems.
Import PandasFacts JoinFacts JoinRows JoinSpec JoinSpecFacts Samples.








End JoinTheorems.

(** ** The numeric conversions *)

Module ConvertFacts.
Import PandasFacts.

Lemma urban_planning_shape (gdf : DataFrame) :
  urban_planning gdf = numeric_column "Urban pop. In %" (Some "%") gdf.
Proof. reflexivity. Qed.

Lemma infrastructure_development_shape (gdf : DataFrame) :
  infrastructure_development gdf = numeric_column "Net area sown" None gdf.
Proof.
  unfold infrastructure_development, numeric_column.
  destruct (getitem gdf "Net area sown"); reflexivity.
Qed.

Lemma environmental_conservation_shape (gdf : DataFrame) :
  environmental_conservation gdf = numeric_column "Forests" None gdf.
Proof.
  unfold environmental_conservation, numeric_column.
  destruct (getitem gdf "Forests"); reflexivity.
Qed.

Lemma socio_economics_analysis_shape (gdf : DataFrame) :
  socio_economics_analysis gdf = numeric_column "Density" (Some ",") gdf.
Proof. reflexivity. Qed.

Lemma numeric_column_setitem (c d : string) (pat : option string) (gdf : DataFrame)
      (s : Series) :
  String.eqb d c = false ->
  numeric_column c pat (setitem gdf d s) = numeric_column c pat gdf.
Proof.
  intro H. unfold numeric_column. rewrite getitem_setitem_other by exact H.
  reflexivity.
Qed.

(** [convert_columns] runs the four conversions on the merged frame: a
    column assigned on the way never is a source column. *)
Lemma convert_columns_eq (gdf : DataFrame) :
  convert_columns gdf
  = (s1 <- numeric_column "Urban pop. In %" (Some "%") gdf ;;
     s2 <- numeric_column "Net area sown" None gdf ;;
     s3 <- numeric_column "Forests" None gdf ;;
     s4 <- numeric_column "Density" (Some ",") gdf ;;
     Ok (setitem
           (setitem
              (setitem (setitem gdf "Urban Planning" s1)
                       "Infrastructure Development" s2)
              "Environmental Conservation" s3)
           "Socio-Economics Analysis" s4)).
Proof.
  unfold convert_columns.
  rewrite urban_planning_shape.
  destruct (numeric_column "Urban pop. In %" (Some "%") gdf) as [s1 |]; simpl;
    [| reflexivity].
  rewrite infrastructure_development_shape, numeric_column_setitem by reflexivity.
  destruct (numeric_column "Net area sown" None gdf) as [s2 |]; simpl;
    [| reflexivity].
  rewrite environmental_conservation_shape, !numeric_column_setitem by reflexivity.
  destruct (numeric_column "Forests" None gdf) as [s3 |]; simpl; [| reflexivity].
  rewrite socio_economics_analysis_shape, !numeric_column_setitem by reflexivity.
  reflexivity.
Qed.

Lemma convert_columns_raises (gdf : DataFrame) (c d : string) (pat : option string) :
  In (c, pat, d) indicators -> raises (numeric_column c pat gdf) ->
  raises (convert_columns gdf).
Proof.
  intros Hin [e He]. rewrite convert_columns_eq.
  simpl in Hin.
  destruct Hin as [H | [H | [H | [H | []]]]]; injection H as <- <- <-;
    rewrite ?He; simpl;
    repeat match goal with
           | |- raises (Err _) => apply raises_Err
           | |- raises (bind ?r _) =>
               destruct r; simpl; rewrite ?He; simpl
           end.
Qed.

(** *** One conversion *)

Lemma numeric_column_missing (c : string) (pat : option string) (gdf : DataFrame) :
  lookup c (columns gdf) = None -> numeric_column c pat gdf = Err (KeyError c).
Proof. intro H. unfold numeric_column. rewrite getitem_raises by exact H. reflexivity. Qed.


Lemma strip_pattern_object (pat : option string) (xs : list (option string)) :
  strip_pattern pat (ObjectSeries xs)
  = Ok (ObjectSeries (map (option_map (normalized pat)) xs)).
Proof.
  destruct pat; simpl; [reflexivity |].
  f_equal. f_equal. rewrite <- (map_id xs) at 1. apply map_ext.
  intros [t |]; reflexivity.
Qed.

Lemma cast_malformed (pat : option string) (xs : list (option string)) (i : nat)
      (t : string) :
  nth_error xs i = Some (Some t) ->
  PyFloat.of_string (normalized pat t) = None ->
  exists t',
    all_ok cell_to_float (map (option_map (normalized pat)) xs) = Err (ValueError t').
Proof.
  intros Hi Ht. revert i Hi. induction xs as [| x xs IH]; intros i Hi.
  - destruct i; discriminate Hi.
  - destruct i as [| i]; simpl in Hi.
    + injection Hi as ->. simpl. rewrite Ht. simpl. eauto.
    + simpl. destruct (cell_to_float (option_map (normalized pat) x)) as [y | e] eqn:Ey;
        simpl.
      * destruct (IH i Hi) as (t' & ->). simpl. eauto.
      * destruct x as [u |]; simpl in Ey; [| discriminate Ey].
        destruct (PyFloat.of_string (normalized pat u)); [discriminate Ey |].
        injection Ey as <-. eauto.
Qed.

(** A cell of text that is not a number after normalization makes the
    conversion raise [ValueError]. *)
Lemma numeric_column_malformed (c : string) (pat : option string) (gdf : DataFrame)
      (xs : list (option string)) (i : nat) (t : string) :
  lookup c (columns gdf) = Some (ObjectSeries xs) ->
  nth_error xs i = Some (Some t) ->
  PyFloat.of_string (normalized pat t) = None ->
  exists t', numeric_column c pat gdf = Err (ValueError t').
Proof.
  intros H Hi Ht. unfold numeric_column.
  apply getitem_Ok in H. rewrite H; simpl.
  rewrite strip_pattern_object; simpl.
  destruct (cast_malformed pat xs i t Hi Ht) as (t' & ->). simpl. eauto.
Qed.

Lemma fillna_not_nan (xs : list float) :
  Forall (fun y => is_nan y = false) (fillna 0%float xs).
Proof.
  unfold fillna. apply Forall_forall. intros y Hy.
  apply in_map_iff in Hy as (x & <- & _).
  destruct (is_nan x) eqn:E; [reflexivity | exact E].
Qed.

Lemma fillna_length (v : float) (xs : list float) :
  List.length (fillna v xs) = List.length xs.
Proof. apply length_map. Qed.

Lemma astype_float_length (s : Series) (xs : list float) :
  astype_float s = Ok xs -> List.length xs = size s.
Proof.
  destruct s as [zs | fs | os | gs]; simpl; intro H.
  - injection H as <-. apply length_map.
  - injection H as <-. reflexivity.
  - apply all_ok_length in H. exact H.
  - discriminate H.
Qed.

Lemma strip_pattern_size (pat : option string) (s s' : Series) :
  strip_pattern pat s = Ok s' -> size s' = size s.
Proof.
  destruct pat as [p |]; simpl.
  - destruct s; simpl; intro H; try discriminate H.
    injection H as <-. simpl. apply length_map.
  - intro H; injection H as <-; reflexivity.
Qed.

(** What a conversion that returns has computed: a [float64] column with a
    value for every row, none of them NaN, and 0.0 wherever the source cell
    is missing. *)
Lemma numeric_column_Ok (c : string) (pat : option string) (gdf : DataFrame)
      (s : Series) :
  numeric_column c pat gdf = Ok s ->
  exists src ys,
    lookup c (columns gdf) = Some src
    /\ s = FloatSeries ys
    /\ List.length ys = size src
    /\ Forall (fun y => is_nan y = false) ys
    /\ (forall xs i, src = ObjectSeries xs -> nth_error xs i = Some None ->
                     nth_error ys i = Some 0%float)
    /\ (forall xs i t, src = ObjectSeries xs -> nth_error xs i = Some (Some t) ->
                       exists x, PyFloat.of_string (normalized pat t) = Some x
                                 /\ nth_error ys i = Some (if is_nan x then 0%float else x)).
Proof.
  unfold numeric_column. intro H.
  bind_inv H. bind_inv H. bind_inv H. injection H as <-.
  apply getitem_Ok in Ea.
  exists a, (fillna 0%float a1). split; [exact Ea |]. split; [reflexivity |].
  split; [| split; [apply fillna_not_nan | split]].
  - rewrite fillna_length, (astype_float_length _ _ Ea1).
    apply (strip_pattern_size _ _ _ Ea0).
  - intros xs i -> Hi.
    rewrite strip_pattern_object in Ea0. injection Ea0 as <-. simpl in Ea1.
    destruct (all_ok_nth _ _ _ i None Ea1) as (y & Hy & Hnth).
    { rewrite nth_error_map, Hi. reflexivity. }
    simpl in Hy. injection Hy as <-.
    unfold fillna. rewrite nth_error_map, Hnth. reflexivity.
  - intros xs i t -> Hi.
    rewrite strip_pattern_object in Ea0. injection Ea0 as <-. simpl in Ea1.
    destruct (all_ok_nth _ _ _ i (Some (normalized pat t)) Ea1) as (y & Hy & Hnth).
    { rewrite nth_error_map, Hi. reflexivity. }
    simpl in Hy. destruct (PyFloat.of_string (normalized pat t)) as [x |];
      [| discriminate Hy].
    injection Hy as <-. exists x. split; [reflexivity |].
    unfold fillna. rewrite nth_error_map, Hnth. reflexivity.
Qed.

(** The cast stops at the first cell whose text is not a number, and its
    [ValueError] carries that text. *)
Lemma cast_first_malformed (pat : option string) (xs : list (option string)) (i : nat)
      (t : string) :
  nth_error xs i = Some (Some t) ->
  PyFloat.of_string (normalized pat t) = None ->
  exists j u,
    j <= i /\ nth_error xs j = Some (Some u)
    /\ PyFloat.of_string (normalized pat u) = None
    /\ (forall j' v, j' < j -> nth_error xs j' = Some (Some v) ->
                      PyFloat.of_string (normalized pat v) <> None)
    /\ all_ok cell_to_float (map (option_map (normalized pat)) xs)
       = Err (ValueError (normalized pat u)).
Proof.
  intros Hi Ht. revert i Hi. induction xs as [| x xs IH]; intros i Hi.
  - destruct i; discriminate Hi.
  - destruct x as [v |].
    + destruct (PyFloat.of_string (normalized pat v)) as [y |] eqn:Ev.
      * destruct i as [| i]; simpl in Hi; [injection Hi as ->; congruence |].
        destruct (IH i Hi) as (j & u & Hle & Hj & Hu & Hbefore & Hcast).
        exists (S j), u. split; [lia |]. split; [exact Hj |]. split; [exact Hu |].
        split.
        -- intros [| j'] w Hlt Hw; simpl in Hw.
           ++ injection Hw as <-. congruence.
           ++ apply (Hbefore j' w); [lia | exact Hw].
        -- simpl. rewrite Ev. simpl. rewrite Hcast. reflexivity.
      * exists 0, v. split; [lia |]. split; [reflexivity |]. split; [exact Ev |].
        split; [intros j' w Hlt; lia |].
        simpl. rewrite Ev. reflexivity.
    + destruct i as [| i]; simpl in Hi; [discriminate Hi |].
      destruct (IH i Hi) as (j & u & Hle & Hj & Hu & Hbefore & Hcast).
      exists (S j), u. split; [lia |]. split; [exact Hj |]. split; [exact Hu |].
      split.
      * intros [| j'] w Hlt Hw; simpl in Hw; [discriminate Hw |].
        apply (Hbefore j' w); [lia | exact Hw].
      * simpl. rewrite Hcast. reflexivity.
Qed.

Lemma numeric_column_first_malformed (c : string) (pat : option string)
      (gdf : DataFrame) (xs : list (option string)) (i : nat) (t : string) :
  lookup c (columns gdf) = Some (ObjectSeries xs) ->
  nth_error xs i = Some (Some t) ->
  PyFloat.of_string (normalized pat t) = None ->
  exists j u,
    j <= i /\ nth_error xs j = Some (Some u)
    /\ PyFloat.of_string (normalized pat u) = None
    /\ (forall j' v, j' < j -> nth_error xs j' = Some (Some v) ->
                      PyFloat.of_string (normalized pat v) <> None)
    /\ numeric_column c pat gdf = Err (ValueError (normalized pat u)).
Proof.
  intros H Hi Ht.
  destruct (cast_first_malformed pat xs i t Hi Ht)
    as (j & u & Hle & Hj & Hu & Hbefore & Hcast).
  exists j, u. repeat (split; [assumption |]).
  unfold numeric_column. apply getitem_Ok in H. rewrite H; simpl.
  rewrite strip_pattern_object; simpl. rewrite Hcast. reflexivity.
Qed.

(** The value a conversion that returns gives to each row: the number the
    source cell holds, and 0.0 where that number is NaN. *)
Lemma numeric_column_values (c : string) (pat : option string) (gdf : DataFrame)
      (src : Series) (ys : list float) (i : nat) :
  numeric_column c pat gdf = Ok (FloatSeries ys) ->
  lookup c (columns gdf) = Some src ->
  i < size src ->
  exists x, spelled pat src i = Some x
            /\ nth_error ys i = Some (if is_nan x then 0%float else x).
Proof.
  unfold numeric_column. intros H Hsrc Hi.
  apply getitem_Ok in Hsrc. rewrite Hsrc in H. simpl in H.
  destruct src as [zs | fs | ts | gs]; simpl in Hi.
  - destruct pat as [p |]; simpl in H; [discriminate H |].
    injection H as <-.
    destruct (nth_error zs i) as [z |] eqn:Ez;
      [| apply nth_error_None in Ez; lia].
    exists (PyFloat.of_Z z). simpl. rewrite Ez. split; [reflexivity |].
    unfold fillna. rewrite !nth_error_map, Ez. reflexivity.
  - destruct pat as [p |]; simpl in H; [discriminate H |].
    injection H as <-.
    destruct (nth_error fs i) as [x |] eqn:Ex;
      [| apply nth_error_None in Ex; lia].
    exists x. simpl. split; [exact Ex |].
    unfold fillna. rewrite nth_error_map, Ex. reflexivity.
  - rewrite strip_pattern_object in H. simpl in H.
    bind_inv H. injection H as <-.
    destruct (nth_error ts i) as [cell |] eqn:Ec;
      [| apply nth_error_None in Ec; lia].
    destruct (all_ok_nth _ _ _ i (option_map (normalized pat) cell) Ea) as (y & Hy & Hnth).
    { rewrite nth_error_map, Ec. reflexivity. }
    simpl. rewrite Ec. destruct cell as [t |]; simpl in Hy.
    + destruct (PyFloat.of_string (normalized pat t)) as [x |]; [| discriminate Hy].
      injection Hy as <-. exists x. split; [reflexivity |].
      unfold fillna. rewrite nth_error_map, Hnth. reflexivity.
    + injection Hy as <-. exists nan. split; [reflexivity |].
      unfold fillna. rewrite nth_error_map, Hnth. reflexivity.
  - destruct pat as [p |]; simpl in H; discriminate H.
Qed.

End ConvertFacts.

(** ** The whole of [process_files] *)

Module PipelineFacts.
Import PandasFacts ConvertFacts.

Create Rewrite HintDb frame.
#[local] Hint Rewrite getitem_setitem_same : frame.
#[local] Hint Rewrite getitem_setitem_other using reflexivity : frame.

Lemma recommend_Ok (g : DataFrame) (ind : string) (f : float -> string)
      (ys : list float) :
  getitem g ind = Ok (FloatSeries ys) ->
  recommend ind f g = Ok (setitem g (ind ++ " Recommendation") (labelled f ys)).
Proof. intro H. unfold recommend. rewrite H. reflexivity. Qed.

Lemma assign_recommendations_Ok (m : DataFrame) (y1 y2 y3 y4 : list float) :
  assign_recommendations (with_indicators m y1 y2 y3 y4)
  = Ok (with_recommendations m y1 y2 y3 y4).
Proof.
  unfold assign_recommendations, with_recommendations, with_indicators.
  rewrite (recommend_Ok _ "Urban Planning" _ y1)
    by (autorewrite with frame; reflexivity).
  simpl.
  rewrite (recommend_Ok _ "Infrastructure Development" _ y2)
    by (autorewrite with frame; reflexivity).
  simpl.
  rewrite (recommend_Ok _ "Environmental Conservation" _ y3)
    by (autorewrite with frame; reflexivity).
  simpl.
  rewrite (recommend_Ok _ "Socio-Economics Analysis" _ y4)
    by (autorewrite with frame; reflexivity).
  reflexivity.
Qed.

(** After the merges, [process_files] returns exactly when the four
    conversions do, and then with these columns. *)
Lemma process_files_Ok (gdf pop land m : DataFrame) (y1 y2 y3 y4 : list float) :
  merge_datasets gdf pop land = Ok m ->
  numeric_column "Urban pop. In %" (Some "%") m = Ok (FloatSeries y1) ->
  numeric_column "Net area sown" None m = Ok (FloatSeries y2) ->
  numeric_column "Forests" None m = Ok (FloatSeries y3) ->
  numeric_column "Density" (Some ",") m = Ok (FloatSeries y4) ->
  process_files gdf pop land = Ok (with_recommendations m y1 y2 y3 y4).
Proof.
  intros Hm H1 H2 H3 H4. unfold process_files. rewrite Hm; simpl.
  rewrite convert_columns_eq, H1, H2, H3, H4; simpl.
  apply assign_recommendations_Ok.
Qed.

Lemma numeric_column_float (c : string) (pat : option string) (m : DataFrame)
      (s : Series) :
  numeric_column c pat m = Ok s -> exists ys, s = FloatSeries ys.
Proof.
  intro H. destruct (numeric_column_Ok _ _ _ _ H) as (src & ys & _ & -> & _).
  exists ys; reflexivity.
Qed.

Lemma process_files_Ok_inv (gdf pop land out : DataFrame) :
  process_files gdf pop land = Ok out ->
  exists m y1 y2 y3 y4,
    merge_datasets gdf pop land = Ok m
    /\ numeric_column "Urban pop. In %" (Some "%") m = Ok (FloatSeries y1)
    /\ numeric_column "Net area sown" None m = Ok (FloatSeries y2)
    /\ numeric_column "Forests" None m = Ok (FloatSeries y3)
    /\ numeric_column "Density" (Some ",") m = Ok (FloatSeries y4)
    /\ out = with_recommendations m y1 y2 y3 y4.
Proof.
  unfold process_files. intro H.
  bind_inv H. bind_inv H.
  rewrite convert_columns_eq in Ea0.
  bind_inv Ea0. bind_inv Ea0. bind_inv Ea0. bind_inv Ea0.
  injection Ea0 as <-.
  destruct (numeric_column_float _ _ _ _ Ea1) as (y1 & ->).
  destruct (numeric_column_float _ _ _ _ Ea2) as (y2 & ->).
  destruct (numeric_column_float _ _ _ _ Ea3) as (y3 & ->).
  destruct (numeric_column_float _ _ _ _ Ea4) as (y4 & ->).
  exists a, y1, y2, y3, y4.
  change (assign_recommendations (with_indicators a y1 y2 y3 y4) = Ok out) in H.
  rewrite assign_recommendations_Ok in H. injection H as <-.
  repeat split; assumption.
Qed.

(** An exception in the merge or in a conversion aborts the invocation. *)
Lemma process_files_raises (gdf pop land m : DataFrame) (c d : string)
      (pat : option string) :
  merge_datasets gdf pop land = Ok m ->
  In (c, pat, d) indicators -> raises (numeric_column c pat m) ->
  raises (process_files gdf pop land).
Proof.
  intros Hm Hin Hc. unfold process_files. rewrite Hm; simpl.
  apply bind_raises_l. eapply convert_columns_raises; eassumption.
Qed.

(** The columns of the returned frame. *)
Lemma indicator_of_result (m : DataFrame) (y1 y2 y3 y4 : list float) :
  let out := with_recommendations m y1 y2 y3 y4 in
  getitem out "Urban Planning" = Ok (FloatSeries y1)
  /\ getitem out "Infrastructure Development" = Ok (FloatSeries y2)
  /\ getitem out "Environmental Conservation" = Ok (FloatSeries y3)
  /\ getitem out "Socio-Economics Analysis" = Ok (FloatSeries y4)
  /\ nrows out = nrows m.
Proof.
  unfold with_recommendations, with_indicators.
  repeat split; autorewrite with frame; reflexivity.
Qed.

Lemma recommendation_of_result (m : DataFrame) (y1 y2 y3 y4 : list float) :
  let out := with_recommendations m y1 y2 y3 y4 in
  getitem out "Urban Planning Recommendation"
  = Ok (labelled urban_planning_recommendation y1)
  /\ getitem out "Infrastructure Development Recommendation"
     = Ok (labelled infrastructure_development_recommendation y2)
  /\ getitem out "Environmental Conservation Recommendation"
     = Ok (labelled environmental_conservation_recommendation y3)
  /\ getitem out "Socio-Economics Analysis Recommendation"
     = Ok (labelled socio_economics_analysis_recommendation y4).
Proof.
  unfold with_recommendations, with_indicators.
  repeat split; autorewrite with frame; reflexivity.
Qed.

(** Every column of a merged frame has a cell for every row. *)
Lemma merge_sizes (L R M : DataFrame) (lo ro : string) :
  String.eqb lo ro = false -> merge L R lo ro = Ok M ->
  forall c s, lookup c (columns M) = Some s -> size s = nrows M.
Proof.
  intros Hne H c s Hs.
  destruct (merge_Ok_inv _ _ _ _ _ Hne H) as (ls & rs & ix & _ & _ & _ & ->).
  simpl in *.
  assert (forall cols : list (string * Series),
             Forall (fun p => size (snd p) = List.length ix) cols ->
             lookup c cols = Some s -> size s = List.length ix) as Hall.
  { induction cols as [| [c' s'] cols IH]; simpl; intros HF Hl; [discriminate Hl |].
    inversion HF; subst. destruct (String.eqb c' c).
    - injection Hl as <-. assumption.
    - apply IH; assumption. }
  refine (Hall _ _ Hs).
  apply Forall_app; split; apply Forall_map, Forall_forall; intros [c' s'] _; simpl.
  - destruct s'; simpl; rewrite !length_map; reflexivity.
  - destruct s'; simpl; try (rewrite !length_map; reflexivity).
    destruct (all_matched (map snd ix)); simpl;
      rewrite !length_map; reflexivity.
Qed.

Lemma merge_datasets_sizes (gdf pop land m : DataFrame) :
  merge_datasets gdf pop land = Ok m ->
  forall c s, lookup c (columns m) = Some s -> size s = nrows m.
Proof.
  unfold merge_datasets. intro H. bind_inv H.
  apply (merge_sizes _ _ _ _ _ (eq_refl : String.eqb "statename" land_key = false) H).
Qed.

(** The exception [process_files] raises after the merges is the one of
    the first conversion that fails. *)
Lemma process_files_first_error (gdf pop land m : DataFrame) (e : PyError) :
  merge_datasets gdf pop land = Ok m ->
  first_error (conversions m) = Some e ->
  process_files gdf pop land = Err e.
Proof.
  intros Hm He. unfold process_files. rewrite Hm; simpl.
  rewrite convert_columns_eq.
  unfold conversions, indicators in He. simpl in He.
  destruct (numeric_column "Urban pop. In %" (Some "%") m); simpl in *;
    [| congruence].
  destruct (numeric_column "Net area sown" None m); simpl in *; [| congruence].
  destruct (numeric_column "Forests" None m); simpl in *; [| congruence].
  destruct (numeric_column "Density" (Some ",") m); simpl in *; [| congruence].
  discriminate He.
Qed.

Lemma first_error_at {A B : Type} (f : A -> result B) (pre post : list A) (x : A)
      (e : PyError) :
  Forall (fun y => exists b, f y = Ok b) pre -> f x = Err e ->
  first_error (map f (pre ++ x :: post)) = Some e.
Proof.
  intros Hpre Hx. induction Hpre as [| y pre (b & Hy) _ IH]; simpl.
  - rewrite Hx. reflexivity.
  - rewrite Hy. exact IH.
Qed.

Lemma first_error_some {A B : Type} (f : A -> result B) (l : list A) (x : A)
      (e0 : PyError) :
  In x l -> f x = Err e0 -> exists e, first_error (map f l) = Some e.
Proof.
  intros Hin Hx. induction l as [| y l IH]; simpl; [contradiction |].
  destruct (f y) as [b | e] eqn:Ey; [| eauto].
  destruct Hin as [-> | Hin]; [congruence | exact (IH Hin)].
Qed.

End PipelineFacts.

(** ** Source columns through the two merges *)

Module SourceFacts.
Import PandasFacts ConvertFacts PipelineFacts.

Lemma indicators_plain (c d : string) (pat : option string) :
  In (c, pat, d) indicators -> plain c = true.
Proof.
  simpl. intros [H | [H | [H | [H | []]]]]; injection H as <- _ _; reflexivity.
Qed.

Lemma merge_datasets_Ok_inv (gdf pop land m : DataFrame) :
  merge_datasets gdf pop land = Ok m ->
  exists m1, merge gdf pop "statename" population_key = Ok m1
             /\ merge m1 land "statename" land_key = Ok m.
Proof.
  unfold merge_datasets. intro H. bind_inv H. exists a; split; [reflexivity | exact H].
Qed.

(** A source column absent from the three inputs is absent from the merged
    frame. *)
Lemma lookup_merged_absent (gdf pop land m : DataFrame) (c : string) :
  plain c = true ->
  merge_datasets gdf pop land = Ok m ->
  lookup c (columns gdf) = None -> lookup c (columns pop) = None ->
  lookup c (columns land) = None ->
  lookup c (columns m) = None.
Proof.
  intros Hc Hm Hg Hp Hl.
  destruct (merge_datasets_Ok_inv _ _ _ _ Hm) as (m1 & H1 & H2).
  destruct (lookup_merge gdf pop m1 "statename" population_key c eq_refl Hc H1)
    as (? & ? & E1).
  destruct (lookup_merge m1 land m "statename" land_key c eq_refl Hc H2)
    as (? & ? & E2).
  rewrite Hg, Hp in E1. rewrite E1, Hl in E2. exact E2.
Qed.




End SourceFacts.

(** ** C1, C3, C6, C7, C8, C10: the derivation of the indicators *)

Module DeriveTheorems.
Import PandasFacts ConvertFacts PipelineFacts SourceFacts Samples MoreSamples.

(** C7 fails as stated: the forest column is absent from the land table,
    the table it belongs to, and the invocation returns all the same.  The
    column is looked up in the merged frame, and here the population table
    has one. *)
Lemma column_found_elsewhere :
  ~ In "Forests" (names land_without_forests)
  /\ exists out,
       process_files alpha_boundary population_with_forests land_without_forests
       = Ok out
       /\ getitem out "Environmental Conservation" = Ok (FloatSeries [3200%float]).
Proof.
  split.
  - simpl. intros [H | [H | []]]; discriminate H.
  - eexists. split; vm_compute; reflexivity.
Qed.

(** C7, as the code has it: when a required source column (urban
    percentage, net sown area, forest area or density) is in none of the
    three inputs, the invocation fails and returns no frame, so no region
    gets a default; when the two merges succeed, the conversion of that
    column raises [KeyError] with the column's name. *)
Theorem missing_column_aborts (gdf pop land : DataFrame) (c d : string)
        (pat : option string) :
  In (c, pat, d) indicators ->
  ~ In c (names gdf) -> ~ In c (names pop) -> ~ In c (names land) ->
  raises (process_files gdf pop land)
  /\ forall m, merge_datasets gdf pop land = Ok m ->
               numeric_column c pat m = Err (KeyError c).
Proof.
  intros Hin Hg Hp Hl.
  apply lookup_None_iff in Hg, Hp, Hl.
  assert (forall m, merge_datasets gdf pop land = Ok m ->
                    numeric_column c pat m = Err (KeyError c)) as Hkey.
  { intros m Hm. apply numeric_column_missing.
    eapply lookup_merged_absent; eauto using indicators_plain. }
  split; [| exact Hkey].
  destruct (merge_datasets gdf pop land) as [m | e] eqn:Hm.
  - eapply process_files_raises; [exact Hm | exact Hin |].
    rewrite (Hkey m eq_refl). apply raises_Err.
  - unfold process_files. rewrite Hm. apply raises_Err.
Qed.

Lemma missing_column_aborts_witness :
  raises (process_files alpha_boundary alpha_population land_without_forests).
Proof.
  refine (proj1 (missing_column_aborts alpha_boundary alpha_population
                   land_without_forests "Forests" "Environmental Conservation" None
                   _ _ _ _)).
  - simpl; auto.
  - simpl. intros [H | [H | []]]; discriminate H.
  - simpl. intros [H | [H | [H | []]]]; discriminate H.
  - simpl. intros [H | [H | []]]; discriminate H.
Defined.



(** C1 fails as stated: a percentage that is not a number is not replaced
    by 0.0 for its row; the cast raises [ValueError] and the invocation
    returns no row at all. *)
Lemma malformed_cell_raises :
  process_files two_regions population_with_text two_land = Err (ValueError "n.a.").
Proof. vm_compute. reflexivity. Qed.

(** C1, as the code has it: for every source column holding text in the
    merged frame, a cell whose text is not a number after normalization ('%'
    removed from the urban percentage, ',' from the density) makes the
    conversion of the column raise [ValueError] with the normalized text of
    the first such cell of the column.  The invocation then raises to the
    caller the exception of the first of the four conversions that fails
    (they run in the order urban percentage, net sown area, forests,
    density): this [ValueError] when the conversions before it succeed.  It
    completes for no row.  In an invocation that returns, 0.0 is what a
    missing (null) cell gets, and a cell whose text spells NaN; every other
    cell gets the number its text spells. *)
Theorem malformed_cell_aborts (gdf pop land m : DataFrame) (c d : string)
        (pat : option string) (xs : list (option string)) :
  merge_datasets gdf pop land = Ok m ->
  In (c, pat, d) indicators ->
  lookup c (columns m) = Some (ObjectSeries xs) ->
  (forall i t, nth_error xs i = Some (Some t) ->
               PyFloat.of_string (normalized pat t) = None ->
               exists j u e,
                 j <= i /\ nth_error xs j = Some (Some u)
                 /\ PyFloat.of_string (normalized pat u) = None
                 /\ (forall j' v, j' < j -> nth_error xs j' = Some (Some v) ->
                                   PyFloat.of_string (normalized pat v) <> None)
                 /\ numeric_column c pat m = Err (ValueError (normalized pat u))
                 /\ process_files gdf pop land = Err e
                 /\ first_error (conversions m) = Some e
                 /\ (forall pre post,
                       indicators = (pre ++ (c, pat, d) :: post)%list ->
                       Forall (fun ind => exists s, conversion m ind = Ok s) pre ->
                       e = ValueError (normalized pat u)))
  /\ (forall out i, process_files gdf pop land = Ok out ->
                    exists ys,
                      getitem out d = Ok (FloatSeries ys)
                      /\ (nth_error xs i = Some None -> nth_error ys i = Some 0%float)
                      /\ (forall t, nth_error xs i = Some (Some t) ->
                                    exists x,
                                      PyFloat.of_string (normalized pat t) = Some x
                                      /\ nth_error ys i
                                         = Some (if is_nan x then 0%float else x))).
Proof.
  intros Hm Hin Hc. split.
  - intros i t Hi Ht.
    destruct (numeric_column_first_malformed c pat m xs i t Hc Hi Ht)
      as (j & u & Hle & Hj & Hu & Hbefore & Hraise).
    destruct (first_error_some (conversion m) indicators (c, pat, d) _ Hin Hraise)
      as (e & He).
    exists j, u, e. repeat (split; [assumption |]).
    split; [exact (process_files_first_error _ _ _ _ _ Hm He) |].
    split; [exact He |].
    intros pre post Hsplit Hpre.
    unfold conversions in He. rewrite Hsplit in He.
    rewrite (first_error_at (conversion m) pre post (c, pat, d) _ Hpre Hraise) in He.
    congruence.
  - intros out i Hout.
    destruct (process_files_Ok_inv _ _ _ _ Hout)
      as (m' & y1 & y2 & y3 & y4 & Hm' & H1 & H2 & H3 & H4 & ->).
    rewrite Hm in Hm'. injection Hm' as <-.
    destruct (indicator_of_result m y1 y2 y3 y4) as (G1 & G2 & G3 & G4 & _).
    simpl in Hin.
    destruct Hin as [H | [H | [H | [H | []]]]]; injection H as <- <- <-;
      [ destruct (numeric_column_Ok _ _ _ _ H1)
          as (src & ys & Hsrc & Hys & _ & _ & Hnull & Htext)
      | destruct (numeric_column_Ok _ _ _ _ H2)
          as (src & ys & Hsrc & Hys & _ & _ & Hnull & Htext)
      | destruct (numeric_column_Ok _ _ _ _ H3)
          as (src & ys & Hsrc & Hys & _ & _ & Hnull & Htext)
      | destruct (numeric_column_Ok _ _ _ _ H4)
          as (src & ys & Hsrc & Hys & _ & _ & Hnull & Htext) ];
      injection Hys as <-; rewrite Hc in Hsrc; injection Hsrc as <-;
      eexists; (split; [eassumption |]);
      (split; [exact (Hnull xs i eq_refl)
              | intros t Ht; exact (Htext xs i t eq_refl Ht)]).
Qed.

Lemma malformed_cell_aborts_witness :
  process_files two_regions population_bad_density two_land
  = Err (ValueError "12 per km").
Proof.
  destruct (malformed_cell_aborts two_regions population_bad_density two_land _
              "Density" "Socio-Economics Analysis" (Some ",")
              [Some "1,150"; Some "12 per km"] eq_refl
              (or_intror (or_intror (or_intror (or_introl eq_refl)))) eq_refl)
    as [H _].
  destruct (H 1 "12 per km" eq_refl eq_refl)
    as (j & u & e & _ & _ & _ & _ & Hcol & Hraise & _ & Hfirst).
  rewrite Hraise. f_equal.
  rewrite (Hfirst [ ("Urban pop. In %", Some "%", "Urban Planning");
                    ("Net area sown", None, "Infrastructure Development");
                    ("Forests", None, "Environmental Conservation") ] [] eq_refl).
  - match type of Hcol with
    | ?l = _ =>
        assert (l = Err (ValueError "12 per km")) as E by (vm_compute; reflexivity)
    end.
    rewrite E in Hcol. congruence.
  - repeat (apply Forall_cons; [eexists; vm_compute; reflexivity |]).
    apply Forall_nil.
Defined.

(** C6 fails as stated: text that is not a number does not yield 0.0. *)
Lemma text_is_not_defaulted :
  urban_planning (column "Urban pop. In %" (ObjectSeries [Some "abc"]))
  = Err (ValueError "abc")
  /\ socio_economics_analysis (column "Density" (ObjectSeries [Some "abc"]))
     = Err (ValueError "abc").
Proof. split; vm_compute; reflexivity. Qed.

(** C6, as the code has it: "45.2%" in the urban percentage gives 45.2 and
    "1,234,567" in the density gives 1234567.0.  In a text column of any
    of the four source fields a missing cell gives 0.0, a cell of text
    gives the number it spells after normalization (0.0 when it spells
    NaN), and text that spells no number raises [ValueError] with the
    normalized text: "abc" in any field, and "%" in the urban percentage or
    "," in the density, of which normalization leaves nothing.  In a
    [float64] column the two area fields give every value as it is and 0.0
    for a missing one, while the urban percentage and the density raise
    [AttributeError], whatever the values. *)
Theorem normalization_results :
  urban_planning (column "Urban pop. In %" (ObjectSeries [Some "45.2%"]))
  = Ok (FloatSeries [45.2%float])
  /\ socio_economics_analysis (column "Density" (ObjectSeries [Some "1,234,567"]))
     = Ok (FloatSeries [1234567.0%float])
  /\ urban_planning (column "Urban pop. In %" (ObjectSeries [Some "%"]))
     = Err (ValueError "")
  /\ socio_economics_analysis (column "Density" (ObjectSeries [Some ","]))
     = Err (ValueError "")
  /\ Forall
       (fun ind =>
          let '(c, pat, _) := ind in
          numeric_column c pat (column c (ObjectSeries [None]))
          = Ok (FloatSeries [0%float])
          /\ numeric_column c pat (column c (ObjectSeries [Some "abc"]))
             = Err (ValueError "abc")
          /\ (forall t,
                numeric_column c pat (column c (ObjectSeries [Some t]))
                = match PyFloat.of_string (normalized pat t) with
                  | Some x => Ok (FloatSeries [if is_nan x then 0%float else x])
                  | None => Err (ValueError (normalized pat t))
                  end)
          /\ (forall xs,
                numeric_column c pat (column c (FloatSeries xs))
                = match pat with
                  | Some _ =>
                      Err (AttributeError
                             "Can only use .str accessor with string values!")
                  | None => Ok (FloatSeries (fillna 0%float xs))
                  end)
          /\ fillna 0%float [nan] = [0%float])
       indicators.
Proof.
  split; [vm_compute; reflexivity |].
  split; [vm_compute; reflexivity |].
  split; [vm_compute; reflexivity |].
  split; [vm_compute; reflexivity |].
  assert (forall c pat t,
             numeric_column c pat (column c (ObjectSeries [Some t]))
             = match PyFloat.of_string (normalized pat t) with
               | Some x => Ok (FloatSeries [if is_nan x then 0%float else x])
               | None => Err (ValueError (normalized pat t))
               end) as Hcell.
  { intros c pat t. unfold numeric_column, column, getitem. simpl.
    rewrite String.eqb_refl. simpl. rewrite strip_pattern_object; simpl.
    destruct (PyFloat.of_string (normalized pat t)); reflexivity. }
  assert (forall c pat xs,
             numeric_column c pat (column c (FloatSeries xs))
             = match pat with
               | Some _ =>
                   Err (AttributeError
                          "Can only use .str accessor with string values!")
               | None => Ok (FloatSeries (fillna 0%float xs))
               end) as Hnum.
  { intros c pat xs. unfold numeric_column, column, getitem. simpl.
    rewrite String.eqb_refl. simpl. destruct pat; reflexivity. }
  repeat (apply Forall_cons;
          [ split; [vm_compute; reflexivity |];
            split; [vm_compute; reflexivity |];
            split; [intro t; apply Hcell |];
            split; [intro xs; apply Hnum | vm_compute; reflexivity]
          | ]).
  apply Forall_nil.
Qed.

(** C8 fails as stated: a negative percentage and an infinite density pass
    through unchanged. *)
Lemma indicator_negative_and_infinite :
  exists out,
    process_files two_regions population_odd two_land = Ok out
    /\ getitem out "Urban Planning" = Ok (FloatSeries [(-5)%float; 12%float])
    /\ PrimFloat.ltb (-5) 0 = true
    /\ getitem out "Socio-Economics Analysis"
       = Ok (FloatSeries [1200%float; infinity]).
Proof. eexists. repeat split; vm_compute; reflexivity. Qed.

(** C8, as the code has it: in the frame an invocation returns, each of
    the four indicator columns is a [float64] column with one value per
    row, none of them NaN (so none null).  Each value is the number the
    source cell of the row holds in the merged frame: the value of a
    numeric cell, the number the text of a text cell spells after
    normalization; and it is 0.0 where the source cell is missing or holds
    or spells NaN.  Text that spells no number gives no value: no frame is
    returned then.  Nothing else is changed, so the value is negative or
    infinite when the source says so. *)
Theorem indicators_never_nan (gdf pop land out : DataFrame) (c d : string)
        (pat : option string) :
  process_files gdf pop land = Ok out ->
  In (c, pat, d) indicators ->
  exists m src ys,
    merge_datasets gdf pop land = Ok m
    /\ lookup c (columns m) = Some src
    /\ getitem out d = Ok (FloatSeries ys)
    /\ List.length ys = nrows out
    /\ Forall (fun y => is_nan y = false) ys
    /\ (forall i, i < nrows out ->
                  exists x, spelled pat src i = Some x
                            /\ nth_error ys i = Some (if is_nan x then 0%float else x))
    /\ (forall xs i, src = ObjectSeries xs ->
                     nth_error xs i = Some None -> nth_error ys i = Some 0%float)
    /\ (forall xs i t, src = ObjectSeries xs ->
                       nth_error xs i = Some (Some t) ->
                       PyFloat.of_string (normalized pat t) <> None).
Proof.
  intros Hout Hin.
  destruct (process_files_Ok_inv _ _ _ _ Hout)
    as (m & y1 & y2 & y3 & y4 & Hm & H1 & H2 & H3 & H4 & ->).
  destruct (indicator_of_result m y1 y2 y3 y4) as (G1 & G2 & G3 & G4 & Hrows).
  pose proof (merge_datasets_sizes _ _ _ _ Hm) as Hsize.
  exists m. simpl in Hin.
  destruct Hin as [H | [H | [H | [H | []]]]]; injection H as <- <- <-;
    [ pose proof H1 as Hconv | pose proof H2 as Hconv
    | pose proof H3 as Hconv | pose proof H4 as Hconv ];
    destruct (numeric_column_Ok _ _ _ _ Hconv)
      as (src & ys & Hsrc & Hys & Hlen & Hnan & Hnull & Htext);
    injection Hys as <-; exists src; eexists;
    (split; [exact Hm |]); (split; [exact Hsrc |]); (split; [eassumption |]);
    (split; [rewrite Hrows, Hlen; eapply Hsize; exact Hsrc |]);
    (split; [exact Hnan |]);
    (split;
     [ intros i Hi; eapply numeric_column_values; [exact Hconv | exact Hsrc |];
       rewrite (Hsize _ _ Hsrc), <- Hrows; exact Hi |]);
    (split;
     [ intros xs i Hxs Hi; exact (Hnull xs i Hxs Hi)
     | intros xs i t Hxs Hi;
       destruct (Htext xs i t Hxs Hi) as (x & -> & _); discriminate ]).
Qed.

Lemma indicators_never_nan_witness :
  exists out ys,
    process_files two_regions population_with_gaps two_land = Ok out
    /\ getitem out "Urban Planning" = Ok (FloatSeries ys)
    /\ Forall (fun y => is_nan y = false) ys
    /\ nth_error ys 1 = Some 0%float.
Proof.
  pose proof (process_files_Ok two_regions population_with_gaps two_land _
                [65; 0]%float [9000; 1500]%float [3200; 400]%float [1150; 0]%float
                eq_refl eq_refl eq_refl eq_refl eq_refl) as E.
  destruct (indicators_never_nan _ _ _ _ "Urban pop. In %" "Urban Planning" (Some "%")
              E (or_introl eq_refl))
    as (m & src & ys & Hm & Hsrc & Hget & _ & Hnan & _ & Hnull & _).
  eexists; exists ys. split; [exact E |]. split; [exact Hget |].
  split; [exact Hnan |].
  vm_compute in Hm. injection Hm as <-.
  vm_compute in Hsrc. injection Hsrc as <-.
  exact (Hnull _ 1 eq_refl eq_refl).
Defined.

(** C3 fails as stated: the density "150,5" is not malformed for the code.
    With the comma removed it reads 1505, so the indicator is not 0.0 and
    the label is not the one of the first ascending band. *)
Lemma alpha_density_is_not_default :
  ~ exists out,
      process_files alpha_boundary alpha_population alpha_land = Ok out
      /\ (getitem out "Socio-Economics Analysis" = Ok (FloatSeries [0.0%float])
          \/ getitem out "Socio-Economics Analysis Recommendation"
             = Ok (ObjectSeries
                     [Some (nth 0 (RuleTable.labels RuleTable.SocioEconomicDensity) "")])).
Proof.
  intros (out & H & G).
  vm_compute in H. injection H as <-.
  destruct G as [G | G]; vm_compute in G.
  - apply (f_equal (fun r => match r with
                                | Ok (FloatSeries [x]) => PrimFloat.eqb x 0
                                | _ => false
                                end)) in G.
    vm_compute in G. discriminate G.
  - discriminate G.
Qed.

(** C3, as the code has it: for the region Alpha with urban percentage
    "65%", net sown "9000", forest "3200" and density "150,5", the
    invocation returns one row with UrbanPlanningIndex 65.0 in the highest
    urban band (> 60), InfrastructureIndex 9000.0 in the > 8000 band,
    ConservationIndex 3200.0 in the > 3000 band, and SocioEconomicDensity
    1505.0 (the comma is removed) in the catch-all band above 780; the
    same whether the density comes with the population row or the land row,
    and whether the areas are read as integers or as text. *)
Theorem alpha_scenario :
  (exists out, process_files alpha_boundary alpha_population alpha_land = Ok out
               /\ alpha_result out)
  /\ (exists out,
        process_files alpha_boundary alpha_population_short alpha_land_wide = Ok out
        /\ alpha_result out)
  /\ fst (nth 0 (RuleTable.thresholds RuleTable.UrbanPlanningIndex) (0%float, ""))
     = 60%float
  /\ fst (nth 1 (RuleTable.thresholds RuleTable.InfrastructureIndex) (0%float, ""))
     = 8000%float
  /\ fst (nth 4 (RuleTable.thresholds RuleTable.ConservationIndex) (0%float, ""))
     = 3000%float
  /\ fst (last (RuleTable.thresholds RuleTable.SocioEconomicDensity) (0%float, ""))
     = 780%float
  /\ RuleTable.otherwise RuleTable.SocioEconomicDensity
     = last (RuleTable.labels RuleTable.SocioEconomicDensity) "".
Proof.
  split; [| split].
  - eexists. split; [vm_compute; reflexivity |].
    unfold alpha_result. repeat split; vm_compute; reflexivity.
  - eexists. split; [vm_compute; reflexivity |].
    unfold alpha_result. repeat split; vm_compute; reflexivity.
  - repeat split; vm_compute; reflexivity.
Qed.

End DeriveTheorems.

(** ** C9: the map overlay *)

Module OverlayTheorems.
Import Samples.

(** C9: whatever the frame and the theme, the layer [create_map] builds
    draws every region with the one style (blue fill, opacity 0.6, weight
    0.5), whatever the region's columns hold, and its tooltip has exactly
    the two fields [statename] and the recommendation column, with the
    aliases "State:" and "Recommendation:". *)
Theorem overlay_uniform_style (process_data : DataFrame -> result unit)
        (save : Map -> string -> result unit) (gdf : DataFrame)
        (title recommendation_column : string) (m : Map) (file_path : string) :
  create_map process_data save gdf title recommendation_column = Ok (m, file_path) ->
  exists layer,
    children m = [layer]
    /\ data layer = gdf
    /\ name layer = title
    /\ fields (tooltip layer) = ["statename"; recommendation_column]
    /\ aliases (tooltip layer) = ["State:"; "Recommendation:"]
    /\ (forall region region', style_function layer region = style_function layer region')
    /\ Forall (fun s => s = mkStyle "blue" 0.6%float 0.5%float) (styles layer)
    /\ List.length (styles layer) = nrows gdf.
Proof.
  unfold create_map. intro H. bind_inv H. bind_inv H. injection H as <- _.
  eexists. split; [reflexivity |]. simpl.
  repeat split.
  - unfold styles; simpl. apply Forall_forall. intros s Hs.
    apply in_map_iff in Hs as (region & <- & _). reflexivity.
  - unfold styles, features; simpl. rewrite !length_map. apply length_seq.
Qed.

Lemma overlay_uniform_style_witness :
  exists layer,
    fields (tooltip layer) = ["statename"; "Urban Planning Recommendation"]
    /\ aliases (tooltip layer) = ["State:"; "Recommendation:"]
    /\ Forall (fun s => s = mkStyle "blue" 0.6%float 0.5%float) (styles layer)
    /\ List.length (styles layer) = 1.
Proof.
  destruct (overlay_uniform_style (fun _ => Ok tt) (fun _ _ => Ok tt) alpha_boundary
              "Urban Planning" "Urban Planning Recommendation" _ _ eq_refl)
    as (layer & _ & _ & _ & Hfields & Haliases & _ & Hstyles & Hlen).
  exists layer. auto.
Defined.

End OverlayTheorems.

(** * Further properties of the program *)

(** ** [process_files] as a whole *)

Module ProcessFacts.
Import PandasFacts ConvertFacts PipelineFacts SourceFacts Samples.

Lemma conversion_sized (gdf pop land m : DataFrame) (c : string) (pat : option string)
      (ys : list float) :
  merge_datasets gdf pop land = Ok m ->
  numeric_column c pat m = Ok (FloatSeries ys) ->
  List.length ys = nrows m.
Proof.
  intros Hm H.
  destruct (numeric_column_Ok _ _ _ _ H) as (src & ys' & Hsrc & Hys & Hlen & _).
  injection Hys as <-. rewrite Hlen.
  eapply merge_datasets_sizes; eassumption.
Qed.

(** [process_files] returns exactly when the two merges and the four
    conversions return; the classification and the column assignments
    never fail, and the frame returned is the merged frame with the eight
    columns set. *)
Theorem process_files_returns_iff (gdf pop land out : DataFrame) :
  process_files gdf pop land = Ok out
  <-> exists m y1 y2 y3 y4,
        merge_datasets gdf pop land = Ok m
        /\ urban_planning m = Ok (FloatSeries y1)
        /\ infrastructure_development m = Ok (FloatSeries y2)
        /\ environmental_conservation m = Ok (FloatSeries y3)
        /\ socio_economics_analysis m = Ok (FloatSeries y4)
        /\ out = with_recommendations m y1 y2 y3 y4.
Proof.
  split.
  - intro H.
    destruct (process_files_Ok_inv _ _ _ _ H)
      as (m & y1 & y2 & y3 & y4 & Hm & H1 & H2 & H3 & H4 & ->).
    exists m, y1, y2, y3, y4.
    rewrite urban_planning_shape, infrastructure_development_shape,
      environmental_conservation_shape, socio_economics_analysis_shape.
    repeat split; assumption.
  - intros (m & y1 & y2 & y3 & y4 & Hm & H1 & H2 & H3 & H4 & ->).
    rewrite urban_planning_shape in H1.
    rewrite infrastructure_development_shape in H2.
    rewrite environmental_conservation_shape in H3.
    rewrite socio_economics_analysis_shape in H4.
    apply process_files_Ok; assumption.
Qed.

(** In the frame [process_files] returns, every recommendation is the label
    its classifier gives to the indicator value of the same row, the column
    [main] asks for under the theme's name is that recommendation column,
    and both columns have one cell per row. *)
Theorem recommendation_follows_indicator (gdf pop land out : DataFrame)
        (theme : string) (f : float -> string) :
  process_files gdf pop land = Ok out ->
  In (theme, f) classifiers ->
  exists ys column,
    dict_getitem maps_info theme = Ok column
    /\ getitem out theme = Ok (FloatSeries ys)
    /\ getitem out column = Ok (ObjectSeries (map (fun y => Some (f y)) ys))
    /\ List.length ys = nrows out.
Proof.
  intros Hout Hin.
  destruct (process_files_Ok_inv _ _ _ _ Hout)
    as (m & y1 & y2 & y3 & y4 & Hm & H1 & H2 & H3 & H4 & ->).
  destruct (indicator_of_result m y1 y2 y3 y4) as (G1 & G2 & G3 & G4 & Hrows).
  destruct (recommendation_of_result m y1 y2 y3 y4) as (R1 & R2 & R3 & R4).
  pose proof (conversion_sized _ _ _ _ _ _ _ Hm H1) as L1.
  pose proof (conversion_sized _ _ _ _ _ _ _ Hm H2) as L2.
  pose proof (conversion_sized _ _ _ _ _ _ _ Hm H3) as L3.
  pose proof (conversion_sized _ _ _ _ _ _ _ Hm H4) as L4.
  simpl in Hin.
  destruct Hin as [H | [H | [H | [H | []]]]]; injection H as <- <-;
    eexists; eexists; (split; [reflexivity |]);
    (split; [eassumption |]); (split; [eassumption |]); congruence.
Qed.

Lemma recommendation_follows_indicator_witness :
  exists out ys,
    process_files two_regions population_with_gaps two_land = Ok out
    /\ getitem out "Urban Planning" = Ok (FloatSeries ys)
    /\ getitem out "Urban Planning Recommendation"
       = Ok (ObjectSeries (map (fun y => Some (urban_planning_recommendation y)) ys)).
Proof.
  pose proof (process_files_Ok two_regions population_with_gaps two_land _
                [65; 0]%float [9000; 1500]%float [3200; 400]%float [1150; 0]%float
                eq_refl eq_refl eq_refl eq_refl eq_refl) as E.
  destruct (recommendation_follows_indicator _ _ _ _ "Urban Planning"
              urban_planning_recommendation E (or_introl eq_refl))
    as (ys & column & Hcol & Hget & Hrec & _).
  injection Hcol as <-.
  eexists; exists ys. split; [exact E | split; assumption].
Defined.

Lemma names_assign (c c' : string) (s : Series) (cols : list (string * Series)) :
  In c (map fst cols) -> In c (map fst (assign c' s cols)).
Proof.
  induction cols as [| [c0 s0] cols IH]; simpl; [tauto |].
  intros [<- | H]; destruct (String.eqb c0 c') eqn:E; simpl; auto.
  apply String.eqb_eq in E; subst; auto.
Qed.

Lemma lookup_assign_unassigned (c c' : string) (s : Series)
      (cols : list (string * Series)) :
  ~ In c assigned_columns -> In c' assigned_columns ->
  lookup c (assign c' s cols) = lookup c cols.
Proof.
  intros Hc Hc'. apply lookup_assign_other. apply String.eqb_neq.
  intros ->. contradiction.
Qed.

(** [process_files] loses nothing of the merged frame: the frame it returns
    has the same number of rows, every column of the merged frame is still
    there, and a column whose name is not one of the eight assigned names
    is returned as it was (the region names and the geometry among them). *)
Theorem merged_columns_kept (gdf pop land m out : DataFrame) :
  merge_datasets gdf pop land = Ok m ->
  process_files gdf pop land = Ok out ->
  nrows out = nrows m
  /\ (forall c, In c (names m) -> In c (names out))
  /\ (forall c, ~ In c assigned_columns -> getitem out c = getitem m c).
Proof.
  intros Hm Hout.
  destruct (process_files_Ok_inv _ _ _ _ Hout)
    as (m' & y1 & y2 & y3 & y4 & Hm' & _ & _ & _ & _ & ->).
  rewrite Hm in Hm'. injection Hm' as <-.
  split; [reflexivity |]. split.
  - intros c Hc. unfold names, with_recommendations, with_indicators, setitem; simpl.
    repeat apply names_assign. exact Hc.
  - intros c Hc. unfold getitem, with_recommendations, with_indicators, setitem; simpl.
    rewrite !(lookup_assign_unassigned c) by (assumption || (simpl; tauto)).
    reflexivity.
Qed.

Lemma merged_columns_kept_witness :
  exists out,
    process_files two_regions population_with_gaps two_land = Ok out
    /\ nrows out = 2
    /\ getitem out "geometry"
       = Ok (GeometrySeries [Some "POLYGON ((0 0, 1 0, 1 1, 0 0))";
                             Some "POLYGON ((2 0, 3 0, 3 1, 2 0))"]).
Proof.
  pose proof (process_files_Ok two_regions population_with_gaps two_land _
                [65; 0]%float [9000; 1500]%float [3200; 400]%float [1150; 0]%float
                eq_refl eq_refl eq_refl eq_refl eq_refl) as E.
  destruct (merged_columns_kept two_regions population_with_gaps two_land _ _
              eq_refl E) as (Hrows & _ & Hkeep).
  eexists. split; [exact E |]. split; [exact Hrows |].
  rewrite Hkeep; [reflexivity |].
  simpl. intros [H | [H | [H | [H | [H | [H | [H | [H | []]]]]]]]]; discriminate H.
Defined.

(** A join key column that is missing is reported by name: [KeyError] with
    [statename] when the boundary table lacks it, with the population key
    or the land key when that table lacks it; no conversion is attempted. *)
Theorem missing_join_key (gdf pop land : DataFrame) (key : string) :
  (key = "statename" /\ lookup key (columns gdf) = None
   /\ lookup population_key (columns pop) <> None)
  \/ (key = population_key /\ lookup key (columns pop) = None
      /\ lookup "statename" (columns gdf) <> None)
  \/ (key = land_key /\ lookup key (columns land) = None
      /\ exists m1, merge gdf pop "statename" population_key = Ok m1
                    /\ lookup "statename" (columns m1) <> None) ->
  process_files gdf pop land = Err (KeyError key).
Proof.
  unfold process_files, merge_datasets.
  intros [(-> & Hg & Hp) | [(-> & Hp & Hg) | (-> & Hl & m1 & Hm1 & Hs)]].
  - unfold merge at 1, getitem. rewrite Hg.
    destruct (lookup population_key (columns pop)); [reflexivity | contradiction].
  - unfold merge at 1, getitem. rewrite Hp. reflexivity.
  - rewrite Hm1; simpl. unfold merge, getitem. rewrite Hl. reflexivity.
Qed.

Lemma missing_join_key_witness :
  process_files alpha_boundary alpha_population MoreSamples.land_other_key
  = Err (KeyError land_key).
Proof.
  apply missing_join_key. right; right.
  split; [reflexivity |]. split; [reflexivity |].
  eexists. split; [reflexivity |]. discriminate.
Defined.

End ProcessFacts.

(** ** The key cells and the boundary columns of the joined rows *)

Module JoinRowTheorems.
Import PandasFacts JoinFacts JoinRows Samples.

(** The join never pairs a Region with a row of another name: in every row
    of the merged frame the population key and the land key are the
    Region's name, or are missing, and they are missing only when the table
    has no row with that name. *)
Theorem join_pairs_same_key (gdf pop land : DataFrame)
        (lk pk dk : list (option string)) :
  getitem gdf "statename" = Ok (ObjectSeries lk) ->
  getitem pop population_key = Ok (ObjectSeries pk) ->
  getitem land land_key = Ok (ObjectSeries dk) ->
  ~ In "statename" (names pop) -> ~ In "statename" (names land) ->
  ~ In population_key (names gdf) -> ~ In population_key (names land) ->
  ~ In land_key (names gdf) -> ~ In land_key (names pop) ->
  exists out ks ps ds,
    merge_datasets gdf pop land = Ok out
    /\ getitem out "statename" = Ok (ObjectSeries ks)
    /\ getitem out population_key = Ok (ObjectSeries ps)
    /\ getitem out land_key = Ok (ObjectSeries ds)
    /\ Forall2 (matched pk) ks ps
    /\ Forall2 (matched dk) ks ds.
Proof.
  intros Hl Hp Hd N1 N2 N3 N4 N5 N6.
  apply not_in_names in N1, N2, N3, N4, N5, N6.
  pose proof Hl as Hl'. pose proof Hp as Hp'. pose proof Hd as Hd'.
  apply getitem_Ok in Hl', Hp', Hd'.
  destruct (merged_lookup gdf pop "statename" population_key lk pk eq_refl Hl Hp)
    as (m1 & Hm1 & _ & L1).
  pose proof (L1 "statename" eq_refl) as S1. rewrite Hl', N1 in S1.
  pose proof (L1 population_key eq_refl) as P1. rewrite N3, Hp' in P1.
  pose proof (L1 land_key eq_refl) as D1. rewrite N5, N6 in D1.
  simpl in S1, P1.
  destruct (merged_lookup m1 land "statename" land_key _ dk eq_refl
              (proj2 (getitem_Ok _ _ _) S1) Hd) as (out & Hout & _ & L2).
  pose proof (L2 "statename" eq_refl) as S2. rewrite S1, N2 in S2.
  pose proof (L2 population_key eq_refl) as P2. rewrite P1, N4 in P2.
  pose proof (L2 land_key eq_refl) as D2. rewrite D1, Hd' in D2.
  simpl in S2, P2, D2.
  do 4 eexists. unfold merge_datasets. rewrite Hm1; simpl.
  split; [exact Hout |].
  split; [apply getitem_Ok; exact S2 |].
  split; [apply getitem_Ok; exact P2 |].
  split; [apply getitem_Ok; exact D2 |].
  split.
  - apply Forall2_reindex; [left; reflexivity | apply merged_keys_matched].
  - apply merged_keys_matched.
Qed.

Lemma join_pairs_same_key_witness :
  exists out ks ps,
    merge_datasets two_regions
      (mkDataFrame 1 [(population_key, ObjectSeries [Some "Beta"])]) two_land = Ok out
    /\ getitem out "statename" = Ok (ObjectSeries ks)
    /\ getitem out population_key = Ok (ObjectSeries ps)
    /\ Forall2 (matched [Some "Beta"]) ks ps.
Proof.
  destruct (join_pairs_same_key two_regions
              (mkDataFrame 1 [(population_key, ObjectSeries [Some "Beta"])]) two_land
              [Some "Alpha"; Some "Beta"] [Some "Beta"] [Some "Alpha"; Some "Beta"]
              eq_refl eq_refl eq_refl)
    as (out & ks & ps & ds & Hout & Hks & Hps & _ & Hm & _);
    try (simpl; intuition discriminate).
  exists out, ks, ps. auto.
Defined.

(** When no Region's name occurs twice in an attribute table, the columns
    of the boundary table (the geometry among them) come out of the join
    unchanged, row for row: a column that only the boundary table has is
    returned as it went in. *)
Theorem boundary_columns_unchanged (gdf pop land : DataFrame)
        (lk pk dk : list (option string)) (c : string) (s : Series) :
  getitem gdf "statename" = Ok (ObjectSeries lk) ->
  List.length lk = nrows gdf ->
  getitem pop population_key = Ok (ObjectSeries pk) ->
  getitem land land_key = Ok (ObjectSeries dk) ->
  ~ In "statename" (names pop) ->
  (forall k, In k lk -> matches_in pk k <= 1 /\ matches_in dk k <= 1) ->
  plain c = true ->
  getitem gdf c = Ok s -> size s = nrows gdf ->
  ~ In c (names pop) -> ~ In c (names land) ->
  exists out,
    merge_datasets gdf pop land = Ok out
    /\ nrows out = nrows gdf
    /\ getitem out c = Ok s.
Proof.
  intros Hl Hlen Hp Hd N1 Huniq Hc Hs Hsize Np Nl.
  apply not_in_names in N1, Np, Nl.
  pose proof Hl as Hl'. apply getitem_Ok in Hl'. apply getitem_Ok in Hs.
  assert (forall k, In k lk -> copies pk k = 1) as U1
      by (intros k Hk; apply copies_one, Huniq, Hk).
  assert (forall k, In k lk -> copies dk k = 1) as U2
      by (intros k Hk; apply copies_one, Huniq, Hk).
  destruct (merged_lookup gdf pop "statename" population_key lk pk eq_refl Hl Hp)
    as (m1 & Hm1 & R1 & L1).
  pose proof (L1 "statename" eq_refl) as S1. rewrite Hl', N1 in S1.
  pose proof (L1 c Hc) as C1. rewrite Hs, Np in C1.
  unfold indexer in S1, C1, R1.
  rewrite indexer_from_fst_unique in S1, C1 by exact U1.
  rewrite <- (length_map fst), indexer_from_fst_unique in R1 by exact U1.
  rewrite length_seq in R1.
  rewrite Hlen, <- Hsize, take_left_all in C1.
  simpl in S1. rewrite map_nth_all in S1.
  destruct (merged_lookup m1 land "statename" land_key lk dk eq_refl
              (proj2 (getitem_Ok _ _ _) S1) Hd) as (out & Hout & R2 & L2).
  pose proof (L2 c Hc) as C2. rewrite C1, Nl in C2.
  unfold indexer in C2, R2.
  rewrite indexer_from_fst_unique in C2 by exact U2.
  rewrite <- (length_map fst), indexer_from_fst_unique in R2 by exact U2.
  rewrite length_seq in R2.
  rewrite Hlen, <- Hsize, take_left_all in C2.
  exists out. unfold merge_datasets. rewrite Hm1; simpl.
  split; [exact Hout |]. split; [congruence |].
  apply getitem_Ok. exact C2.
Qed.

Lemma boundary_columns_unchanged_witness :
  exists out,
    merge_datasets two_regions population_with_gaps two_land = Ok out
    /\ getitem out "geometry"
       = Ok (GeometrySeries [Some "POLYGON ((0 0, 1 0, 1 1, 0 0))";
                             Some "POLYGON ((2 0, 3 0, 3 1, 2 0))"]).
Proof.
  destruct (boundary_columns_unchanged two_regions population_with_gaps two_land
              [Some "Alpha"; Some "Beta"] [Some "Alpha"; Some "Beta"]
              [Some "Alpha"; Some "Beta"] "geometry"
              (GeometrySeries [Some "POLYGON ((0 0, 1 0, 1 1, 0 0))";
                               Some "POLYGON ((2 0, 3 0, 3 1, 2 0))"])
              eq_refl eq_refl eq_refl eq_refl)
    as (out & Hout & _ & Hget);
    try reflexivity; try (simpl; intuition discriminate).
  - intros k [<- | [<- | []]]; split; vm_compute; lia.
  - exists out. auto.
Defined.

End JoinRowTheorems.

(** ** Regions without a matching row *)

Module UnmatchedFacts.
Import PandasFacts ConvertFacts PipelineFacts SourceFacts JoinFacts JoinRows.

Lemma all_matched_false (ix : list (option nat)) (j : nat) :
  nth_error ix j = Some None -> all_matched ix = false.
Proof.
  revert j; induction ix as [| o ix IH]; intros [| j] H; simpl in *;
    try discriminate H.
  - injection H as ->. reflexivity.
  - destruct o; [apply (IH j H) | reflexivity].
Qed.

Lemma take_right_missing (ix : list (option nat)) (s : Series) (j : nat) :
  nth_error ix j = Some None -> is_geometry s = false ->
  missing_at (take_right ix s) j.
Proof.
  intros Hj Hs. destruct s as [xs | xs | xs | xs]; simpl; try discriminate Hs.
  - rewrite (all_matched_false ix j Hj). simpl.
    exists nan. rewrite nth_error_map, Hj. split; reflexivity.
  - exists nan. rewrite nth_error_map, Hj. split; reflexivity.
  - rewrite nth_error_map, Hj. reflexivity.
Qed.

Lemma take_left_missing (ix : list nat) (s : Series) (i j : nat) :
  missing_at s i -> nth_error ix j = Some i -> missing_at (take_left ix s) j.
Proof.
  intros Hs Hj. destruct s as [xs | xs | xs | xs]; simpl in *; try contradiction.
  - destruct Hs as (x & Hx & Hnan). exists x.
    rewrite nth_error_map, Hj. simpl. rewrite (nth_error_nth _ _ _ Hx). auto.
  - rewrite nth_error_map, Hj. simpl. rewrite (nth_error_nth _ _ _ Hs). reflexivity.
Qed.

(** A missing source cell gives the indicator 0.0. *)
Lemma missing_gives_zero (c : string) (pat : option string) (m : DataFrame)
      (s : Series) (ys : list float) (j : nat) :
  numeric_column c pat m = Ok (FloatSeries ys) ->
  lookup c (columns m) = Some s -> missing_at s j ->
  nth_error ys j = Some 0%float.
Proof.
  intros H Hs Hj.
  destruct s as [xs | xs | xs | xs]; simpl in Hj; try contradiction.
  - destruct Hj as (x & Hx & Hnan).
    unfold numeric_column in H. rewrite (proj2 (getitem_Ok _ _ _) Hs) in H.
    destruct pat as [p |]; simpl in H; [discriminate H |].
    assert (ys = fillna 0%float xs) as -> by congruence.
    unfold fillna. rewrite nth_error_map, Hx. simpl. rewrite Hnan. reflexivity.
  - destruct (numeric_column_Ok _ _ _ _ H) as (src & ys' & Hsrc & Hys & _ & _ & Hnull & _).
    assert (ys' = ys) as -> by congruence.
    rewrite Hs in Hsrc. injection Hsrc as <-.
    exact (Hnull xs j eq_refl Hj).
Qed.

(** In a merged frame, the right table's cell of a row whose left key no
    right row has is missing. *)
Lemma unmatched_right_missing (lk rk : list (option string)) (s : Series)
      (j : nat) (a : option string) :
  nth_error (map (fun i => nth i lk None) (map fst (indexer lk rk))) j = Some a ->
  ~ In a rk -> is_geometry s = false ->
  missing_at (take_right (map snd (indexer lk rk)) s) j.
Proof.
  intros Hj Ha Hs.
  rewrite !nth_error_map in Hj.
  destruct (nth_error (indexer lk rk) j) as [[i o] |] eqn:E; [| discriminate Hj].
  simpl in Hj. injection Hj as <-.
  pose proof (indexer_spec lk rk) as Hspec.
  rewrite Forall_forall in Hspec.
  destruct (Hspec _ (nth_error_In _ _ E)) as (k & Hk & Ho). simpl in *.
  rewrite (nth_error_nth _ _ _ Hk) in Ha.
  apply take_right_missing; [| exact Hs].
  rewrite nth_error_map, E. simpl.
  destruct o as [r |]; [| reflexivity].
  exfalso. apply Ha. eapply nth_error_In. exact Ho.
Qed.

(** A property of the rows of the left frame is a property of the rows of
    the merged frame they go to. *)
Lemma reindexed_left_missing (P : option string -> Prop) (lk rk : list (option string))
      (s : Series) :
  (forall i a, nth_error lk i = Some a -> P a -> missing_at s i) ->
  forall j a,
    nth_error (map (fun i => nth i lk None) (map fst (indexer lk rk))) j = Some a ->
    P a -> missing_at (take_left (map fst (indexer lk rk)) s) j.
Proof.
  intros Hrows j a Hj Ha.
  rewrite !nth_error_map in Hj.
  destruct (nth_error (indexer lk rk) j) as [[i o] |] eqn:E; [| discriminate Hj].
  simpl in Hj. injection Hj as <-.
  pose proof (indexer_spec lk rk) as Hspec.
  rewrite Forall_forall in Hspec.
  destruct (Hspec _ (nth_error_In _ _ E)) as (k & Hk & _). simpl in *.
  rewrite (nth_error_nth _ _ _ Hk) in Ha.
  eapply take_left_missing; [eapply Hrows; eassumption |].
  rewrite nth_error_map, E. reflexivity.
Qed.

Lemma lookup_with_recommendations (m : DataFrame) (y1 y2 y3 y4 : list float)
      (c : string) :
  ~ In c assigned_columns ->
  lookup c (columns (with_recommendations m y1 y2 y3 y4)) = lookup c (columns m).
Proof.
  intro Hc. unfold with_recommendations, with_indicators, setitem; simpl.
  repeat (rewrite lookup_assign_other;
          [| apply String.eqb_neq; intros <-; apply Hc; simpl; tauto]).
  reflexivity.
Qed.

(** The source column of an indicator, in the merged frame: missing in the
    rows of a Region that the column's table has no row for. *)
Lemma unmatched_source_missing (gdf pop land : DataFrame)
      (lk pk dk keys : list (option string)) (c : string) (s : Series) :
  getitem gdf "statename" = Ok (ObjectSeries lk) ->
  getitem pop population_key = Ok (ObjectSeries pk) ->
  getitem land land_key = Ok (ObjectSeries dk) ->
  ~ In "statename" (names pop) -> ~ In "statename" (names land) ->
  plain c = true ->
  (only_in c s pop gdf land /\ keys = pk) \/ (only_in c s land gdf pop /\ keys = dk) ->
  is_geometry s = false ->
  exists m ks col,
    merge_datasets gdf pop land = Ok m
    /\ lookup "statename" (columns m) = Some (ObjectSeries ks)
    /\ lookup c (columns m) = Some col
    /\ forall j a, nth_error ks j = Some a -> ~ In a keys -> missing_at col j.
Proof.
  intros Hl Hp Hd N1 N2 Hc Hsrc Hs.
  apply not_in_names in N1, N2.
  pose proof Hl as Hl'. apply getitem_Ok in Hl'.
  destruct (merged_lookup gdf pop "statename" population_key lk pk eq_refl Hl Hp)
    as (m1 & Hm1 & _ & L1).
  pose proof (L1 "statename" eq_refl) as S1. rewrite Hl', N1 in S1. simpl in S1.
  destruct (merged_lookup m1 land "statename" land_key _ dk eq_refl
              (proj2 (getitem_Ok _ _ _) S1) Hd) as (m & Hmm & _ & L2).
  pose proof (L2 "statename" eq_refl) as S2. rewrite S1, N2 in S2. simpl in S2.
  pose proof (L1 c Hc) as C1. pose proof (L2 c Hc) as C2.
  unfold merge_datasets. rewrite Hm1; simpl.
  destruct Hsrc as [[(Hcp & Hcg & Hcl) ->] | [(Hcl & Hcg & Hcp) ->]];
    rewrite Hcg, Hcp in C1; rewrite C1, Hcl in C2;
    exists m; eexists; eexists;
    (split; [exact Hmm |]); (split; [exact S2 |]); (split; [exact C2 |]).
  - apply (reindexed_left_missing (fun a => ~ In a pk)).
    intros i a Hi Ha. eapply unmatched_right_missing; eassumption.
  - intros j a Hj Ha. eapply unmatched_right_missing; eassumption.
Qed.

End UnmatchedFacts.

Module UnmatchedTheorems.
Import PandasFacts ConvertFacts PipelineFacts SourceFacts UnmatchedFacts Samples
  MoreSamples.

(** A Region whose name no row of an attribute table has is not an error:
    in each of its rows, every indicator whose source column comes from
    that table is 0.0 and the recommendation is the label of 0.0 (the
    catch-all of the three descending tables, the first band of the
    density). *)
Theorem unmatched_region_defaults (gdf pop land out : DataFrame)
        (lk pk dk keys : list (option string)) (c d : string) (pat : option string)
        (f : float -> string) (s : Series) :
  getitem gdf "statename" = Ok (ObjectSeries lk) ->
  getitem pop population_key = Ok (ObjectSeries pk) ->
  getitem land land_key = Ok (ObjectSeries dk) ->
  ~ In "statename" (names pop) -> ~ In "statename" (names land) ->
  In (c, pat, d) indicators -> In (d, f) classifiers ->
  (only_in c s pop gdf land /\ keys = pk) \/ (only_in c s land gdf pop /\ keys = dk) ->
  is_geometry s = false ->
  process_files gdf pop land = Ok out ->
  exists ks ys rs,
    getitem out "statename" = Ok (ObjectSeries ks)
    /\ getitem out d = Ok (FloatSeries ys)
    /\ getitem out (d ++ " Recommendation") = Ok (ObjectSeries rs)
    /\ (forall j a, nth_error ks j = Some a -> ~ In a keys ->
                    nth_error ys j = Some 0%float
                    /\ nth_error rs j = Some (Some (f 0%float)))
    /\ map (fun p => snd p 0%float) classifiers
       = [ "Promote urban development in underdeveloped areas";
           "Prioritize infrastructure development in regions with limited agricultural land";
           "Initiate basic conservation and afforestation efforts in critical regions";
           "Focus on rural development and connectivity in sparsely populated areas" ].
Proof.
  intros Hl Hp Hd N1 N2 Hin Hf Hsrc Hs Hout.
  destruct (unmatched_source_missing gdf pop land lk pk dk keys c s Hl Hp Hd N1 N2
              (indicators_plain _ _ _ Hin) Hsrc Hs)
    as (m & ks & col & Hm & Hks & Hcol & Hmiss).
  destruct (process_files_Ok_inv _ _ _ _ Hout)
    as (m' & y1 & y2 & y3 & y4 & Hm' & H1 & H2 & H3 & H4 & ->).
  rewrite Hm in Hm'. injection Hm' as <-.
  destruct (indicator_of_result m y1 y2 y3 y4) as (G1 & G2 & G3 & G4 & _).
  destruct (recommendation_of_result m y1 y2 y3 y4) as (R1 & R2 & R3 & R4).
  assert (getitem (with_recommendations m y1 y2 y3 y4) "statename"
          = Ok (ObjectSeries ks)) as Gs.
  { apply getitem_Ok. rewrite lookup_with_recommendations; [exact Hks |].
    simpl. intuition discriminate. }
  exists ks.
  simpl in Hin, Hf.
  destruct Hin as [H | [H | [H | [H | []]]]]; injection H as <- <- <-;
    destruct Hf as [H | [H | [H | [H | []]]]]; try discriminate H;
    injection H as <-;
    eexists; eexists;
    (split; [exact Gs |]); (split; [eassumption |]); (split; [eassumption |]);
    (split; [| reflexivity]);
    intros j a Hj Ha;
    [ pose proof (missing_gives_zero _ _ _ _ _ j H1 Hcol (Hmiss j a Hj Ha)) as Z
    | pose proof (missing_gives_zero _ _ _ _ _ j H2 Hcol (Hmiss j a Hj Ha)) as Z
    | pose proof (missing_gives_zero _ _ _ _ _ j H3 Hcol (Hmiss j a Hj Ha)) as Z
    | pose proof (missing_gives_zero _ _ _ _ _ j H4 Hcol (Hmiss j a Hj Ha)) as Z ];
    (split; [exact Z | rewrite nth_error_map, Z; reflexivity]).
Qed.

Lemma unmatched_region_defaults_witness :
  exists out ys,
    process_files two_regions population_alpha_only two_land = Ok out
    /\ getitem out "Urban Planning" = Ok (FloatSeries ys)
    /\ nth_error ys 1 = Some 0%float.
Proof.
  pose proof (process_files_Ok two_regions population_alpha_only two_land _
                [65; 0]%float [9000; 1500]%float [3200; 400]%float [1200; 0]%float
                eq_refl eq_refl eq_refl eq_refl eq_refl) as E.
  assert (~ In "statename" (names population_alpha_only)) as N1
      by (simpl; intuition discriminate).
  assert (~ In "statename" (names two_land)) as N2
      by (simpl; intuition discriminate).
  destruct (unmatched_region_defaults two_regions population_alpha_only two_land _
              [Some "Alpha"; Some "Beta"] [Some "Alpha"] [Some "Alpha"; Some "Beta"]
              [Some "Alpha"] "Urban pop. In %" "Urban Planning" (Some "%")
              urban_planning_recommendation (ObjectSeries [Some "65%"])
              eq_refl eq_refl eq_refl N1 N2 (or_introl eq_refl) (or_introl eq_refl)
              (or_introl (conj (conj eq_refl (conj eq_refl eq_refl)) eq_refl))
              eq_refl E)
    as (ks & ys & rs & Hks & Hys & _ & Hrow & _).
  eexists; exists ys. split; [exact E |]. split; [exact Hys |].
  vm_compute in Hks. injection Hks as <-.
  refine (proj1 (Hrow 1 (Some "Beta") eq_refl _)).
  simpl. intuition discriminate.
Defined.

End UnmatchedTheorems.

(** ** The order of the bands *)

Module OrderFacts.
Import FloatOrder.

Lemma SFltb_place (f g : spec_float) :
  SFltb f g = true
  <-> exists p q, place f = Some p /\ place g = Some q /\ before p q.
Proof.
  unfold SFltb.
  destruct f as [s | s | | s m e], g as [s' | s' | | s' m' e']; simpl;
    try (split; [discriminate | intros (p & q & Hp & Hq & _); discriminate]);
    try destruct s; try destruct s'; simpl;
    try (split; [discriminate
                | intros (p & q & Hp & Hq & H);
                  injection Hp as <-; injection Hq as <-; simpl in H; lia]);
    try (split; [intros _; do 2 eexists; repeat split; simpl; lia
                | reflexivity]).
  - change (PosDef.Pos.compare_cont Eq m m') with (Pos.compare m m').
    destruct (Z.compare_spec e e') as [He | He | He];
      [destruct (Pos.compare_spec m m') as [Hm | Hm | Hm] | |]; simpl;
      (split; [ try discriminate; intros _; do 2 eexists; repeat split; simpl; lia
              | try reflexivity; intros (p & q & Hp & Hq & H);
                injection Hp as <-; injection Hq as <-; simpl in H; lia ]).
  - change (PosDef.Pos.compare_cont Eq m m') with (Pos.compare m m').
    destruct (Z.compare_spec e e') as [He | He | He];
      [destruct (Pos.compare_spec m m') as [Hm | Hm | Hm] | |]; simpl;
      (split; [ try discriminate; intros _; do 2 eexists; repeat split; simpl; lia
              | try reflexivity; intros (p & q & Hp & Hq & H);
                injection Hp as <-; injection Hq as <-; simpl in H; lia ]).
Qed.

Lemma SFleb_place (f g : spec_float) :
  SFleb f g = true
  <-> exists p q, place f = Some p /\ place g = Some q /\ (before p q \/ p = q).
Proof.
  unfold SFleb.
  destruct f as [s | s | | s m e], g as [s' | s' | | s' m' e']; simpl;
    try destruct s; try destruct s'; simpl;
    try change (PosDef.Pos.compare_cont Eq m m') with (Pos.compare m m');
    try match goal with
        | |- context [Z.compare ?a ?b] =>
            destruct (Z.compare_spec a b) as [He | He | He];
            [ match goal with
              | |- context [Pos.compare ?c ?d] =>
                  destruct (Pos.compare_spec c d) as [Hm | Hm | Hm]
              end
            | | ]; simpl
        end;
    (split;
     [ intro H0;
       first [ discriminate H0
             | do 2 eexists; split; [reflexivity |]; split; [reflexivity |];
               first [right; reflexivity | right; congruence | left; simpl; lia] ]
     | intros (p & q & Hp & Hq & HH);
       first [ discriminate Hp
             | discriminate Hq
             | injection Hp as <-; injection Hq as <-;
               first [ reflexivity
                     | exfalso; destruct HH as [HH | HH];
                       [simpl in HH; lia | injection HH; intros; lia] ] ] ]).
Qed.

Lemma before_trans (p q r : Z * Z * Z) : before p q -> before q r -> before p r.
Proof. destruct p as [[a b] c], q as [[a' b'] c'], r as [[a'' b''] c'']. simpl. lia. Qed.

(** [t < x] and [x <= y] give [t < y]. *)
Lemma lt_le_trans (t x y : float) : lt t x -> le x y -> lt t y.
Proof.
  unfold lt, le. rewrite !ltb_spec, leb_spec, !SFltb_place, SFleb_place.
  intros (p & q & Hp & Hq & H) (q' & r & Hq' & Hr & H').
  rewrite Hq in Hq'. injection Hq' as <-.
  exists p, r. repeat split; try assumption.
  destruct H' as [H' | <-]; [eapply before_trans; eassumption | assumption].
Qed.

(** [x <= y] and [y <= t] give [x <= t]. *)
Lemma le_trans (x y t : float) : le x y -> le y t -> le x t.
Proof.
  unfold le. rewrite !leb_spec, !SFleb_place.
  intros (p & q & Hp & Hq & H) (q' & r & Hq' & Hr & H').
  rewrite Hq in Hq'. injection Hq' as <-.
  exists p, r. repeat split; try assumption.
  destruct H as [H | <-]; [| exact H'].
  left. destruct H' as [H' | <-]; [eapply before_trans; eassumption | assumption].
Qed.

End OrderFacts.

Module OrderTheorems.
Import RuleTable RuleFacts FloatOrder OrderFacts.

Lemma rule_at (ind : Indicator) (i : nat) (r : (float -> bool) * string) :
  nth_error (rules ind) i = Some r ->
  exists t l, nth_error (thresholds ind) i = Some (t, l) /\ r = (matches ind t, l).
Proof.
  unfold rules. rewrite nth_error_map.
  destruct (nth_error (thresholds ind) i) as [[t l] |]; simpl; intro H;
    [| discriminate H].
  injection H as <-. eauto.
Qed.

Lemma selected_within {A L : Type} (rs : list ((A -> bool) * L)) (x : A) (i : nat) :
  selected rs x i -> i <= List.length rs.
Proof.
  intros [_ H]. destruct (nth_error rs i) eqn:E.
  - apply Nat.lt_le_incl, nth_error_Some. congruence.
  - subst i. apply Nat.le_refl.
Qed.

Lemma label_nth (ind : Indicator) (i : nat) :
  i <= List.length (rules ind) ->
  label (rules ind) (otherwise ind) i = nth i (labels ind) "".
Proof.
  intro Hi. unfold label, labels, rules in *. rewrite length_map in Hi.
  rewrite nth_error_map.
  destruct (nth_error (thresholds ind) i) as [r |] eqn:E; simpl.
  - rewrite app_nth1 by (rewrite length_map; apply nth_error_Some; congruence).
    symmetry. apply nth_error_nth. rewrite nth_error_map, E. reflexivity.
  - apply nth_error_None in E.
    assert (i = List.length (thresholds ind)) as -> by lia.
    rewrite app_nth2 by (rewrite length_map; lia).
    rewrite length_map, Nat.sub_diag. reflexivity.
Qed.

(** The band a value falls in moves one way with the value: for the three
    descending tables a larger value never is in a later band, for the
    density a larger value never is in an earlier band. *)
Lemma selected_monotone (ind : Indicator) (x y : float) (i j : nat) :
  le x y -> selected (rules ind) x i -> selected (rules ind) y j ->
  match ind with
  | SocioEconomicDensity => i <= j
  | _ => j <= i
  end.
Proof.
  intros Hxy Hx Hy.
  pose proof (selected_within _ _ _ Hx) as Bx.
  pose proof (selected_within _ _ _ Hy) as By.
  destruct Hx as [Hx_before Hx_at], Hy as [Hy_before Hy_at].
  assert (forall a b, a < b -> b <= List.length (rules ind) ->
                      exists r, nth_error (rules ind) a = Some r) as Hex.
  { intros a b Hab Hb. destruct (nth_error (rules ind) a) as [r |] eqn:E; [eauto |].
    apply nth_error_None in E. lia. }
  destruct ind; simpl;
    apply Nat.nlt_ge; intro Hlt;
    [ destruct (Hex i j Hlt By) as (r & Hr)
    | destruct (Hex i j Hlt By) as (r & Hr)
    | destruct (Hex i j Hlt By) as (r & Hr)
    | destruct (Hex j i Hlt Bx) as (r & Hr) ];
    destruct (rule_at _ _ _ Hr) as (t & l & _ & ->).
  - rewrite Hr in Hx_at. pose proof (Hy_before i _ Hlt Hr) as Hn. simpl in *.
    pose proof (lt_le_trans t x y Hx_at Hxy) as H. unfold lt in H. congruence.
  - rewrite Hr in Hx_at. pose proof (Hy_before i _ Hlt Hr) as Hn. simpl in *.
    pose proof (lt_le_trans t x y Hx_at Hxy) as H. unfold lt in H. congruence.
  - rewrite Hr in Hx_at. pose proof (Hy_before i _ Hlt Hr) as Hn. simpl in *.
    pose proof (lt_le_trans t x y Hx_at Hxy) as H. unfold lt in H. congruence.
  - rewrite Hr in Hy_at. pose proof (Hx_before j _ Hlt Hr) as Hn. simpl in *.
    pose proof (le_trans x y t Hxy Hy_at) as H. unfold le in H. congruence.
Qed.

(** Classification is monotone: of two values [x <= y], for urban
    planning, infrastructure and conservation [y] gets the label of the
    same band as [x] or of an earlier (higher) one, and for the density
    the label of the same band or of a later (denser) one. *)
Theorem classification_monotone (ind : Indicator) (x y : float) :
  le x y ->
  exists i j,
    classify ind x = nth i (labels ind) ""
    /\ classify ind y = nth j (labels ind) ""
    /\ i < List.length (labels ind) /\ j < List.length (labels ind)
    /\ match ind with
       | SocioEconomicDensity => i <= j
       | _ => j <= i
       end.
Proof.
  intro Hxy.
  destruct (first_match_selected (rules ind) (otherwise ind) x) as (i & Hi & Hsi & Hli).
  destruct (first_match_selected (rules ind) (otherwise ind) y) as (j & Hj & Hsj & Hlj).
  exists i, j. rewrite !classify_first_match, Hli, Hlj, !label_nth by assumption.
  assert (List.length (labels ind) = S (List.length (rules ind))) as ->.
  { unfold labels, rules. rewrite length_app, !length_map. simpl. lia. }
  repeat split; try lia.
  eapply selected_monotone; eassumption.
Qed.

Lemma classification_monotone_witness :
  exists i j,
    classify UrbanPlanningIndex 30%float = nth i (labels UrbanPlanningIndex) ""
    /\ classify UrbanPlanningIndex 65%float = nth j (labels UrbanPlanningIndex) ""
    /\ j <= i.
Proof.
  destruct (classification_monotone UrbanPlanningIndex 30%float 65%float eq_refl)
    as (i & j & Hi & Hj & _ & _ & Hle).
  exists i, j. auto.
Defined.

(** No band is dead: every label of every table is the classification of
    some finite, non-negative value, so no rule is shadowed by the rules
    before it. *)
Theorem every_band_reachable (ind : Indicator) :
  Forall (fun l => exists x, le 0%float x /\ lt x infinity /\ classify ind x = l)
         (labels ind)
  /\ map (classify ind) (band_samples ind) = labels ind.
Proof.
  assert (map (classify ind) (band_samples ind) = labels ind) as Hmap
      by (destruct ind; vm_compute; reflexivity).
  split; [| exact Hmap].
  rewrite <- Hmap. apply Forall_map.
  assert (Forall (fun x => le 0%float x /\ lt x infinity) (band_samples ind)) as Hs.
  { destruct ind; repeat constructor. }
  eapply Forall_impl; [| exact Hs].
  intros x [H0 Hinf]. exists x. auto.
Qed.

End OrderTheorems.

(** ** The file name of a map *)

Module FileNameFacts.
Import PandasFacts.

Lemma replace_char_cons (a b c : ascii) (s : string) :
  PyStr.replace (String a "") (String b "") (String c s)
  = String (if Ascii.eqb c a then b else c)
           (PyStr.replace (String a "") (String b "") s).
Proof.
  unfold PyStr.replace. simpl.
  destruct (ascii_dec a c) as [<- | Hne].
  - rewrite Ascii.eqb_refl. destruct s; reflexivity.
  - assert (Ascii.eqb c a = false) as ->
        by (apply Ascii.eqb_neq; congruence).
    reflexivity.
Qed.

Lemma replace_char_nil (a b : ascii) :
  PyStr.replace (String a "") (String b "") "" = "".
Proof. reflexivity. Qed.

Lemma replace_char_length (a b : ascii) (s : string) :
  String.length (PyStr.replace (String a "") (String b "") s) = String.length s.
Proof.
  induction s as [| c s IH]; [reflexivity |].
  rewrite replace_char_cons. simpl. f_equal. exact IH.
Qed.

Lemma replace_char_gone (a b : ascii) (s : string) :
  Ascii.eqb b a = false ->
  contains a (PyStr.replace (String a "") (String b "") s) = false.
Proof.
  intro Hab. induction s as [| c s IH]; [reflexivity |].
  rewrite replace_char_cons. cbn [contains]. rewrite IH.
  destruct (Ascii.eqb c a) eqn:E; [rewrite Hab | rewrite E]; reflexivity.
Qed.

Lemma replace_char_injective (a b : ascii) (s t : string) :
  contains b s = false -> contains b t = false ->
  PyStr.replace (String a "") (String b "") s
  = PyStr.replace (String a "") (String b "") t ->
  s = t.
Proof.
  revert t; induction s as [| c s IH]; intros [| d t] Hs Ht H;
    rewrite ?replace_char_cons, ?replace_char_nil in H;
    try discriminate H; [reflexivity |].
  simpl in Hs, Ht.
  apply orb_false_iff in Hs as [Hc Hs]. apply orb_false_iff in Ht as [Hd Ht].
  injection H as Hhead Htail.
  f_equal; [| apply IH; assumption].
  destruct (Ascii.eqb c a) eqn:Ec, (Ascii.eqb d a) eqn:Ed.
  - apply Ascii.eqb_eq in Ec, Ed. congruence.
  - subst d. rewrite Ascii.eqb_refl in Hd. discriminate Hd.
  - subst c. rewrite Ascii.eqb_refl in Hc. discriminate Hc.
  - exact Hhead.
Qed.

Lemma contains_app (c : ascii) (s t : string) :
  contains c (s ++ t) = contains c s || contains c t.
Proof.
  induction s as [| a s IH]; simpl; [reflexivity |].
  rewrite IH. apply orb_assoc.
Qed.

Lemma append_length (s t : string) :
  String.length (s ++ t) = String.length s + String.length t.
Proof. induction s as [| a s IH]; simpl; [reflexivity | f_equal; exact IH]. Qed.

Lemma append_cancel_r (s t u : string) : s ++ u = t ++ u -> s = t.
Proof.
  revert t; induction s as [| a s IH]; intros [| b t] H; simpl in H.
  - reflexivity.
  - exfalso. apply (f_equal String.length) in H. simpl in H.
    rewrite append_length in H. lia.
  - exfalso. apply (f_equal String.length) in H. simpl in H.
    rewrite append_length in H. lia.
  - injection H as -> H. f_equal. apply IH. exact H.
Qed.

End FileNameFacts.

Module FileNameTheorems.
Import PandasFacts FileNameFacts Samples UploadSamples.

(** [create_map] fails in two places only, and with the exception raised
    there: in the conversion of the frame by [folium.GeoJson], before
    anything is rendered, and in [m.save].  The file name it returns has no
    blank, ends in [_Interactive_Map.html] and is 21 characters longer than
    the title. *)
Theorem map_file_name (process_data : DataFrame -> result unit)
        (save : Map -> string -> result unit) (gdf : DataFrame)
        (title column : string) :
  (forall e, process_data gdf = Err e ->
             create_map process_data save gdf title column = Err e)
  /\ (forall e, create_map process_data save gdf title column = Err e ->
                process_data gdf = Err e
                \/ (process_data gdf = Ok tt /\ exists m p, save m p = Err e))
  /\ forall m p,
       create_map process_data save gdf title column = Ok (m, p) ->
       process_data gdf = Ok tt
       /\ save m p = Ok tt
       /\ contains " " p = false
       /\ PyStr.endswith p "_Interactive_Map.html" = true
       /\ String.length p = String.length title + 21.
Proof.
  split; [| split].
  - intros e E. unfold create_map. rewrite E. reflexivity.
  - intro e. unfold create_map. intro H.
    destruct (process_data gdf) as [[] | e0] eqn:E0; cbn [bind] in H.
    + right. split; [reflexivity |].
      match type of H with bind ?r _ = _ => destruct r as [[] | e'] eqn:E end;
        cbn [bind] in H; [discriminate H |].
      injection H as <-. do 2 eexists. exact E.
    + left. injection H as <-. reflexivity.
  - intros m p H. unfold create_map in H.
    destruct (process_data gdf) as [[] | e0] eqn:E0; cbn [bind] in H;
      [| discriminate H].
    match type of H with bind ?r _ = _ => destruct r as [[] | e'] eqn:E end;
      cbn [bind] in H; [| discriminate H].
    injection H as <- <-.
    change (PyStr.replace_from " " "_" 0 title) with (PyStr.replace " " "_" title).
    split; [reflexivity |]. split; [exact E |]. split; [| split].
    + rewrite contains_app, replace_char_gone by reflexivity. reflexivity.
    + apply endswith_app.
    + rewrite append_length, replace_char_length. reflexivity.
Qed.

Lemma map_file_name_witness :
  (exists m p,
     create_map converts_fine renders_fine alpha_boundary "Urban Planning"
       "Urban Planning Recommendation" = Ok (m, p)
     /\ contains " " p = false
     /\ String.length p = 35)
  /\ exists e,
       create_map no_crs renders_fine alpha_boundary "Urban Planning"
         "Urban Planning Recommendation" = Err (ValueError e).
Proof.
  split.
  - destruct (proj2 (proj2 (map_file_name converts_fine renders_fine alpha_boundary
                              "Urban Planning" "Urban Planning Recommendation"))
                _ _ eq_refl)
      as (_ & _ & Hblank & _ & Hlen).
    do 2 eexists. split; [reflexivity |]. split; [exact Hblank | exact Hlen].
  - eexists.
    exact (proj1 (map_file_name no_crs renders_fine alpha_boundary
                    "Urban Planning" "Urban Planning Recommendation") _ eq_refl).
Defined.

(** Two titles without an underscore never get the same file name: the
    map of one theme is not written over the map of another. *)
Theorem map_file_names_distinct (process_data process_data' : DataFrame -> result unit)
        (save save' : Map -> string -> result unit)
        (gdf gdf' : DataFrame) (title title' column column' : string)
        (m m' : Map) (p : string) :
  contains "_" title = false -> contains "_" title' = false ->
  create_map process_data save gdf title column = Ok (m, p) ->
  create_map process_data' save' gdf' title' column' = Ok (m', p) ->
  title = title'.
Proof.
  intros Ht Ht' H H'. unfold create_map in H, H'.
  destruct (process_data gdf) as [[] |]; cbn [bind] in H; [| discriminate H].
  destruct (process_data' gdf') as [[] |]; cbn [bind] in H'; [| discriminate H'].
  match type of H with bind ?r _ = _ => destruct r as [[] |] end;
    cbn [bind] in H; [| discriminate H].
  match type of H' with bind ?r _ = _ => destruct r as [[] |] end;
    cbn [bind] in H'; [| discriminate H'].
  injection H as _ Hp. injection H' as _ Hp'.
  rewrite <- Hp' in Hp. apply append_cancel_r in Hp.
  change (PyStr.replace " " "_" title = PyStr.replace " " "_" title') in Hp.
  eapply replace_char_injective; eassumption.
Qed.

Lemma map_file_names_distinct_witness :
  contains "_" "Urban Planning" = false
  /\ "Urban Planning" = "Urban Planning".
Proof.
  split; [reflexivity |].
  exact (map_file_names_distinct (fun _ => Ok tt) (fun _ => Ok tt)
           (fun _ _ => Ok tt) (fun _ _ => Ok tt)
           alpha_boundary alpha_boundary "Urban Planning" "Urban Planning"
           "Urban Planning Recommendation" "Urban Planning Recommendation"
           _ _ _ eq_refl eq_refl eq_refl eq_refl).
Defined.

End FileNameTheorems.

(** ** Uploaded files *)

Module UploadFacts.
Import PandasFacts FileNameFacts.

Lemma split_join (sep : ascii) (s : string) :
  str_join sep (fst (split sep s) :: snd (split sep s)) = s.
Proof.
  induction s as [| c s IH]; [reflexivity |].
  simpl. destruct (split sep s) as [p ps]. simpl in IH.
  destruct (Ascii.eqb c sep) eqn:E.
  - apply Ascii.eqb_eq in E. subst c. cbn [fst snd str_join].
    rewrite IH. reflexivity.
  - cbn [fst snd]. destruct ps as [| q ps]; simpl in *; rewrite IH; reflexivity.
Qed.

Lemma split_clean (sep : ascii) (s : string) :
  Forall (fun q => contains sep q = false) (fst (split sep s) :: snd (split sep s)).
Proof.
  induction s as [| c s IH]; [repeat constructor |].
  simpl. destruct (split sep s) as [p ps]. simpl in IH.
  destruct (Ascii.eqb c sep) eqn:E; cbn [fst snd].
  - constructor; [reflexivity | exact IH].
  - inversion IH as [| ? ? Hp Hps]; subst. constructor; [| exact Hps].
    simpl. rewrite E, Hp. reflexivity.
Qed.

Lemma split_no_sep (sep : ascii) (s : string) :
  contains sep s = false -> split sep s = (s, []).
Proof.
  induction s as [| c s IH]; [reflexivity |].
  simpl. intro H. apply orb_false_iff in H as [Hc Hs].
  rewrite (IH Hs), Hc. reflexivity.
Qed.

Lemma endswith_refl (s : string) : PyStr.endswith s s = true.
Proof. destruct s; cbn [PyStr.endswith]; rewrite String.eqb_refl; reflexivity. Qed.

Lemma endswith_cons (c : ascii) (s suffix : string) :
  PyStr.endswith s suffix = true -> PyStr.endswith (String c s) suffix = true.
Proof. intro H. cbn [PyStr.endswith]. rewrite H. apply orb_true_r. Qed.

Lemma endswith_app_l (s t suffix : string) :
  PyStr.endswith t suffix = true -> PyStr.endswith (s ++ t) suffix = true.
Proof.
  intro H. induction s as [| c s IH]; [exact H |].
  apply endswith_cons. exact IH.
Qed.

Lemma last_nonempty {A : Type} (r : A) (l : list A) (d d' : A) :
  last (r :: l) d = last (r :: l) d'.
Proof.
  revert r; induction l as [| a l IH]; intro r; [reflexivity |].
  change (last (a :: l) d = last (a :: l) d'). apply IH.
Qed.

Lemma last_cons {A : Type} (q : A) (ps : list A) (p : A) :
  last (q :: ps) p = last ps q.
Proof.
  destruct ps as [| r ps]; [reflexivity |].
  change (last (r :: ps) p = last (r :: ps) q). apply last_nonempty.
Qed.

Lemma join_ends_with_last (sep : ascii) (p : string) (ps : list string) :
  PyStr.endswith (str_join sep (p :: ps)) (last ps p) = true.
Proof.
  revert p; induction ps as [| q ps IH]; intro p.
  - apply endswith_refl.
  - change (str_join sep (p :: q :: ps)) with (p ++ String sep (str_join sep (q :: ps))).
    rewrite last_cons.
    apply endswith_app_l, endswith_cons, IH.
Qed.

Lemma append_assoc (s t u : string) : (s ++ t) ++ u = s ++ (t ++ u).
Proof. induction s as [| a s IH]; simpl; [reflexivity | f_equal; exact IH]. Qed.

Lemma join_stem (sep : ascii) (p q : string) (ps : list string) :
  exists stem, str_join sep (p :: q :: ps) = stem ++ String sep (last (q :: ps) p).
Proof.
  revert p q; induction ps as [| r ps IH]; intros p q.
  - exists p. reflexivity.
  - destruct (IH q r) as (stem & Hstem).
    exists (p ++ String sep stem).
    change (str_join sep (p :: q :: r :: ps))
      with (p ++ String sep (str_join sep (q :: r :: ps))).
    rewrite Hstem.
    change (last (q :: r :: ps) p) with (last (r :: ps) p).
    rewrite (last_nonempty r ps p q).
    rewrite append_assoc. reflexivity.
Qed.

Lemma dict_get_set_same {V : Type} (k : string) (v : V) (d : dict V) :
  dict_get k (dict_set k v d) = Some v.
Proof.
  induction d as [| [k' v'] d IH]; simpl.
  - rewrite String.eqb_refl; reflexivity.
  - destruct (String.eqb k' k) eqn:E; simpl.
    + rewrite String.eqb_refl; reflexivity.
    + rewrite E; exact IH.
Qed.

Lemma dict_get_set_other {V : Type} (k k' : string) (v : V) (d : dict V) :
  String.eqb k' k = false -> dict_get k (dict_set k' v d) = dict_get k d.
Proof.
  intro Hne. induction d as [| [k0 v0] d IH]; simpl.
  - rewrite Hne; reflexivity.
  - destruct (String.eqb k0 k') eqn:E; simpl.
    + apply String.eqb_eq in E; subst k0. rewrite Hne; reflexivity.
    + destruct (String.eqb k0 k); [reflexivity | exact IH].
Qed.

Lemma last_with_extension_cons (k : string) (f : UploadedFile)
      (files : list UploadedFile) :
  last_with_extension k (f :: files)
  = match last_with_extension k files with
    | Some g => Some g
    | None => if String.eqb (extension f) k then Some f else None
    end.
Proof.
  unfold last_with_extension. simpl rev.
  induction (rev files) as [| g gs IH]; simpl.
  - reflexivity.
  - destruct (String.eqb (extension g) k); [reflexivity | exact IH].
Qed.

Section WithFiles.
Variable write_file : string -> string -> result unit.

(** The dictionary the loop returns: under each key the path of the last
    upload with that extension; other keys as they were. *)
Lemma save_each_get (temp_dir : string) (files : list UploadedFile)
      (d0 d : dict string) :
  save_each write_file temp_dir files d0 = Ok d ->
  forall k,
    dict_get k d
    = match last_with_extension k files with
      | Some f => Some (path_join temp_dir (Streamlit.name f))
      | None => dict_get k d0
      end.
Proof.
  revert d0; induction files as [| f files IH]; intros d0 H k.
  - injection H as <-. reflexivity.
  - simpl in H. bind_inv H.
    rewrite (IH _ H k), last_with_extension_cons.
    destruct (last_with_extension k files); [reflexivity |].
    fold (extension f).
    destruct (String.eqb (extension f) k) eqn:E.
    + apply String.eqb_eq in E. rewrite <- E. apply dict_get_set_same.
    + apply dict_get_set_other. exact E.
Qed.

Lemma save_each_written (temp_dir : string) (files : list UploadedFile)
      (d0 d : dict string) :
  save_each write_file temp_dir files d0 = Ok d ->
  Forall (fun f => write_file (path_join temp_dir (Streamlit.name f)) (getvalue f)
                   = Ok tt) files.
Proof.
  revert d0; induction files as [| f files IH]; intros d0 H; [constructor |].
  simpl in H. bind_inv H. destruct a. constructor; [exact Ea | eapply IH; exact H].
Qed.

End WithFiles.

End UploadFacts.

Module UploadTheorems.
Import PandasFacts FileNameFacts UploadFacts.

(** The key an upload is filed under is the text after the last dot of
    its name: it contains no dot and the name ends with it; a name
    without a dot is its own key, and otherwise the name is a stem, a dot
    and the key.  Joining the pieces of the split gives the name back, so
    the split never fails and loses nothing. *)
Theorem extension_of_name (name : string) :
  contains "." (split_last "." name) = false
  /\ PyStr.endswith name (split_last "." name) = true
  /\ (contains "." name = false -> split_last "." name = name)
  /\ (contains "." name = true ->
      exists stem, name = stem ++ "." ++ split_last "." name)
  /\ str_join "." (fst (split "." name) :: snd (split "." name)) = name.
Proof.
  pose proof (split_join "." name) as Hjoin.
  pose proof (split_clean "." name) as Hclean.
  unfold split_last. destruct (split "." name) as [p ps] eqn:E. simpl in Hjoin, Hclean.
  split; [| split; [| split; [| split]]].
  - rewrite Forall_forall in Hclean. apply Hclean.
    destruct ps as [| q ps]; [left; reflexivity |].
    right. change (last (q :: ps) p) with (last (q :: ps) p).
    destruct (exists_last (l := q :: ps)) as (l' & a & Hl); [discriminate |].
    rewrite Hl, last_last. apply in_or_app. right. left. reflexivity.
  - rewrite <- Hjoin at 1. apply join_ends_with_last.
  - intro H. rewrite (split_no_sep _ _ H) in E. injection E as <- <-. reflexivity.
  - intro H. destruct ps as [| q ps].
    + simpl in Hjoin. subst p. inversion Hclean; subst. congruence.
    + destruct (join_stem "." p q ps) as (stem & Hstem).
      exists stem. rewrite <- Hjoin at 1. exact Hstem.
  - exact Hjoin.
Qed.

(** When [save_uploaded_files] returns, every upload has been written
    under the temporary directory's name joined with its own, and
    [file_paths] has, under each extension, the path of the last upload
    with that extension and no other key: of two uploads with one
    extension only the later one can be found. *)
Theorem saved_paths (TemporaryDirectory : result string)
        (write_file : string -> string -> result unit)
        (files : list UploadedFile) (file_paths : dict string) (temp_dir : string) :
  save_uploaded_files TemporaryDirectory write_file files = Ok (file_paths, temp_dir) ->
  TemporaryDirectory = Ok temp_dir
  /\ Forall (fun f => write_file (path_join temp_dir (Streamlit.name f)) (getvalue f)
                      = Ok tt) files
  /\ forall k,
       dict_getitem file_paths k
       = match last_with_extension k files with
         | Some f => Ok (path_join temp_dir (Streamlit.name f))
         | None => Err (KeyError k)
         end.
Proof.
  unfold save_uploaded_files. intro H. bind_inv H. bind_inv H.
  injection H as <- <-.
  split; [reflexivity |]. split; [eapply save_each_written; eassumption |].
  intro k. unfold dict_getitem. rewrite (save_each_get _ _ _ _ _ Ea0 k).
  destruct (last_with_extension k files); reflexivity.
Qed.

End UploadTheorems.

Module UploadWitnesses.
Import UploadTheorems UploadSamples.

Lemma saved_paths_witness :
  exists file_paths,
    save_uploaded_files (Ok "/tmp/x") writes_fine uploads = Ok (file_paths, "/tmp/x")
    /\ dict_getitem file_paths "shp" = Ok "/tmp/x/states.v2.shp"
    /\ dict_getitem file_paths "SHP" = Ok "/tmp/x/OLD.SHP"
    /\ dict_getitem file_paths "prj" = Err (KeyError "prj").
Proof.
  eexists. split; [reflexivity |].
  destruct (saved_paths (Ok "/tmp/x") writes_fine uploads _ _ eq_refl) as (_ & _ & H).
  repeat split; rewrite H; reflexivity.
Defined.

End UploadWitnesses.

(** ** [main] *)

Module MainFacts.
Import PandasFacts UploadFacts.

Lemma file_paths_get (TemporaryDirectory : result string)
      (write_file : string -> string -> result unit)
      (files : list UploadedFile) (file_paths : dict string) (temp_dir k : string) :
  save_uploaded_files TemporaryDirectory write_file files = Ok (file_paths, temp_dir) ->
  dict_getitem file_paths k
  = match last_with_extension k files with
    | Some f => Ok (path_join temp_dir (Streamlit.name f))
    | None => Err (KeyError k)
    end.
Proof.
  unfold save_uploaded_files. intro H. bind_inv H. bind_inv H.
  injection H as <- <-.
  unfold dict_getitem. rewrite (save_each_get _ _ _ _ _ Ea0 k).
  destruct (last_with_extension k files); reflexivity.
Qed.

End MainFacts.

Module MainTheorems.
Import PandasFacts UploadFacts MainFacts UploadSamples Samples.

(** The boundary [process_files] reads is the last upload whose name ends
    in the extension shp, spelled exactly so; then it reads the population
    file as latin1 and the land file.  When no upload has that extension
    (capitals do not count), it raises [KeyError] with shp before any file
    is read. *)
Theorem boundary_file_choice (TemporaryDirectory : result string)
        (write_file : string -> string -> result unit)
        (read_file : string -> result DataFrame)
        (read_csv : UploadedFile -> option string -> result DataFrame)
        (files : list UploadedFile) (file_paths : dict string) (temp_dir : string)
        (population_file land_file : UploadedFile) :
  save_uploaded_files TemporaryDirectory write_file files = Ok (file_paths, temp_dir) ->
  process_uploaded_files read_file read_csv file_paths population_file land_file
  = match last_with_extension "shp" files with
    | None => Err (KeyError "shp")
    | Some f =>
        gdf <- read_file (path_join temp_dir (Streamlit.name f)) ;;
        population_data <- read_csv population_file (Some "latin1") ;;
        land_data <- read_csv land_file None ;;
        process_files gdf population_data land_data
    end.
Proof.
  intro H. unfold process_uploaded_files.
  rewrite (file_paths_get _ _ _ _ _ "shp" H).
  destruct (last_with_extension "shp" files); reflexivity.
Qed.

Lemma boundary_file_choice_witness :
  exists file_paths,
    save_uploaded_files (Ok "/tmp/x") writes_fine capital_uploads
    = Ok (file_paths, "/tmp/x")
    /\ process_uploaded_files reads_alpha reads_csv file_paths population_csv land_csv
       = Err (KeyError "shp").
Proof.
  eexists. split; [reflexivity |].
  exact (boundary_file_choice (Ok "/tmp/x") writes_fine reads_alpha reads_csv
           capital_uploads _ "/tmp/x" population_csv land_csv eq_refl).
Defined.

(** [main] does nothing beyond showing the uploaders until all three
    uploads are there.  Once they are, the success message is shown before
    anything is processed: when saving the uploads or [process_files]
    raises, the page has shown the success message and no map, and the
    exception leaves [main]. *)
Theorem main_stops_early (shapefiles : list UploadedFile)
        (population land : option UploadedFile)
        (TemporaryDirectory : result string)
        (write_file : string -> string -> result unit)
        (open_rb : string -> result string)
        (read_file : string -> result DataFrame)
        (read_csv : UploadedFile -> option string -> result DataFrame)
        (process_data : DataFrame -> result unit)
        (save : Map -> string -> result unit) :
  let run := main shapefiles population land TemporaryDirectory write_file open_rb
                  read_file read_csv process_data save in
  (shapefiles = [] \/ population = None \/ land = None -> run = (prelude, Ok tt))
  /\ forall population_file land_file e,
       shapefiles <> [] -> population = Some population_file ->
       land = Some land_file ->
       save_uploaded_files TemporaryDirectory write_file shapefiles = Err e
       \/ (exists file_paths temp_dir,
             save_uploaded_files TemporaryDirectory write_file shapefiles
             = Ok (file_paths, temp_dir)
             /\ process_uploaded_files read_file read_csv file_paths
                  population_file land_file = Err e) ->
       run = ((prelude ++ [success_message])%list, Err e).
Proof.
  intro run. subst run. split.
  - intros [-> | [-> | ->]]; unfold main; simpl.
    + reflexivity.
    + destruct shapefiles; reflexivity.
    + destruct shapefiles; [reflexivity | destruct population; reflexivity].
  - intros pf lf e Hs -> -> H.
    destruct shapefiles as [| f fs]; [contradiction |].
    unfold main; simpl.
    destruct H as [H | (d & tmp & H & Hp)]; rewrite H; simpl; [reflexivity |].
    rewrite Hp. reflexivity.
Qed.

Lemma main_stops_early_witness :
  main capital_uploads (Some population_csv) (Some land_csv) (Ok "/tmp/x")
       writes_fine reads_back reads_alpha reads_csv converts_fine renders_fine
  = ((prelude ++ [success_message])%list, Err (KeyError "shp")).
Proof.
  refine (proj2 (main_stops_early capital_uploads (Some population_csv)
                   (Some land_csv) (Ok "/tmp/x") writes_fine reads_back reads_alpha
                   reads_csv converts_fine renders_fine)
            population_csv land_csv (KeyError "shp") _ eq_refl eq_refl _).
  - discriminate.
  - right. do 2 eexists. split; reflexivity.
Defined.

(** When the uploads are saved, [process_files] returns the frame [gdf]
    and the renderer and the file system work, what [main] shows depends on
    whether folium can convert [gdf].  If it can, [main] shows the success
    message and then, theme by theme in the order urban planning,
    infrastructure, conservation, socio-economics: the theme's heading, a
    map whose one layer holds [gdf], and a download button for the file
    the map was saved to, named after the theme.  If the conversion raises
    (a boundary uploaded without its .prj has no coordinate reference
    system), [main] stops in the first theme: it has shown the success
    message and the first heading, no map and no button, and the exception
    leaves [main]. *)
Theorem main_renders_four_themes (shapefiles : list UploadedFile)
        (population_file land_file : UploadedFile)
        (TemporaryDirectory : result string)
        (write_file : string -> string -> result unit)
        (open_rb : string -> result string)
        (read_file : string -> result DataFrame)
        (read_csv : UploadedFile -> option string -> result DataFrame)
        (process_data : DataFrame -> result unit)
        (save : Map -> string -> result unit)
        (file_paths : dict string) (temp_dir : string) (gdf : DataFrame)
        (contents : string -> string) :
  shapefiles <> [] ->
  save_uploaded_files TemporaryDirectory write_file shapefiles
  = Ok (file_paths, temp_dir) ->
  process_uploaded_files read_file read_csv file_paths population_file land_file
  = Ok gdf ->
  (forall m path, save m path = Ok tt) ->
  (forall path, open_rb path = Ok (contents path)) ->
  let run := main shapefiles (Some population_file) (Some land_file)
                  TemporaryDirectory write_file open_rb read_file read_csv
                  process_data save in
  (process_data gdf = Ok tt ->
   exists m1 m2 m3 m4,
     run
     = ((prelude
         ++ [ success_message;
              Subheader "Urban Planning";
              FoliumStatic m1;
              DownloadButton "Download Urban Planning Map"
                (contents "Urban_Planning_Interactive_Map.html")
                "Urban_Planning_Interactive_Map.html" "text/html";
              Subheader "Infrastructure Development";
              FoliumStatic m2;
              DownloadButton "Download Infrastructure Development Map"
                (contents "Infrastructure_Development_Interactive_Map.html")
                "Infrastructure_Development_Interactive_Map.html" "text/html";
              Subheader "Environmental Conservation";
              FoliumStatic m3;
              DownloadButton "Download Environmental Conservation Map"
                (contents "Environmental_Conservation_Interactive_Map.html")
                "Environmental_Conservation_Interactive_Map.html" "text/html";
              Subheader "Socio-Economics Analysis";
              FoliumStatic m4;
              DownloadButton "Download Socio-Economics Analysis Map"
                (contents "Socio-Economics_Analysis_Interactive_Map.html")
                "Socio-Economics_Analysis_Interactive_Map.html" "text/html" ])%list,
        Ok tt)
     /\ Forall2 (fun m column =>
                   exists layer, children m = [layer] /\ data layer = gdf
                                 /\ fields (tooltip layer) = ["statename"; column])
                [m1; m2; m3; m4]
                [ "Urban Planning Recommendation";
                  "Infrastructure Development Recommendation";
                  "Environmental Conservation Recommendation";
                  "Socio-Economics Analysis Recommendation" ])
  /\ (forall e, process_data gdf = Err e ->
                 run = ((prelude ++ [success_message; Subheader "Urban Planning"])%list,
                        Err e)).
Proof.
  intros Hs Hsave Hproc Hrender Hopen run. subst run.
  destruct shapefiles as [| f fs]; [contradiction |].
  split.
  - intro Hconv. do 4 eexists. split.
    + unfold main; simpl. rewrite Hsave; simpl. rewrite Hproc; simpl.
      unfold render_theme, create_map; simpl.
      rewrite !Hconv; simpl. rewrite !Hrender; simpl. rewrite !Hopen; simpl.
      reflexivity.
    + repeat constructor; eexists; repeat split; reflexivity.
  - intros e Hconv.
    unfold main; simpl. rewrite Hsave; simpl. rewrite Hproc; simpl.
    unfold render_theme, create_map; simpl.
    rewrite Hconv; simpl. reflexivity.
Qed.

Lemma main_renders_four_themes_witness :
  (exists events,
     main uploads (Some population_csv) (Some land_csv) (Ok "/tmp/x")
          writes_fine reads_back reads_alpha reads_csv converts_fine renders_fine
     = (events, Ok tt)
     /\ List.length events = 18)
  /\ exists events e,
       main uploads (Some population_csv) (Some land_csv) (Ok "/tmp/x")
            writes_fine reads_back reads_alpha reads_csv no_crs renders_fine
       = (events, Err (ValueError e))
       /\ List.length events = 7.
Proof.
  split.
  - edestruct (main_renders_four_themes uploads population_csv land_csv (Ok "/tmp/x")
                 writes_fine reads_back reads_alpha reads_csv converts_fine
                 renders_fine)
      with (contents := fun path => "contents of " ++ path)
      as [Hfine _];
      [ discriminate | reflexivity | vm_compute; reflexivity
      | reflexivity | reflexivity | ].
    destruct (Hfine eq_refl) as (m1 & m2 & m3 & m4 & Hmain & _).
    eexists. split; [exact Hmain | reflexivity].
  - edestruct (main_renders_four_themes uploads population_csv land_csv (Ok "/tmp/x")
                 writes_fine reads_back reads_alpha reads_csv no_crs renders_fine)
      with (contents := fun path => "contents of " ++ path)
      as [_ Hstop];
      [ discriminate | reflexivity | vm_compute; reflexivity
      | reflexivity | reflexivity | ].
    do 2 eexists. split; [exact (Hstop _ eq_refl) | reflexivity].
Defined.

End MainTheorems.

(** ** Normalization and the shape of the result *)

Module ShapeFacts.
Import PandasFacts ConvertFacts PipelineFacts FileNameFacts.

Lemma delete_char_cons (a c : ascii) (s : string) :
  PyStr.replace (String a "") "" (String c s)
  = if Ascii.eqb c a then PyStr.replace (String a "") "" s
    else String c (PyStr.replace (String a "") "" s).
Proof.
  unfold PyStr.replace. simpl.
  destruct (ascii_dec a c) as [<- | Hne].
  - rewrite Ascii.eqb_refl. destruct s; reflexivity.
  - assert (Ascii.eqb c a = false) as ->
        by (apply Ascii.eqb_neq; congruence).
    reflexivity.
Qed.

Lemma delete_char_app (a : ascii) (s t : string) :
  PyStr.replace (String a "") "" (s ++ t)
  = PyStr.replace (String a "") "" s ++ PyStr.replace (String a "") "" t.
Proof.
  induction s as [| c s IH]; [reflexivity |].
  change (String c s ++ t) with (String c (s ++ t)).
  rewrite !delete_char_cons, IH. destruct (Ascii.eqb c a); reflexivity.
Qed.

Lemma delete_char_gone (a : ascii) (s : string) :
  contains a (PyStr.replace (String a "") "" s) = false.
Proof.
  induction s as [| c s IH]; [reflexivity |].
  rewrite delete_char_cons. destruct (Ascii.eqb c a) eqn:E; [exact IH |].
  cbn [contains]. rewrite E, IH. reflexivity.
Qed.

Lemma delete_char_skip (a : ascii) (s t : string) :
  PyStr.replace (String a "") "" (s ++ String a t)
  = PyStr.replace (String a "") "" (s ++ t).
Proof.
  rewrite !delete_char_app, delete_char_cons, Ascii.eqb_refl. reflexivity.
Qed.

Lemma lookup_assign_inv (c c' : string) (s s' : Series) (cols : list (string * Series)) :
  lookup c (assign c' s cols) = Some s' ->
  (c = c' /\ s' = s) \/ lookup c cols = Some s'.
Proof.
  destruct (String.eqb c' c) eqn:E.
  - apply String.eqb_eq in E. subst c'. rewrite lookup_assign_same.
    intro H. injection H as <-. left. auto.
  - rewrite lookup_assign_other by exact E. auto.
Qed.

Lemma single_cell (c : string) (pat : option string) (t : string) :
  numeric_column c pat (Samples.column c (ObjectSeries [Some t]))
  = match PyFloat.of_string (normalized pat t) with
    | Some x => Ok (FloatSeries [if is_nan x then 0%float else x])
    | None => Err (ValueError (normalized pat t))
    end.
Proof.
  unfold numeric_column, Samples.column, getitem. simpl.
  rewrite String.eqb_refl. simpl. rewrite strip_pattern_object; simpl.
  destruct (PyFloat.of_string (normalized pat t)); reflexivity.
Qed.

End ShapeFacts.

Module ShapeTheorems.
Import PandasFacts ConvertFacts PipelineFacts ShapeFacts Samples.

(** The normalization deletes its sign wherever it stands, not only at
    the end or between thousands: a percent sign anywhere in an urban
    percentage, and a comma anywhere in a density, changes neither the
    indicator nor the exception; what is parsed holds no such sign. *)
Theorem signs_ignored_anywhere (s t : string) :
  urban_planning (column "Urban pop. In %" (ObjectSeries [Some (s ++ "%" ++ t)]))
  = urban_planning (column "Urban pop. In %" (ObjectSeries [Some (s ++ t)]))
  /\ socio_economics_analysis (column "Density" (ObjectSeries [Some (s ++ "," ++ t)]))
     = socio_economics_analysis (column "Density" (ObjectSeries [Some (s ++ t)]))
  /\ contains "%" (normalized (Some "%") s) = false
  /\ contains "," (normalized (Some ",") s) = false.
Proof.
  split; [| split; [| split]].
  - change ("%" ++ t) with (String "%" t).
    change (numeric_column "Urban pop. In %" (Some "%")
              (column "Urban pop. In %" (ObjectSeries [Some (s ++ String "%" t)]))
            = numeric_column "Urban pop. In %" (Some "%")
                (column "Urban pop. In %" (ObjectSeries [Some (s ++ t)]))).
    rewrite (single_cell _ _ (s ++ String "%" t)), (single_cell _ _ (s ++ t)).
    unfold normalized. rewrite (delete_char_skip "%"). reflexivity.
  - change ("," ++ t) with (String "," t).
    change (numeric_column "Density" (Some ",")
              (column "Density" (ObjectSeries [Some (s ++ String "," t)]))
            = numeric_column "Density" (Some ",")
                (column "Density" (ObjectSeries [Some (s ++ t)]))).
    rewrite (single_cell _ _ (s ++ String "," t)), (single_cell _ _ (s ++ t)).
    unfold normalized. rewrite (delete_char_skip ","). reflexivity.
  - apply (delete_char_gone "%").
  - apply (delete_char_gone ",").
Qed.

(** The frame [process_files] returns is rectangular: every column it has,
    the merged ones and the eight assigned ones, has exactly one cell per
    row. *)
Theorem result_is_rectangular (gdf pop land out : DataFrame) (c : string) (s : Series) :
  process_files gdf pop land = Ok out ->
  getitem out c = Ok s ->
  size s = nrows out.
Proof.
  intros Hout Hc.
  destruct (process_files_Ok_inv _ _ _ _ Hout)
    as (m & y1 & y2 & y3 & y4 & Hm & H1 & H2 & H3 & H4 & ->).
  pose proof (ProcessFacts.conversion_sized _ _ _ _ _ _ _ Hm H1) as L1.
  pose proof (ProcessFacts.conversion_sized _ _ _ _ _ _ _ Hm H2) as L2.
  pose proof (ProcessFacts.conversion_sized _ _ _ _ _ _ _ Hm H3) as L3.
  pose proof (ProcessFacts.conversion_sized _ _ _ _ _ _ _ Hm H4) as L4.
  apply getitem_Ok in Hc.
  unfold with_recommendations, with_indicators, setitem in *; simpl in *.
  repeat match type of Hc with
         | lookup _ (assign _ _ _) = Some _ =>
             apply lookup_assign_inv in Hc as [[_ ->] | Hc];
             [simpl; unfold labelled; rewrite ?length_map; assumption |]
         end.
  eapply merge_datasets_sizes; eassumption.
Qed.

Lemma result_is_rectangular_witness :
  exists out s,
    process_files two_regions population_with_gaps two_land = Ok out
    /\ getitem out "Density" = Ok s
    /\ size s = 2.
Proof.
  pose proof (process_files_Ok two_regions population_with_gaps two_land _
                [65; 0]%float [9000; 1500]%float [3200; 400]%float [1150; 0]%float
                eq_refl eq_refl eq_refl eq_refl eq_refl) as E.
  pose proof (result_is_rectangular _ _ _ _ "Density"
                (ObjectSeries [Some "1,150"; None]) E eq_refl) as H.
  do 2 eexists. split; [exact E |]. split; [reflexivity | exact H].
Defined.

End ShapeTheorems.

(** ** Column names shared between the tables *)

Module SharedNameFacts.
Import PandasFacts PipelineFacts SourceFacts ProcessFacts.

Lemma mem_In (c : string) (cs : list string) : mem c cs = true <-> In c cs.
Proof.
  unfold mem. rewrite existsb_exists. split.
  - intros (x & Hx & E). apply String.eqb_eq in E. subst x. exact Hx.
  - intro H. exists c. split; [exact H | apply String.eqb_refl].
Qed.

(** A plain name is a column of the merged frame exactly when one side
    alone has it. *)
Lemma merge_has (L R M : DataFrame) (lo ro c : string) :
  String.eqb lo ro = false -> plain c = true ->
  merge L R lo ro = Ok M ->
  mem c (names M) = xorb (mem c (names L)) (mem c (names R)).
Proof.
  intros Hne Hc H.
  destruct (lookup_merge L R M lo ro c Hne Hc H) as (ixl & ixr & E).
  unfold names. rewrite !mem_names, E.
  destruct (lookup c (columns L)), (lookup c (columns R)); reflexivity.
Qed.

(** A name both sides have is found twice in the merged frame, once with
    each suffix. *)
Lemma merge_suffixes (L R M : DataFrame) (lo ro c : string) :
  String.eqb lo ro = false ->
  merge L R lo ro = Ok M ->
  In c (names L) -> In c (names R) ->
  In (c ++ "_x") (names M) /\ In (c ++ "_y") (names M).
Proof.
  intros Hne H HL HR.
  destruct (merge_Ok_inv _ _ _ _ _ Hne H) as (ls & rs & ix & _ & _ & _ & ->).
  pose proof HL as HL'. pose proof HR as HR'.
  apply mem_In in HL'. apply mem_In in HR'.
  unfold names in HL, HR. apply in_map_iff in HL as (pl & <- & HL).
  apply in_map_iff in HR as (pr & Er & HR).
  unfold names in *; cbn [columns]. rewrite map_app, !map_map; cbn [fst].
  split; apply in_or_app; [left | right]; apply in_map_iff.
  - exists pl. split; [| exact HL]. unfold suffixed. rewrite HR'. reflexivity.
  - exists pr. split; [| exact HR]. unfold suffixed. rewrite Er, HL'. reflexivity.
Qed.

Lemma merged_has (gdf pop land m : DataFrame) (c : string) :
  plain c = true ->
  merge_datasets gdf pop land = Ok m ->
  mem c (names m)
  = xorb (xorb (mem c (names gdf)) (mem c (names pop))) (mem c (names land)).
Proof.
  intros Hc Hm.
  destruct (merge_datasets_Ok_inv _ _ _ _ Hm) as (m1 & H1 & H2).
  rewrite (merge_has m1 land m "statename" land_key c eq_refl Hc H2),
    (merge_has gdf pop m1 "statename" population_key c eq_refl Hc H1).
  reflexivity.
Qed.

Lemma getitem_mem (df : DataFrame) (c : string) (s : Series) :
  getitem df c = Ok s -> mem c (names df) = true.
Proof.
  intro H. apply getitem_Ok in H. unfold names. rewrite mem_names, H. reflexivity.
Qed.

Lemma mem_false_raises (df : DataFrame) (c : string) :
  mem c (names df) = false -> getitem df c = Err (KeyError c).
Proof.
  unfold names. rewrite mem_names. intro H. apply getitem_raises.
  destruct (lookup c (columns df)); [discriminate H | reflexivity].
Qed.

Lemma names_with_recommendations (m : DataFrame) (y1 y2 y3 y4 : list float) (c : string) :
  In c (names m) -> In c (names (with_recommendations m y1 y2 y3 y4)).
Proof.
  intro H. unfold names, with_recommendations, with_indicators, setitem; simpl.
  repeat apply names_assign. exact H.
Qed.

Lemma getitem_with_recommendations (m : DataFrame) (y1 y2 y3 y4 : list float)
      (c : string) :
  ~ In c assigned_columns ->
  getitem (with_recommendations m y1 y2 y3 y4) c = getitem m c.
Proof.
  intro Hc. unfold getitem, with_recommendations, with_indicators, setitem; simpl.
  rewrite !(lookup_assign_unassigned c) by (assumption || (simpl; tauto)).
  reflexivity.
Qed.

End SharedNameFacts.

Module SharedNameTheorems.
Import PandasFacts PipelineFacts SourceFacts ProcessFacts SharedNameFacts Samples MoreSamples.

(** The frame [process_files] returns has the column statename, which
    the tooltip of every map names, exactly when the land table has no
    column of that name.  When the land table has one, [process_files]
    still returns, but the region names are under statename_x, the land
    table's column is under statename_y, and looking up statename raises
    [KeyError].  The population table never has such a column when
    [process_files] returns. *)
Theorem region_name_column (gdf pop land out : DataFrame) :
  process_files gdf pop land = Ok out ->
  ~ In "statename" (names pop)
  /\ (~ In "statename" (names land) -> exists s, getitem out "statename" = Ok s)
  /\ (In "statename" (names land) ->
      getitem out "statename" = Err (KeyError "statename")
      /\ In "statename_x" (names out) /\ In "statename_y" (names out)).
Proof.
  intro Hout.
  destruct (process_files_Ok_inv _ _ _ _ Hout)
    as (m & y1 & y2 & y3 & y4 & Hm & _ & _ & _ & _ & ->).
  destruct (merge_datasets_Ok_inv _ _ _ _ Hm) as (m1 & H1 & H2).
  destruct (merge_Ok_inv gdf pop m1 "statename" population_key eq_refl H1)
    as (ls1 & rs1 & ix1 & Hg & _ & _).
  destruct (merge_Ok_inv m1 land m "statename" land_key eq_refl H2)
    as (ls2 & rs2 & ix2 & Hm1 & _ & _).
  pose proof (merge_has gdf pop m1 "statename" population_key "statename"
                eq_refl eq_refl H1) as E1.
  pose proof (merge_has m1 land m "statename" land_key "statename"
                eq_refl eq_refl H2) as E2.
  rewrite (getitem_mem _ _ _ Hg), (getitem_mem _ _ _ Hm1) in E1.
  rewrite (getitem_mem _ _ _ Hm1) in E2.
  assert (Hpop : mem "statename" (names pop) = false)
    by (destruct (mem "statename" (names pop)); [discriminate E1 | reflexivity]).
  assert (Hkeep : ~ In "statename" assigned_columns)
    by (simpl; intros [H | [H | [H | [H | [H | [H | [H | [H | []]]]]]]]];
        discriminate H).
  split; [| split].
  - intro H. apply mem_In in H. rewrite H in Hpop. discriminate Hpop.
  - intro Hland.
    assert (Hl : mem "statename" (names land) = false).
    { destruct (mem "statename" (names land)) eqn:E; [| reflexivity].
      apply mem_In in E. contradiction. }
    rewrite Hl in E2. rewrite getitem_with_recommendations by exact Hkeep.
    unfold names in E2. rewrite mem_names in E2. unfold getitem.
    destruct (lookup "statename" (columns m)) as [s |]; [| discriminate E2].
    exists s. reflexivity.
  - intro Hland. pose proof Hland as Hl. apply mem_In in Hl. rewrite Hl in E2.
    split; [| split].
    + rewrite getitem_with_recommendations by exact Hkeep.
      apply mem_false_raises. exact E2.
    + apply names_with_recommendations.
      apply (merge_suffixes m1 land m "statename" land_key "statename" eq_refl H2);
        [apply mem_In, (getitem_mem _ _ _ Hm1) | exact Hland].
    + apply names_with_recommendations.
      apply (merge_suffixes m1 land m "statename" land_key "statename" eq_refl H2);
        [apply mem_In, (getitem_mem _ _ _ Hm1) | exact Hland].
Qed.

Lemma region_name_column_witness :
  exists out,
    process_files two_regions population_with_gaps land_with_statename = Ok out
    /\ getitem out "statename" = Err (KeyError "statename")
    /\ getitem out "statename_x" = Ok (ObjectSeries [Some "Alpha"; Some "Beta"])
    /\ getitem out "statename_y" = Ok (ObjectSeries [Some "ALPHA"; Some "BETA"]).
Proof.
  destruct (process_files two_regions population_with_gaps land_with_statename)
    as [out | e] eqn:E; [| vm_compute in E; discriminate E].
  exists out. split; [reflexivity |].
  destruct (region_name_column _ _ _ _ E) as (_ & _ & H).
  split; [apply H; simpl; tauto |].
  vm_compute in E. injection E as <-. split; reflexivity.
Defined.

(** A source column is a column of the merged frame exactly when an
    odd number of the three tables has a column of that name: a name two
    tables share is suffixed on both sides and is no longer found.  So
    when a source column is in two of the tables, or in none,
    [process_files] raises, and if the merges went through, the conversion
    of that column raises [KeyError] with its name. *)
Theorem shared_source_column (gdf pop land : DataFrame) (c d : string)
        (pat : option string) :
  In (c, pat, d) indicators ->
  xorb (xorb (mem c (names gdf)) (mem c (names pop))) (mem c (names land)) = false ->
  (exists e, process_files gdf pop land = Err e)
  /\ forall m, merge_datasets gdf pop land = Ok m ->
       numeric_column c pat m = Err (KeyError c).
Proof.
  intros Hin Hx.
  assert (Hraise : forall m, merge_datasets gdf pop land = Ok m ->
                             numeric_column c pat m = Err (KeyError c)).
  { intros m Hm. unfold numeric_column.
    rewrite (mem_false_raises m c); [reflexivity |].
    rewrite (merged_has _ _ _ _ c (indicators_plain _ _ _ Hin) Hm). exact Hx. }
  split; [| exact Hraise].
  destruct (process_files gdf pop land) as [out | e] eqn:E; [| exists e; reflexivity].
  exfalso.
  destruct (process_files_Ok_inv _ _ _ _ E)
    as (m & y1 & y2 & y3 & y4 & Hm & E1 & E2 & E3 & E4 & _).
  pose proof (Hraise m Hm) as Hr.
  simpl in Hin. destruct Hin as [H | [H | [H | [H | []]]]];
    injection H as <- <- <-; congruence.
Qed.

Lemma shared_source_column_witness :
  process_files two_regions population_with_gaps land_with_density
  = Err (KeyError "Density").
Proof.
  assert (Hin : In ("Density", Some ",", "Socio-Economics Analysis") indicators)
    by (simpl; tauto).
  destruct (shared_source_column two_regions population_with_gaps land_with_density
              "Density" "Socio-Economics Analysis" (Some ",") Hin eq_refl)
    as ((e & E) & _).
  rewrite E. vm_compute in E. injection E as <-. reflexivity.
Defined.

End SharedNameTheorems.
